(** * OrbitX [data_structures.py]: the flat-buffer physics state container

    A shallow embedding of [orbitx/data_structures.py]: the [PhysicsState]
    container over one float64 numpy buffer, the entity views that alias
    rows of that buffer, and the engineering views that alias slices of it.

    Python objects with identity (a [PhysicsState] and the buffer it owns)
    live in a store; views are plain records that name their parent by
    reference, so aliasing between views is the aliasing of the source.
    Exceptions are values of [exn]; a computation keeps the store it had
    reached when it raises, as Python does. *)

From Stdlib Require Import ZArith List String Bool Lia.
From Stdlib Require Import SpecFloat.
From stdpp Require Import base option list strings.

Import ListNotations.
Open Scope string_scope.
Open Scope Z_scope.

(** ** float64 *)

(** numpy's [float64] (the container's [DTYPE]) is IEEE-754 binary64, taken
    from the standard library's executable specification of binary floats. *)
Definition float64 : Type := spec_float.

Definition prec : Z := 53.
Definition emax : Z := 1024.

Definition f64_zero : float64 := S754_zero false.
Definition f64_one : float64 := Eval vm_compute in SFone prec emax.
Definition f64_nan : float64 := S754_nan.

(** [float(z)] for a Python int: round to nearest even.  Python raises
    [OverflowError] where the result would not be finite; see [np_coerce]. *)
Definition float_of_Z (z : Z) : float64 := binary_normalize prec emax z 0 false.

Definition f64_eqb (a b : float64) : bool := SFeqb a b.
Definition f64_ltb (a b : float64) : bool := SFltb a b.
Definition f64_leb (a b : float64) : bool := SFleb a b.

(** [bool(x)] on a float: false exactly on the two zeros (NaN is truthy). *)
Definition bool_of_float (x : float64) : bool :=
  match x with
  | S754_zero _ => false
  | _ => true
  end.

(** The exceptions the module can raise. *)
Inductive exn : Type :=
| IndexError
| ValueError
| OverflowError
| AssertionError
| NoEntityError.

Inductive result (A : Type) : Type :=
| Ok (a : A)
| Raise (e : exn).
Arguments Ok {A} a.
Arguments Raise {A} e.

(** [int(x)] on a float truncates toward zero; it raises [ValueError] on NaN
    and [OverflowError] on an infinity. *)
Definition int_of_float (x : float64) : result Z :=
  match x with
  | S754_zero _ => Ok 0
  | S754_nan => Raise ValueError
  | S754_infinity _ => Raise OverflowError
  | S754_finite s m e =>
      let mag := match e with
                 | Zneg p => Z.pos m / 2 ^ Z.pos p
                 | _ => Z.pos m * 2 ^ e
                 end in
      Ok (if s then - mag else mag)
  end.

(** What Python code hands to a float64 cell: a float, an int or a bool. *)
Inductive scalar : Type :=
| SFloat (x : float64)
| SInt (z : Z)
| SBool (b : bool).

Definition is_finite (x : float64) : bool :=
  match x with
  | S754_zero _ | S754_finite _ _ _ => true
  | _ => false
  end.

(** The conversion numpy applies when a Python scalar is stored into a
    float64 array. *)
Definition np_coerce (v : scalar) : result float64 :=
  match v with
  | SFloat x => Ok x
  | SBool b => Ok (if b then f64_one else f64_zero)
  | SInt z => let x := float_of_Z z in
              if is_finite x then Ok x else Raise OverflowError
  end.

(** C's [fmod]: the exact remainder of [x / y], with the sign of [x]. *)
Definition fmod (x y : float64) : float64 :=
  match x, y with
  | S754_nan, _ | _, S754_nan => S754_nan
  | S754_infinity _, _ => S754_nan
  | _, S754_zero _ => S754_nan
  | _, S754_infinity _ => x
  | S754_zero _, _ => x
  | S754_finite sx mx ex, S754_finite _ my ey =>
      let ez := Z.min ex ey in
      let a := Z.pos mx * 2 ^ (ex - ez) in
      let b := Z.pos my * 2 ^ (ey - ez) in
      binary_normalize prec emax (cond_Zopp sx (Z.rem a b)) ez sx
  end.

(** numpy's [remainder] on doubles ([np.mod]): [fmod], moved to the sign of
    the divisor by one floating-point addition. *)
Definition np_mod (a b : float64) : float64 :=
  let m := fmod a b in
  if negb (bool_of_float b) then m
  else if bool_of_float m then
    if negb (Bool.eqb (f64_ltb b f64_zero) (f64_ltb m f64_zero))
    then SFadd prec emax m b else m
  else match b with
       | S754_finite s _ _ | S754_infinity s | S754_zero s => S754_zero s
       | S754_nan => S754_zero false
       end.

(** [np.pi] and [2 * np.pi]. *)
Definition np_pi : float64 := S754_finite false 7074237752028440 (-51).
Definition two_pi : float64 :=
  Eval vm_compute in SFmul prec emax (float_of_Z 2) np_pi.

(** [f64_below M E s r]: [r] is the zero of sign [s], or a float of sign [s]
    with a mantissa of at most 53 bits that is no larger in magnitude than
    the normal float of mantissa [M] and exponent [E]. *)
Definition f64_below (M : positive) (E : Z) (s : bool) (r : float64) : Prop :=
  r = S754_zero s
  \/ exists m e, r = S754_finite s m e /\ Z.pos m < 2 ^ 53
                 /\ (e < E \/ (e = E /\ Z.pos m <= Z.pos M)).

(** ** Python sequences *)

(** Subscripting a sequence of length [len] with an int: negative indices
    count from the end, anything else out of range raises [IndexError]. *)
Definition py_index (len : nat) (k : Z) : result nat :=
  if (0 <=? k) && (k <? Z.of_nat len) then Ok (Z.to_nat k)
  else if (- Z.of_nat len <=? k) && (k <? 0) then Ok (Z.to_nat (Z.of_nat len + k))
  else Raise IndexError.

Definition py_getitem {A} (l : list A) (k : Z) : result A :=
  match py_index (length l) k with
  | Ok i => match l !! i with
            | Some a => Ok a
            | None => Raise IndexError
            end
  | Raise e => Raise e
  end.

(** [l.index(x)]: the first position of [x], [ValueError] when absent. *)
Fixpoint list_index (x : string) (l : list string) : result Z :=
  match l with
  | [] => Raise ValueError
  | y :: l' => if String.eqb x y then Ok 0
               else match list_index x l' with
                    | Ok i => Ok (i + 1)
                    | Raise e => Raise e
                    end
  end.

(** [x in l]. *)
Definition py_in (x : string) (l : list string) : bool :=
  existsb (String.eqb x) l.

(** The bounds of the slice [a[start:stop]] over a sequence of length [len]
    (each end optional): offset and size. *)
Definition clamp_slice_end (len : nat) (k : Z) : nat :=
  let k' := if k <? 0 then k + Z.of_nat len else k in
  Z.to_nat (Z.min (Z.max k' 0) (Z.of_nat len)).

Definition slice_bounds (len : nat) (start stop : option Z) : nat * nat :=
  let lo := match start with Some k => clamp_slice_end len k | None => 0%nat end in
  let hi := match stop with Some k => clamp_slice_end len k | None => len end in
  (lo, (hi - lo)%nat).

(** ** The protobuf messages ([orbitx_pb2], as [protos]) *)

(** Modelled from the spec: [orbitx.proto] is not part of the sources.  The
    messages carry the fields the spec's data model lists, in the order the
    module's type stubs and the views' fixed offsets give; [double] fields
    are [float64], the coolant-loop reference is an [int32]. *)
Module protos.

Module Entity.
Record t : Type := mk {
  name : string;
  x : float64;
  y : float64;
  vx : float64;
  vy : float64;
  r : float64;
  mass : float64;
  heading : float64;
  spin : float64;
  fuel : float64;
  throttle : float64;
  landed_on : string;
  broken : bool;
  artificial : bool;
  atmosphere_thickness : float64;
  atmosphere_scaling : float64 }.
End Entity.

Module Component.
Record t : Type := mk {
  connected : bool;
  temperature : float64;
  resistance : float64;
  voltage : float64;
  current : float64;
  attached_to_coolant_loop : Z }.
End Component.

Module CoolantLoop.
Record t : Type := mk {
  coolant_temp : float64;
  primary_pump_on : bool;
  secondary_pump_on : bool }.
End CoolantLoop.

Module Radiator.
Record t : Type := mk {
  attached_to_coolant_loop : Z;
  functioning : bool }.
End Radiator.

Module EngineeringState.
Record t : Type := mk {
  components : list Component.t;
  coolant_loops : list CoolantLoop.t;
  radiators : list Radiator.t;
  master_alarm : bool;
  radiation_alarm : bool;
  asteroid_alarm : bool;
  hab_reactor_alarm : bool;
  ayse_reactor_alarm : bool;
  hab_gnomes : bool }.

Definition with_lists (p : t) cs ls rs : t :=
  mk cs ls rs (master_alarm p) (radiation_alarm p) (asteroid_alarm p)
     (hab_reactor_alarm p) (ayse_reactor_alarm p) (hab_gnomes p).
End EngineeringState.

Module PhysicalState.
Record t : Type := mk {
  entities : list Entity.t;
  timestamp : float64;
  srb_time : float64;
  time_acc : float64;
  parachute_deployed : bool;
  reference : string;
  target : string;
  navmode : Z;
  engineering : EngineeringState.t }.

Definition with_entities (p : t) es : t :=
  mk es (timestamp p) (srb_time p) (time_acc p) (parachute_deployed p)
     (reference p) (target p) (navmode p) (engineering p).
Definition with_srb_time (p : t) v : t :=
  mk (entities p) (timestamp p) v (time_acc p) (parachute_deployed p)
     (reference p) (target p) (navmode p) (engineering p).
Definition with_time_acc (p : t) v : t :=
  mk (entities p) (timestamp p) (srb_time p) v (parachute_deployed p)
     (reference p) (target p) (navmode p) (engineering p).
Definition with_engineering (p : t) e : t :=
  mk (entities p) (timestamp p) (srb_time p) (time_acc p)
     (parachute_deployed p) (reference p) (target p) (navmode p) e.
End PhysicalState.

(** The range of an [int32] field. *)
Definition int32 (z : Z) : Prop := - (2 ^ 31) <= z < 2 ^ 31.

(** Assigning a Python int to an [int32] field: the message checks the
    range and raises [ValueError] outside it. *)
Definition int32_field (z : Z) : result Z :=
  if (- (2 ^ 31) <=? z) && (z <? 2 ^ 31) then Ok z else Raise ValueError.

End protos.

(** A Python value read from a message field by [getattr]. *)
Inductive pyval : Type :=
| VNum (v : scalar)
| VStr (s : string).

(** [protos.Entity.DESCRIPTOR.fields], by name. *)
Inductive field : Type :=
| f_name | f_x | f_y | f_vx | f_vy | f_r | f_mass | f_heading | f_spin
| f_fuel | f_throttle | f_landed_on | f_broken | f_artificial
| f_atmosphere_thickness | f_atmosphere_scaling.

Definition field_eqb (a b : field) : bool :=
  match a, b with
  | f_name, f_name | f_x, f_x | f_y, f_y | f_vx, f_vx | f_vy, f_vy
  | f_r, f_r | f_mass, f_mass | f_heading, f_heading | f_spin, f_spin
  | f_fuel, f_fuel | f_throttle, f_throttle | f_landed_on, f_landed_on
  | f_broken, f_broken | f_artificial, f_artificial
  | f_atmosphere_thickness, f_atmosphere_thickness
  | f_atmosphere_scaling, f_atmosphere_scaling => true
  | _, _ => false
  end.

Definition Entity_DESCRIPTOR_fields : list field :=
  [f_name; f_x; f_y; f_vx; f_vy; f_r; f_mass; f_heading; f_spin; f_fuel;
   f_throttle; f_landed_on; f_broken; f_artificial; f_atmosphere_thickness;
   f_atmosphere_scaling].

Definition getattr (e : protos.Entity.t) (f : field) : pyval :=
  match f with
  | f_name => VStr (protos.Entity.name e)
  | f_x => VNum (SFloat (protos.Entity.x e))
  | f_y => VNum (SFloat (protos.Entity.y e))
  | f_vx => VNum (SFloat (protos.Entity.vx e))
  | f_vy => VNum (SFloat (protos.Entity.vy e))
  | f_r => VNum (SFloat (protos.Entity.r e))
  | f_mass => VNum (SFloat (protos.Entity.mass e))
  | f_heading => VNum (SFloat (protos.Entity.heading e))
  | f_spin => VNum (SFloat (protos.Entity.spin e))
  | f_fuel => VNum (SFloat (protos.Entity.fuel e))
  | f_throttle => VNum (SFloat (protos.Entity.throttle e))
  | f_landed_on => VStr (protos.Entity.landed_on e)
  | f_broken => VNum (SBool (protos.Entity.broken e))
  | f_artificial => VNum (SBool (protos.Entity.artificial e))
  | f_atmosphere_thickness => VNum (SFloat (protos.Entity.atmosphere_thickness e))
  | f_atmosphere_scaling => VNum (SFloat (protos.Entity.atmosphere_scaling e))
  end.

(** These entity fields do not change during simulation. *)
Definition _PER_ENTITY_UNCHANGING_FIELDS : list field :=
  [f_name; f_mass; f_r; f_artificial; f_atmosphere_thickness;
   f_atmosphere_scaling].

Definition field_in (f : field) (l : list field) : bool :=
  existsb (field_eqb f) l.

Definition _PER_ENTITY_MUTABLE_FIELDS : list field :=
  Eval cbv in
    List.filter (fun f => negb (field_in f _PER_ENTITY_UNCHANGING_FIELDS))
                Entity_DESCRIPTOR_fields.

(** [enumerate]. *)
Fixpoint enumerate_from {A} (i : Z) (l : list A) : list (Z * A) :=
  match l with
  | [] => []
  | a :: l' => (i, a) :: enumerate_from (i + 1) l'
  end.
Definition enumerate {A} (l : list A) : list (Z * A) := enumerate_from 0 l.

(** [{name: index for index, name in enumerate(_PER_ENTITY_MUTABLE_FIELDS)}],
    in insertion order. *)
Definition _ENTITY_FIELD_ORDER : list (field * Z) :=
  Eval cbv in List.map (fun p => (snd p, fst p)) (enumerate _PER_ENTITY_MUTABLE_FIELDS).

(** [_ENTITY_FIELD_ORDER[f]], for a mutable field [f]. *)
Definition field_order (f : field) : Z :=
  match List.find (fun p => field_eqb f (fst p)) _ENTITY_FIELD_ORDER with
  | Some p => snd p
  | None => Z.of_nat (length _ENTITY_FIELD_ORDER)
  end.

Definition _LANDED_ON : field := f_landed_on.

(** Modelled from the spec: [strings.py] ([orbitx.strings]) is not part of
    the sources; the two player-controlled craft are named as in the spec's
    craft scenario. *)
Definition HABITAT : string := "Habitat".
Definition AYSE : string := "AYSE".

(** The registries of subsystem names of [orbitx.strings]; their contents
    are configuration, so the classes below take them as a parameter. *)
Module strings.
Record t : Type := mk {
  COMPONENT_NAMES : list string;
  COOLANT_LOOP_NAMES : list string;
  RADIATOR_NAMES : list string }.
End strings.

(** ** Objects *)

(** A reference to a [PhysicsState] in the store. *)
Definition ref : Type := nat.

(** A one-dimensional numpy array that views the buffer ([_array_rep]) of
    the [PhysicsState] at [base]: [size] cells from cell [off] on. *)
Record ndarray : Type := mk_ndarray {
  base : ref;
  off : nat;
  size : nat }.

Module _EntityView.
Record t : Type := mk { _creator : ref; _index : Z }.
End _EntityView.

Module CoolantView.
Record t : Type := mk { _array : ndarray; _n : Z }.
End CoolantView.

Module ComponentView.
Record t : Type := mk { _parent : ref; _array : ndarray; _n : Z }.
End ComponentView.

Module RadiatorView.
Record t : Type := mk { _parent : ref; _array : ndarray; _n : Z }.
End RadiatorView.

(** An [EngineeringState] belongs to one [PhysicsState]; its [_proto_state]
    is that container's [_proto_state.engineering] (the same message, not a
    copy), so only the array is a field of its own. *)
Module EngineeringState.
Record t : Type := mk { _array : ndarray }.
End EngineeringState.

Module PhysicsState.
Record t : Type := mk {
  _proto_state : protos.PhysicalState.t;
  _n : Z;
  _entity_names : list string;
  _array_rep : list float64;
  engineering : EngineeringState.t;
  _entities_with_atmospheres : option (list Z) }.

Definition with_array (s : t) (a : list float64) : t :=
  mk (_proto_state s) (_n s) (_entity_names s) a (engineering s)
     (_entities_with_atmospheres s).
Definition with_proto (s : t) (p : protos.PhysicalState.t) : t :=
  mk p (_n s) (_entity_names s) (_array_rep s) (engineering s)
     (_entities_with_atmospheres s).
Definition with_engineering (s : t) (e : EngineeringState.t) : t :=
  mk (_proto_state s) (_n s) (_entity_names s) (_array_rep s) e
     (_entities_with_atmospheres s).
Definition with_atmospheres (s : t) (a : option (list Z)) : t :=
  mk (_proto_state s) (_n s) (_entity_names s) (_array_rep s)
     (engineering s) a.

(** For if an entity is not landed to anything. *)
Definition NO_INDEX : Z := -1.
(** The number of single-element values at the end of the y-vector. *)
Definition N_SINGULAR_ELEMENTS : Z := 2.
Definition ENTITY_START_INDEX : Z := 0.
End PhysicsState.

(** The body of [PhysicsState._name_to_index] over the name table
    [entity_names]: the position of [name], [NO_INDEX] for the empty
    name; the [ValueError] of [index] becomes [NoEntityError], and [None]
    fails the assertion. *)
Definition name_index (entity_names : list string) (name : option string) : result Z :=
  match name with
  | None => Raise AssertionError
  | Some name =>
      if String.eqb name "" then Ok PhysicsState.NO_INDEX
      else match list_index name entity_names with
           | Ok i => Ok i
           | Raise ValueError => Raise NoEntityError
           | Raise e => Raise e
           end
  end.

(** What an [Entity]-typed Python value can be: the plain wrapper around a
    message, or a view into a container. *)
Inductive Entity : Type :=
| EntityOf (proto : protos.Entity.t)
| ViewOf (v : _EntityView.t).

(** An index into a collection: a name or an int. *)
Inductive index : Type :=
| IStr (s : string)
| IInt (z : Z).

(** ** The store and its computations *)

(** The store: the containers by reference, a count [ops] of the buffer cells
    read or written so far, and [junk], what freshly allocated memory
    ([np.empty]) happens to hold. *)
Record World : Type := mk_World {
  objs : list PhysicsState.t;
  ops : nat;
  junk : nat -> float64 }.

Definition M (A : Type) : Type := World -> result A * World.

Definition ret {A} (a : A) : M A := fun w => (Ok a, w).
Definition raise {A} (e : exn) : M A := fun w => (Raise e, w).
Definition bind {A B} (c : M A) (k : A -> M B) : M B :=
  fun w => match c w with
           | (Ok a, w') => k a w'
           | (Raise e, w') => (Raise e, w')
           end.
Definition lift {A} (r : result A) : M A := fun w => (r, w).

Notation "x <- c ;; k" := (bind c (fun x => k))
  (at level 100, c at next level, right associativity).
Notation "c ;; k" := (bind c (fun _ => k))
  (at level 100, right associativity).

Definition assert (b : bool) : M unit :=
  if b then ret tt else raise AssertionError.

(** [for a in l: body(a)]. *)
Fixpoint for_each {A} (l : list A) (body : A -> M unit) : M unit :=
  match l with
  | [] => ret tt
  | a :: l' => body a ;; for_each l' body
  end.

(** A live reference always names an object; a reference outside the store
    has no counterpart in Python and is answered with [AssertionError]. *)
Definition deref (r : ref) : M PhysicsState.t :=
  fun w => match objs w !! r with
           | Some s => (Ok s, w)
           | None => (Raise AssertionError, w)
           end.

Definition update (r : ref) (g : PhysicsState.t -> PhysicsState.t) : M unit :=
  fun w => match objs w !! r with
           | Some s => (Ok tt, mk_World (<[r := g s]> (objs w)) (ops w) (junk w))
           | None => (Raise AssertionError, w)
           end.

Definition alloc (mk : ref -> PhysicsState.t) : M ref :=
  fun w => let r := length (objs w) in
           (Ok r, mk_World (objs w ++ [mk r]) (ops w) (junk w)).

Definition tick (k : nat) : M unit :=
  fun w => (Ok tt, mk_World (objs w) (ops w + k) (junk w)).

(** [np.empty(n)]: [n] cells of whatever the allocator returns. *)
Definition np_empty (n : nat) : M (list float64) :=
  fun w => (Ok (List.map (junk w) (seq 0 n)), w).

(** [a[k]] and [a[k] = v] on a numpy view, with an int [k]; on assignment
    numpy resolves the index before it converts the value. *)
Definition array_get (a : ndarray) (k : Z) : M float64 :=
  i <- lift (py_index (size a) k) ;;
  s <- deref (base a) ;;
  tick 1 ;;
  match PhysicsState._array_rep s !! (off a + i)%nat with
  | Some x => ret x
  | None => raise IndexError
  end.

Definition array_set (a : ndarray) (k : Z) (v : scalar) : M unit :=
  i <- lift (py_index (size a) k) ;;
  x <- lift (np_coerce v) ;;
  s <- deref (base a) ;;
  tick 1 ;;
  if (off a + i <? length (PhysicsState._array_rep s))%nat
  then update (base a)
         (fun s => PhysicsState.with_array s (<[(off a + i)%nat := x]> (PhysicsState._array_rep s)))
  else raise IndexError.

(** [a[start:stop]]: a view of a view is a view of the same buffer. *)
Definition array_slice (a : ndarray) (start stop : option Z) : ndarray :=
  let '(lo, n) := slice_bounds (size a) start stop in
  mk_ndarray (base a) (off a + lo) n.

(** [self._array_rep] of the container at [r], as an array. *)
Definition array_rep (r : ref) : M ndarray :=
  s <- deref r ;;
  ret (mk_ndarray r 0 (length (PhysicsState._array_rep s))).

(** The store [w] with the container at [c] replaced by [s] and the access
    count set to [k]. *)
Definition put (w : World) (c : ref) (s : PhysicsState.t) (k : nat) : World :=
  mk_World (<[c := s]> (objs w)) k (junk w).

(** [a[pos] = x] on a container's buffer. *)
Definition poke (pos : nat) (x : float64) (s : PhysicsState.t) : PhysicsState.t :=
  PhysicsState.with_array s (<[pos := x]> (PhysicsState._array_rep s)).

(** A sequence of cell writes, applied in order. *)
Definition apply_writes (arr : list float64) (ws : list (nat * float64)) : list float64 :=
  fold_left (fun a px => <[fst px := snd px]> a) ws arr.

(** Writes to the consecutive cells from [p] on. *)
Definition consec (p : nat) (xs : list float64) : list (nat * float64) :=
  combine (seq p (length xs)) xs.

(** Columns of [N] cells each, column [fo] from cell [N * fo] on. *)
Definition column_writes (N : nat) (cols : list (nat * list float64)) : list (nat * float64) :=
  concat (List.map (fun c => consec (N * fst c) (snd c)) cols).

(** [try: c except IndexError: stop], as the iteration protocol does when it
    drives [__getitem__] with 0, 1, 2, ... *)
Definition until_IndexError {A} (c : M A) : M (option A) :=
  fun w => match c w with
           | (Ok a, w') => (Ok (Some a), w')
           | (Raise IndexError, w') => (Ok None, w')
           | (Raise e, w') => (Raise e, w')
           end.

(** [for v, p in zip(coll, l): ...] where [coll] only has [__getitem__]:
    the views come from [getitem 0], [getitem 1], ... until [IndexError];
    [body] returns the message in place of [p]; the messages past the last
    view stay as they are. *)
Fixpoint zip_getitem {V P} (getitem : Z -> M V) (k : Z) (l : list P)
    (body : V -> P -> M P) : M (list P) :=
  match l with
  | [] => _ <- until_IndexError (getitem k) ;; ret []
  | p :: l' =>
      o <- until_IndexError (getitem k) ;;
      match o with
      | None => ret (p :: l')
      | Some v => p' <- body v p ;;
                  rest <- zip_getitem getitem (k + 1) l' body ;;
                  ret (p' :: rest)
      end
  end.

(** A loop that threads a local variable. *)
Fixpoint fold_each {A S} (l : list A) (s : S) (body : S -> A -> M S) : M S :=
  match l with
  | [] => ret s
  | a :: l' => s' <- body s a ;; fold_each l' s' body
  end.

(** A loop that collects one result per element. *)
Fixpoint map_each {A B} (l : list A) (body : A -> M B) : M (list B) :=
  match l with
  | [] => ret []
  | a :: l' => b <- body a ;; bs <- map_each l' body ;; ret (b :: bs)
  end.

(** [range(0, n)]. *)
Definition range (n : Z) : list Z := List.map Z.of_nat (seq 0 (Z.to_nat n)).

Definition len {A} (l : list A) : Z := Z.of_nat (length l).

(** The fields of the three engineering messages, as [getattr] reads them in
    descriptor order. *)
Definition Component_DESCRIPTOR_fields : list (protos.Component.t -> scalar) :=
  [ fun c => SBool (protos.Component.connected c);
    fun c => SFloat (protos.Component.temperature c);
    fun c => SFloat (protos.Component.resistance c);
    fun c => SFloat (protos.Component.voltage c);
    fun c => SFloat (protos.Component.current c);
    fun c => SInt (protos.Component.attached_to_coolant_loop c) ].

Definition CoolantLoop_DESCRIPTOR_fields : list (protos.CoolantLoop.t -> scalar) :=
  [ fun c => SFloat (protos.CoolantLoop.coolant_temp c);
    fun c => SBool (protos.CoolantLoop.primary_pump_on c);
    fun c => SBool (protos.CoolantLoop.secondary_pump_on c) ].

Definition Radiator_DESCRIPTOR_fields : list (protos.Radiator.t -> scalar) :=
  [ fun c => SInt (protos.Radiator.attached_to_coolant_loop c);
    fun c => SBool (protos.Radiator.functioning c) ].

Definition _N_COMPONENT_FIELDS : Z := Eval cbv in len Component_DESCRIPTOR_fields.
Definition _N_COOLANT_FIELDS : Z := Eval cbv in len CoolantLoop_DESCRIPTOR_fields.
Definition _N_RADIATOR_FIELDS : Z := Eval cbv in len Radiator_DESCRIPTOR_fields.

(** ** The classes *)

Section Classes.

(** The name registry the module is loaded with. *)
Variable names : strings.t.

Definition COMPONENT_NAMES : list string := strings.COMPONENT_NAMES names.
Definition COOLANT_LOOP_NAMES : list string := strings.COOLANT_LOOP_NAMES names.
Definition RADIATOR_NAMES : list string := strings.RADIATOR_NAMES names.

Definition _N_COMPONENTS : Z := len COMPONENT_NAMES.
Definition _N_COOLANT_LOOPS : Z := len COOLANT_LOOP_NAMES.
Definition _N_RADIATORS : Z := len RADIATOR_NAMES.

(** *** [CoolantView] *)

Definition CoolantView_name (self : CoolantView.t) : result string :=
  py_getitem COOLANT_LOOP_NAMES (CoolantView._n self).

Definition CoolantView_coolant_temp (self : CoolantView.t) : M float64 :=
  array_get (CoolantView._array self) (CoolantView._n self * _N_COOLANT_FIELDS + 0).
Definition CoolantView_set_coolant_temp (self : CoolantView.t) (val : scalar) : M unit :=
  array_set (CoolantView._array self) (CoolantView._n self * _N_COOLANT_FIELDS + 0) val.

Definition CoolantView_primary_pump_on (self : CoolantView.t) : M bool :=
  x <- array_get (CoolantView._array self) (CoolantView._n self * _N_COOLANT_FIELDS + 1) ;;
  ret (bool_of_float x).
Definition CoolantView_set_primary_pump_on (self : CoolantView.t) (val : scalar) : M unit :=
  array_set (CoolantView._array self) (CoolantView._n self * _N_COOLANT_FIELDS + 1) val.

Definition CoolantView_secondary_pump_on (self : CoolantView.t) : M bool :=
  x <- array_get (CoolantView._array self) (CoolantView._n self * _N_COOLANT_FIELDS + 2) ;;
  ret (bool_of_float x).
Definition CoolantView_set_secondary_pump_on (self : CoolantView.t) (val : scalar) : M unit :=
  array_set (CoolantView._array self) (CoolantView._n self * _N_COOLANT_FIELDS + 2) val.

(** *** [EngineeringState]: layout and indexing collections *)

Definition N_ENGINEERING_FIELDS : Z :=
  _N_COMPONENTS * _N_COMPONENT_FIELDS
  + _N_COOLANT_LOOPS * _N_COOLANT_FIELDS
  + _N_RADIATORS * _N_RADIATOR_FIELDS.

Definition _COMPONENT_START_INDEX : Z := 0.
Definition _COOLANT_START_INDEX : Z := _N_COMPONENTS * _N_COMPONENT_FIELDS.
Definition _RADIATOR_START_INDEX : Z :=
  _COOLANT_START_INDEX + _N_COOLANT_LOOPS * _N_COOLANT_FIELDS.

(** [owner._array] of the engineering state of the container at [owner]. *)
Definition owner_array (owner : ref) : M ndarray :=
  s <- deref owner ;;
  ret (EngineeringState._array (PhysicsState.engineering s)).

(** [engineering.components[index]]. *)
Definition ComponentList__getitem__ (owner : ref) (idx : index) : M ComponentView.t :=
  i <- match idx with
       | IStr s => lift (list_index s COMPONENT_NAMES)
       | IInt z => if z >=? _N_COMPONENTS then raise IndexError else ret z
       end ;;
  a <- owner_array owner ;;
  ret (ComponentView.mk owner
         (array_slice a (Some _COMPONENT_START_INDEX) (Some _COOLANT_START_INDEX)) i).

(** [engineering.coolant_loops[index]]. *)
Definition CoolantLoopList__getitem__ (owner : ref) (idx : index) : M CoolantView.t :=
  i <- match idx with
       | IStr s => lift (list_index s COOLANT_LOOP_NAMES)
       | IInt z => if z >=? _N_COOLANT_LOOPS then raise IndexError else ret z
       end ;;
  a <- owner_array owner ;;
  ret (CoolantView.mk
         (array_slice a (Some _COOLANT_START_INDEX) (Some _RADIATOR_START_INDEX)) i).

(** [engineering.radiators[index]]. *)
Definition RadiatorList__getitem__ (owner : ref) (idx : index) : M RadiatorView.t :=
  i <- match idx with
       | IStr s => lift (list_index s RADIATOR_NAMES)
       | IInt z => if z >=? _N_RADIATORS then raise IndexError else ret z
       end ;;
  a <- owner_array owner ;;
  ret (RadiatorView.mk owner (array_slice a (Some _RADIATOR_START_INDEX) None) i).

(** *** [ComponentView] *)

Definition ComponentView_name (self : ComponentView.t) : result string :=
  py_getitem COMPONENT_NAMES (ComponentView._n self).

Definition ComponentView_connected (self : ComponentView.t) : M bool :=
  x <- array_get (ComponentView._array self) (ComponentView._n self * _N_COMPONENT_FIELDS + 0) ;;
  ret (bool_of_float x).
Definition ComponentView_set_connected (self : ComponentView.t) (val : scalar) : M unit :=
  array_set (ComponentView._array self) (ComponentView._n self * _N_COMPONENT_FIELDS + 0) val.

Definition ComponentView_temperature (self : ComponentView.t) : M float64 :=
  array_get (ComponentView._array self) (ComponentView._n self * _N_COMPONENT_FIELDS + 1).
Definition ComponentView_set_temperature (self : ComponentView.t) (val : scalar) : M unit :=
  array_set (ComponentView._array self) (ComponentView._n self * _N_COMPONENT_FIELDS + 1) val.

Definition ComponentView_resistance (self : ComponentView.t) : M float64 :=
  array_get (ComponentView._array self) (ComponentView._n self * _N_COMPONENT_FIELDS + 2).
Definition ComponentView_set_resistance (self : ComponentView.t) (val : scalar) : M unit :=
  array_set (ComponentView._array self) (ComponentView._n self * _N_COMPONENT_FIELDS + 2) val.

Definition ComponentView_voltage (self : ComponentView.t) : M float64 :=
  array_get (ComponentView._array self) (ComponentView._n self * _N_COMPONENT_FIELDS + 3).
Definition ComponentView_set_voltage (self : ComponentView.t) (val : scalar) : M unit :=
  array_set (ComponentView._array self) (ComponentView._n self * _N_COMPONENT_FIELDS + 3) val.

Definition ComponentView_current (self : ComponentView.t) : M float64 :=
  array_get (ComponentView._array self) (ComponentView._n self * _N_COMPONENT_FIELDS + 4).
Definition ComponentView_set_current (self : ComponentView.t) (val : scalar) : M unit :=
  array_set (ComponentView._array self) (ComponentView._n self * _N_COMPONENT_FIELDS + 4) val.

Definition ComponentView_attached_to_coolant_loop (self : ComponentView.t) : M Z :=
  x <- array_get (ComponentView._array self) (ComponentView._n self * _N_COMPONENT_FIELDS + 5) ;;
  lift (int_of_float x).
Definition ComponentView_set_attached_to_coolant_loop (self : ComponentView.t) (val : scalar) : M unit :=
  array_set (ComponentView._array self) (ComponentView._n self * _N_COMPONENT_FIELDS + 5) val.

Definition ComponentView_get_coolant_loop (self : ComponentView.t) : M CoolantView.t :=
  k <- ComponentView_attached_to_coolant_loop self ;;
  CoolantLoopList__getitem__ (ComponentView._parent self) (IInt (k - 1)).

(** *** [RadiatorView] *)

Definition RadiatorView_name (self : RadiatorView.t) : result string :=
  py_getitem RADIATOR_NAMES (RadiatorView._n self).

Definition RadiatorView_attached_to_coolant_loop (self : RadiatorView.t) : M Z :=
  x <- array_get (RadiatorView._array self) (RadiatorView._n self * _N_RADIATOR_FIELDS + 0) ;;
  lift (int_of_float x).
Definition RadiatorView_set_attached_to_coolant_loop (self : RadiatorView.t) (val : scalar) : M unit :=
  array_set (RadiatorView._array self) (RadiatorView._n self * _N_RADIATOR_FIELDS + 0) val.

Definition RadiatorView_functioning (self : RadiatorView.t) : M bool :=
  x <- array_get (RadiatorView._array self) (RadiatorView._n self * _N_RADIATOR_FIELDS + 1) ;;
  ret (bool_of_float x).
Definition RadiatorView_set_functioning (self : RadiatorView.t) (val : scalar) : M unit :=
  array_set (RadiatorView._array self) (RadiatorView._n self * _N_RADIATOR_FIELDS + 1) val.

Definition RadiatorView_get_coolant_loop (self : RadiatorView.t) : M CoolantView.t :=
  k <- RadiatorView_attached_to_coolant_loop self ;;
  CoolantLoopList__getitem__ (RadiatorView._parent self) (IInt (k - 1)).

(** *** [EngineeringState.__init__] and [as_proto] *)

(** The rows [getattr] reads from one list of messages, field by field. *)
Definition rows {P} (fields : list (P -> scalar)) (l : list P) : list (list scalar) :=
  List.map (fun proto => List.map (fun f => f proto) fields) l.

Definition EngineeringState__init__ (array_rep : ndarray)
    (proto_state : protos.EngineeringState.t) (populate_array : bool)
    : M EngineeringState.t :=
  assert (len (protos.EngineeringState.components proto_state) =? _N_COMPONENTS) ;;
  assert (len (protos.EngineeringState.coolant_loops proto_state) =? _N_COOLANT_LOOPS) ;;
  assert (len (protos.EngineeringState.radiators proto_state) =? _N_RADIATORS) ;;
  (if populate_array then
     _ <- fold_each
       [ rows Component_DESCRIPTOR_fields (protos.EngineeringState.components proto_state);
         rows CoolantLoop_DESCRIPTOR_fields (protos.EngineeringState.coolant_loops proto_state);
         rows Radiator_DESCRIPTOR_fields (protos.EngineeringState.radiators proto_state) ]
       0
       (fun write_marker proto_list =>
          fold_each proto_list write_marker
            (fun write_marker proto =>
               fold_each proto write_marker
                 (fun write_marker value =>
                    array_set array_rep write_marker value ;;
                    ret (write_marker + 1)))) ;;
     ret tt
   else ret tt) ;;
  ret (EngineeringState.mk array_rep).

Definition EngineeringState_as_proto (self : ref) : M protos.EngineeringState.t :=
  s <- deref self ;;
  let constructed_protobuf :=
    protos.PhysicalState.engineering (PhysicsState._proto_state s) in
  components <-
    zip_getitem (fun k => ComponentList__getitem__ self (IInt k)) 0
      (protos.EngineeringState.components constructed_protobuf)
      (fun component_data component =>
         connected <- ComponentView_connected component_data ;;
         temperature <- ComponentView_temperature component_data ;;
         resistance <- ComponentView_resistance component_data ;;
         voltage <- ComponentView_voltage component_data ;;
         current <- ComponentView_current component_data ;;
         ret (protos.Component.mk connected temperature resistance voltage
                current (protos.Component.attached_to_coolant_loop component))) ;;
  coolant_loops <-
    zip_getitem (fun k => CoolantLoopList__getitem__ self (IInt k)) 0
      (protos.EngineeringState.coolant_loops constructed_protobuf)
      (fun coolant_data coolant =>
         coolant_temp <- CoolantView_coolant_temp coolant_data ;;
         primary_pump_on <- CoolantView_primary_pump_on coolant_data ;;
         secondary_pump_on <- CoolantView_secondary_pump_on coolant_data ;;
         ret (protos.CoolantLoop.mk coolant_temp primary_pump_on secondary_pump_on)) ;;
  radiators <-
    zip_getitem (fun k => RadiatorList__getitem__ self (IInt k)) 0
      (protos.EngineeringState.radiators constructed_protobuf)
      (fun radiator_data radiator =>
         attached_to_coolant_loop <- RadiatorView_attached_to_coolant_loop radiator_data ;;
         functioning <- RadiatorView_functioning radiator_data ;;
         attached_to_coolant_loop <- lift (protos.int32_field attached_to_coolant_loop) ;;
         ret (protos.Radiator.mk attached_to_coolant_loop functioning)) ;;
  ret (protos.EngineeringState.with_lists constructed_protobuf
         components coolant_loops radiators).

(** *** [PhysicsState]: layout *)

Definition ENGINEERING_START_INDEX : Z := - N_ENGINEERING_FIELDS.
Definition SRB_TIME_INDEX : Z := ENGINEERING_START_INDEX - 2.
Definition TIME_ACC_INDEX : Z := SRB_TIME_INDEX + 1.

(** The buffer length the constructor allocates and asserts. *)
Definition expected_size (n_entities : Z) : Z :=
  n_entities * len _PER_ENTITY_MUTABLE_FIELDS
  + PhysicsState.N_SINGULAR_ELEMENTS
  + N_ENGINEERING_FIELDS.

(** Returns an n-array with the value of a component for each entity. *)
Definition _y_component (self : ref) (field_name : field) : M ndarray :=
  s <- deref self ;;
  a <- array_rep self ;;
  ret (array_slice a
         (Some (field_order field_name * PhysicsState._n s))
         (Some ((field_order field_name + 1) * PhysicsState._n s))).

(** Translates an index into the entity list to the right name. *)
Definition _index_to_name (self : ref) (idx : float64) : M string :=
  s <- deref self ;;
  i <- lift (int_of_float idx) ;;
  if i =? PhysicsState.NO_INDEX then ret ""
  else lift (py_getitem (PhysicsState._entity_names s) i).

(** Finds the index of the entity with the given name. *)
Definition _name_to_index (self : ref) (name : option string) : M Z :=
  s <- deref self ;;
  lift (name_index (PhysicsState._entity_names s) name).

(** *** [_EntityView]: the generated properties *)

(** A mutable field of type [float] or [double]. *)
Definition entity_view_float_fget (field_n : Z) (self : _EntityView.t) : M float64 :=
  s <- deref (_EntityView._creator self) ;;
  a <- array_rep (_EntityView._creator self) ;;
  array_get a (PhysicsState._n s * field_n + _EntityView._index self).

Definition entity_view_float_fset (field_n : Z) (self : _EntityView.t) (val : scalar) : M unit :=
  s <- deref (_EntityView._creator self) ;;
  a <- array_rep (_EntityView._creator self) ;;
  array_set a (PhysicsState._n s * field_n + _EntityView._index self) val.

(** A mutable field of type [bool]: the same, with a conversion on read. *)
Definition entity_view_bool_fget (field_n : Z) (self : _EntityView.t) : M bool :=
  s <- deref (_EntityView._creator self) ;;
  a <- array_rep (_EntityView._creator self) ;;
  x <- array_get a (PhysicsState._n s * field_n + _EntityView._index self) ;;
  ret (bool_of_float x).

Definition entity_view_bool_fset (field_n : Z) (self : _EntityView.t) (val : scalar) : M unit :=
  s <- deref (_EntityView._creator self) ;;
  a <- array_rep (_EntityView._creator self) ;;
  array_set a (PhysicsState._n s * field_n + _EntityView._index self) val.

(** [landed_on]: the cell holds the index of the entity landed on. *)
Definition entity_view_landed_on_fget (field_n : Z) (self : _EntityView.t) : M string :=
  s <- deref (_EntityView._creator self) ;;
  a <- array_rep (_EntityView._creator self) ;;
  x <- array_get a (PhysicsState._n s * field_n + _EntityView._index self) ;;
  entity_index <- lift (int_of_float x) ;;
  if entity_index =? PhysicsState.NO_INDEX then ret ""
  else lift (py_getitem (PhysicsState._entity_names s) entity_index).

(** [val] is a [str] by its type here; [None] fails the [isinstance]
    assertion of the source. *)
Definition entity_view_landed_on_fset (field_n : Z) (self : _EntityView.t)
    (val : option string) : M unit :=
  assert (match val with Some _ => true | None => false end) ;;
  i <- _name_to_index (_EntityView._creator self) val ;;
  s <- deref (_EntityView._creator self) ;;
  a <- array_rep (_EntityView._creator self) ;;
  array_set a (PhysicsState._n s * field_n + _EntityView._index self) (SInt i).

(** An unchanging field is read from the retained message. *)
Definition entity_view_unchanging_fget (name : field) (self : _EntityView.t) : M pyval :=
  s <- deref (_EntityView._creator self) ;;
  e <- lift (py_getitem (protos.PhysicalState.entities (PhysicsState._proto_state s))
                        (_EntityView._index self)) ;;
  ret (getattr e name).

(** The properties of a view, one per mutable field. *)
Definition _EntityView_x := entity_view_float_fget (field_order f_x).
Definition _EntityView_y := entity_view_float_fget (field_order f_y).
Definition _EntityView_vx := entity_view_float_fget (field_order f_vx).
Definition _EntityView_vy := entity_view_float_fget (field_order f_vy).
Definition _EntityView_heading := entity_view_float_fget (field_order f_heading).
Definition _EntityView_spin := entity_view_float_fget (field_order f_spin).
Definition _EntityView_fuel := entity_view_float_fget (field_order f_fuel).
Definition _EntityView_throttle := entity_view_float_fget (field_order f_throttle).
Definition _EntityView_landed_on := entity_view_landed_on_fget (field_order f_landed_on).
Definition _EntityView_broken := entity_view_bool_fget (field_order f_broken).

Definition _EntityView_set_x := entity_view_float_fset (field_order f_x).
Definition _EntityView_set_y := entity_view_float_fset (field_order f_y).
Definition _EntityView_set_vx := entity_view_float_fset (field_order f_vx).
Definition _EntityView_set_vy := entity_view_float_fset (field_order f_vy).
Definition _EntityView_set_heading := entity_view_float_fset (field_order f_heading).
Definition _EntityView_set_spin := entity_view_float_fset (field_order f_spin).
Definition _EntityView_set_fuel := entity_view_float_fset (field_order f_fuel).
Definition _EntityView_set_throttle := entity_view_float_fset (field_order f_throttle).
Definition _EntityView_set_landed_on := entity_view_landed_on_fset (field_order f_landed_on).
Definition _EntityView_set_broken := entity_view_bool_fset (field_order f_broken).

(** The same properties on any [Entity]: the wrapper reads its message. *)
Definition Entity_float (get : protos.Entity.t -> float64)
    (view_get : _EntityView.t -> M float64) (e : Entity) : M float64 :=
  match e with
  | EntityOf p => ret (get p)
  | ViewOf v => view_get v
  end.

Definition Entity_x := Entity_float protos.Entity.x _EntityView_x.
Definition Entity_y := Entity_float protos.Entity.y _EntityView_y.
Definition Entity_vx := Entity_float protos.Entity.vx _EntityView_vx.
Definition Entity_vy := Entity_float protos.Entity.vy _EntityView_vy.
Definition Entity_heading := Entity_float protos.Entity.heading _EntityView_heading.
Definition Entity_spin := Entity_float protos.Entity.spin _EntityView_spin.
Definition Entity_fuel := Entity_float protos.Entity.fuel _EntityView_fuel.
Definition Entity_throttle := Entity_float protos.Entity.throttle _EntityView_throttle.

Definition Entity_landed_on (e : Entity) : M string :=
  match e with
  | EntityOf p => ret (protos.Entity.landed_on p)
  | ViewOf v => _EntityView_landed_on v
  end.

Definition Entity_broken (e : Entity) : M bool :=
  match e with
  | EntityOf p => ret (protos.Entity.broken p)
  | ViewOf v => _EntityView_broken v
  end.

(** Convenient and more elegant check to see if the entity is landed. *)
Definition Entity_landed (e : Entity) : M bool :=
  l <- Entity_landed_on e ;;
  ret (negb (String.eqb l "")).

(** *** [PhysicsState] *)

(** [np.mod(a, 2 * np.pi, out=a)], cell by cell. *)
Definition np_mod_inplace (a : ndarray) (m : float64) : M unit :=
  for_each (range (Z.of_nat (size a)))
    (fun i => x <- array_get a i ;; array_set a i (SFloat (np_mod x m))).

(** What numpy stores for a value read by [getattr]: a string is not a
    number. *)
Definition as_scalar (v : pyval) : M scalar :=
  match v with
  | VNum v => ret v
  | VStr _ => raise ValueError
  end.

(** Collects data from proto_state and y, when y is not None. *)
Definition PhysicsState__init__ (y : option (list float64))
    (proto_state : protos.PhysicalState.t) : M ref :=
  let _proto_state := proto_state in
  let _n := len (protos.PhysicalState.entities proto_state) in
  let _entity_names :=
    List.map protos.Entity.name (protos.PhysicalState.entities _proto_state) in
  self <-
    match y with
    | None =>
        _array_rep <- np_empty (Z.to_nat (expected_size _n)) ;;
        self <- alloc (fun self =>
          PhysicsState.mk _proto_state _n _entity_names _array_rep
            (EngineeringState.mk (mk_ndarray self 0 0)) None) ;;
        a <- array_rep self ;;
        for_each _ENTITY_FIELD_ORDER
          (fun '(field_name, field_n) =>
             for_each (enumerate (protos.PhysicalState.entities proto_state))
               (fun '(entity_index, entity) =>
                  proto_value <-
                    (if field_eqb field_name _LANDED_ON
                     then i <- _name_to_index self
                                 (Some (protos.Entity.landed_on entity)) ;;
                          ret (SInt i)
                     else as_scalar (getattr entity field_name)) ;;
                  array_set a (_n * field_n + entity_index) proto_value)) ;;
        array_set a SRB_TIME_INDEX (SFloat (protos.PhysicalState.srb_time proto_state)) ;;
        array_set a TIME_ACC_INDEX (SFloat (protos.PhysicalState.time_acc proto_state)) ;;
        engineering <- EngineeringState__init__
               (array_slice a (Some ENGINEERING_START_INDEX) None)
               (protos.PhysicalState.engineering _proto_state) true ;;
        update self (fun s => PhysicsState.with_engineering s engineering) ;;
        ret self
    | Some y =>
        let _array_rep := y in
        self <- alloc (fun self =>
          PhysicsState.mk _proto_state _n _entity_names _array_rep
            (EngineeringState.mk (mk_ndarray self 0 0)) None) ;;
        srb_time <- lift (py_getitem y SRB_TIME_INDEX) ;;
        update self (fun s => PhysicsState.with_proto s
          (protos.PhysicalState.with_srb_time (PhysicsState._proto_state s) srb_time)) ;;
        time_acc <- lift (py_getitem y TIME_ACC_INDEX) ;;
        update self (fun s => PhysicsState.with_proto s
          (protos.PhysicalState.with_time_acc (PhysicsState._proto_state s) time_acc)) ;;
        a <- array_rep self ;;
        engineering <- EngineeringState__init__
               (array_slice a (Some ENGINEERING_START_INDEX) None)
               (protos.PhysicalState.engineering _proto_state) false ;;
        update self (fun s => PhysicsState.with_engineering s engineering) ;;
        ret self
    end ;;
  a <- array_rep self ;;
  let n_entities := len (protos.PhysicalState.entities proto_state) in
  assert (Z.of_nat (size a) =? expected_size n_entities) ;;
  Heading <- _y_component self f_heading ;;
  np_mod_inplace Heading two_pi ;;
  update self (fun s => PhysicsState.with_atmospheres s None) ;;
  ret self.

(** Returns a y-vector suitable as input for scipy.solve_ivp. *)
Definition y0 (self : ref) : M ndarray := array_rep self.

(** Implements [len(physics_state)]. *)
Definition PhysicsState__len__ (self : ref) : M Z :=
  s <- deref self ;; ret (PhysicsState._n s).

(** Returns a Entity view at a given name or index. *)
Definition PhysicsState__getitem__ (self : ref) (idx : index) : M _EntityView.t :=
  i <- match idx with
       | IStr name => s <- deref self ;;
                      lift (list_index name (PhysicsState._entity_names s))
       | IInt z => ret z
       end ;;
  ret (_EntityView.mk self i).

(** Puts a Entity at a given name or index in the state. *)
Definition PhysicsState__setitem__ (self : ref) (idx : index) (val : Entity) : M unit :=
  if match val with
     | ViewOf v => Nat.eqb (_EntityView._creator v) self
     | EntityOf _ => false
     end
  then
    (* The _EntityView is a view into our own data, so we already have
       the data. *)
    ret tt
  else
    i <- match idx with
         | IStr name => s <- deref self ;;
                        lift (list_index name (PhysicsState._entity_names s))
         | IInt z => ret z
         end ;;
    entity <- PhysicsState__getitem__ self (IInt i) ;;
    x <- Entity_x val ;;
    y <- Entity_y val ;;
    vx <- Entity_vx val ;;
    vy <- Entity_vy val ;;
    heading <- Entity_heading val ;;
    spin <- Entity_spin val ;;
    fuel <- Entity_fuel val ;;
    throttle <- Entity_throttle val ;;
    landed_on <- Entity_landed_on val ;;
    broken <- Entity_broken val ;;
    _EntityView_set_x entity (SFloat x) ;;
    _EntityView_set_y entity (SFloat y) ;;
    _EntityView_set_vx entity (SFloat vx) ;;
    _EntityView_set_vy entity (SFloat vy) ;;
    _EntityView_set_heading entity (SFloat heading) ;;
    _EntityView_set_spin entity (SFloat spin) ;;
    _EntityView_set_fuel entity (SFloat fuel) ;;
    _EntityView_set_throttle entity (SFloat throttle) ;;
    _EntityView_set_landed_on entity (Some landed_on) ;;
    _EntityView_set_broken entity (SBool broken).

(** Creates a protos.PhysicalState view into all internal data. *)
Definition PhysicsState_as_proto (self : ref) : M protos.PhysicalState.t :=
  s <- deref self ;;
  let constructed_protobuf := PhysicsState._proto_state s in
  entities <-
    map_each (zip (range (PhysicsState._n s))
                  (protos.PhysicalState.entities constructed_protobuf))
      (fun '(i, entity) =>
         entity_data <- PhysicsState__getitem__ self (IInt i) ;;
         x <- _EntityView_x entity_data ;;
         y <- _EntityView_y entity_data ;;
         vx <- _EntityView_vx entity_data ;;
         vy <- _EntityView_vy entity_data ;;
         heading <- _EntityView_heading entity_data ;;
         spin <- _EntityView_spin entity_data ;;
         fuel <- _EntityView_fuel entity_data ;;
         throttle <- _EntityView_throttle entity_data ;;
         landed_on <- _EntityView_landed_on entity_data ;;
         broken <- _EntityView_broken entity_data ;;
         ret (protos.Entity.mk (protos.Entity.name entity) x y vx vy
                (protos.Entity.r entity) (protos.Entity.mass entity)
                heading spin fuel throttle landed_on broken
                (protos.Entity.artificial entity)
                (protos.Entity.atmosphere_thickness entity)
                (protos.Entity.atmosphere_scaling entity))) ;;
  engineering <- EngineeringState_as_proto self ;;
  ret (protos.PhysicalState.with_engineering
         (protos.PhysicalState.with_entities constructed_protobuf
            (entities ++ drop (length entities)
                           (protos.PhysicalState.entities constructed_protobuf)))
         engineering).

(** The whole-column accessors. *)
Definition PhysicsState_X (self : ref) := _y_component self f_x.
Definition PhysicsState_Y (self : ref) := _y_component self f_y.
Definition PhysicsState_VX (self : ref) := _y_component self f_vx.
Definition PhysicsState_VY (self : ref) := _y_component self f_vy.
Definition PhysicsState_Heading (self : ref) := _y_component self f_heading.
Definition PhysicsState_Spin (self : ref) := _y_component self f_spin.
Definition PhysicsState_Fuel (self : ref) := _y_component self f_fuel.
Definition PhysicsState_Throttle (self : ref) := _y_component self f_throttle.
Definition PhysicsState_Broken (self : ref) := _y_component self f_broken.

(** Returns the currently-controlled craft. *)
Definition PhysicsState_craft (self : ref) : M (option string) :=
  s <- deref self ;;
  if negb (py_in HABITAT (PhysicsState._entity_names s))
     && negb (py_in AYSE (PhysicsState._entity_names s))
  then ret None
  else if negb (py_in AYSE (PhysicsState._entity_names s))
  then ret (Some HABITAT)
  else
    hab_index <- _name_to_index self (Some HABITAT) ;;
    ayse_index <- _name_to_index self (Some AYSE) ;;
    col <- _y_component self f_landed_on ;;
    landed <- array_get col hab_index ;;
    if f64_eqb landed (float_of_Z ayse_index)
    then (* Habitat is docked with AYSE, AYSE is active craft *)
      ret (Some AYSE)
    else ret (Some HABITAT).

(** *** The state of a constructed container *)

(** What [__init__] leaves behind at [c], and what the accessors rely on:
    the name table and the row count are those of the retained message,
    the buffer has the asserted length, the engineering state views its
    tail, and the engineering message has the declared cardinalities. *)
Definition constructed (w : World) (c : ref) : bool :=
  match objs w !! c with
  | None => false
  | Some s =>
      let p := PhysicsState._proto_state s in
      let a := EngineeringState._array (PhysicsState.engineering s) in
      let a' := array_slice (mk_ndarray c 0 (length (PhysicsState._array_rep s)))
                  (Some ENGINEERING_START_INDEX) None in
      (PhysicsState._n s =? len (protos.PhysicalState.entities p))
      && bool_decide (PhysicsState._entity_names s
                      = List.map protos.Entity.name (protos.PhysicalState.entities p))
      && (len (PhysicsState._array_rep s) =? expected_size (PhysicsState._n s))
      && Nat.eqb (base a) (base a') && Nat.eqb (off a) (off a')
      && Nat.eqb (size a) (size a')
      && (len (protos.EngineeringState.components (protos.PhysicalState.engineering p))
          =? _N_COMPONENTS)
      && (len (protos.EngineeringState.coolant_loops (protos.PhysicalState.engineering p))
          =? _N_COOLANT_LOOPS)
      && (len (protos.EngineeringState.radiators (protos.PhysicalState.engineering p))
          =? _N_RADIATORS)
  end.

(** The buffer has the asserted length for its row count. *)
Definition sized (s : PhysicsState.t) : Prop :=
  0 <= PhysicsState._n s
  /\ len (PhysicsState._array_rep s) = expected_size (PhysicsState._n s).

(** The cell the cold path writes for field [f] of the message [e], over
    the name table [entity_names]. *)
Definition stored_cell (entity_names : list string) (f : field)
    (e : protos.Entity.t) : result float64 :=
  if field_eqb f _LANDED_ON
  then match name_index entity_names (Some (protos.Entity.landed_on e)) with
       | Ok i => np_coerce (SInt i)
       | Raise x => Raise x
       end
  else match getattr e f with
       | VNum v => np_coerce v
       | VStr _ => Raise ValueError
       end.

Definition cell (entity_names : list string) (f : field) (e : protos.Entity.t)
    : float64 :=
  match stored_cell entity_names f e with
  | Ok x => x
  | Raise _ => f64_zero
  end.

Definition coerced (v : scalar) : float64 :=
  match np_coerce v with
  | Ok x => x
  | Raise _ => f64_zero
  end.

(** The values the cold path writes into the engineering block, in order. *)
Definition engineering_scalars (p : protos.EngineeringState.t) : list scalar :=
  concat (rows Component_DESCRIPTOR_fields (protos.EngineeringState.components p))
  ++ concat (rows CoolantLoop_DESCRIPTOR_fields (protos.EngineeringState.coolant_loops p))
  ++ concat (rows Radiator_DESCRIPTOR_fields (protos.EngineeringState.radiators p)).

(** The buffer after [np.mod(a, m, out=a)] on the cells [o .. o + n). *)
Definition mod_cells (m : float64) (o : nat) (js : list nat) (arr : list float64)
    : list float64 :=
  fold_left (fun a j => alter (fun x => np_mod x m) (o + j)%nat a) js arr.

(** The slices of the engineering array the three collections hand to
    their views. *)
Definition components_array (s : PhysicsState.t) : ndarray :=
  array_slice (EngineeringState._array (PhysicsState.engineering s))
    (Some _COMPONENT_START_INDEX) (Some _COOLANT_START_INDEX).
Definition coolant_loops_array (s : PhysicsState.t) : ndarray :=
  array_slice (EngineeringState._array (PhysicsState.engineering s))
    (Some _COOLANT_START_INDEX) (Some _RADIATOR_START_INDEX).
Definition radiators_array (s : PhysicsState.t) : ndarray :=
  array_slice (EngineeringState._array (PhysicsState.engineering s))
    (Some _RADIATOR_START_INDEX) None.

(** The buffer the cold path assembles from the snapshot [p] over fresh
    memory [fresh]: the ten columns, the two singular scalars, the
    engineering block, and last the heading column taken modulo 2 pi. *)
Definition cold_buffer (fresh : nat -> float64) (p : protos.PhysicalState.t)
    : list float64 :=
  let es := protos.PhysicalState.entities p in
  let tbl := List.map protos.Entity.name es in
  let N := length es in
  mod_cells two_pi (4 * N) (seq 0 N)
    (apply_writes
       (apply_writes
          (apply_writes
             (apply_writes
                (List.map fresh (seq 0 (Z.to_nat (expected_size (len es)))))
                (column_writes N
                   (List.map (fun fo => (Z.to_nat (snd fo),
                                         List.map (cell tbl (fst fo)) es))
                             _ENTITY_FIELD_ORDER)))
             [((10 * N)%nat, protos.PhysicalState.srb_time p)])
          [((10 * N + 1)%nat, protos.PhysicalState.time_acc p)])
       (consec (10 * N + 2)
          (List.map coerced
             (engineering_scalars (protos.PhysicalState.engineering p))))).

(** A snapshot the cold path can take: every [landed_on] is empty or the
    name of an entity of the snapshot, the engineering lists have the
    declared cardinalities, and the [int32] fields hold [int32] values. *)
Definition landed_on_resolves (p : protos.PhysicalState.t) : Prop :=
  Forall (fun e => protos.Entity.landed_on e = ""
                   \/ In (protos.Entity.landed_on e)
                         (List.map protos.Entity.name (protos.PhysicalState.entities p)))
         (protos.PhysicalState.entities p).

Definition declared_cardinalities (p : protos.PhysicalState.t) : Prop :=
  let e := protos.PhysicalState.engineering p in
  len (protos.EngineeringState.components e) = _N_COMPONENTS
  /\ len (protos.EngineeringState.coolant_loops e) = _N_COOLANT_LOOPS
  /\ len (protos.EngineeringState.radiators e) = _N_RADIATORS.

Definition int32_fields (p : protos.PhysicalState.t) : Prop :=
  let e := protos.PhysicalState.engineering p in
  Forall (fun c => protos.int32 (protos.Component.attached_to_coolant_loop c))
         (protos.EngineeringState.components e)
  /\ Forall (fun r => protos.int32 (protos.Radiator.attached_to_coolant_loop r))
            (protos.EngineeringState.radiators e).

(** The snapshot the round trip returns: the headings taken modulo 2 pi by
    [np.mod], all else as it was. *)
Definition normalize_heading (e : protos.Entity.t) : protos.Entity.t :=
  protos.Entity.mk (protos.Entity.name e) (protos.Entity.x e)
    (protos.Entity.y e) (protos.Entity.vx e) (protos.Entity.vy e)
    (protos.Entity.r e) (protos.Entity.mass e)
    (np_mod (protos.Entity.heading e) two_pi)
    (protos.Entity.spin e) (protos.Entity.fuel e) (protos.Entity.throttle e)
    (protos.Entity.landed_on e) (protos.Entity.broken e)
    (protos.Entity.artificial e) (protos.Entity.atmosphere_thickness e)
    (protos.Entity.atmosphere_scaling e).

Definition normalized (p : protos.PhysicalState.t) : protos.PhysicalState.t :=
  protos.PhysicalState.with_entities p
    (List.map normalize_heading (protos.PhysicalState.entities p)).

End Classes.

(** ** A small configuration to evaluate the classes on *)

Definition demo_names : strings.t :=
  strings.mk ["RCON1"] ["LP1"; "LP2"] ["RAD1"].

Definition demo_entity (name : string) (heading : float64) (landed_on : string)
    : protos.Entity.t :=
  protos.Entity.mk name (float_of_Z 1) (float_of_Z 2) (float_of_Z 3)
    (float_of_Z 4) (float_of_Z 5) (float_of_Z 6) heading (float_of_Z 8)
    (float_of_Z 9) (float_of_Z 10) landed_on true false (float_of_Z 11)
    (float_of_Z 12).

(** One component on loop 1, two coolant loops, one radiator on [loop]. *)
Definition demo_engineering (loop : Z) : protos.EngineeringState.t :=
  protos.EngineeringState.mk
    [protos.Component.mk true (float_of_Z 20) (float_of_Z 21) (float_of_Z 22)
       (float_of_Z 23) 1]
    [protos.CoolantLoop.mk (float_of_Z 30) true false;
     protos.CoolantLoop.mk (float_of_Z 31) false true]
    [protos.Radiator.mk loop true]
    false false false false false false.

Definition demo_snapshot (entities : list protos.Entity.t) : protos.PhysicalState.t :=
  protos.PhysicalState.mk entities f64_zero (float_of_Z 40) (float_of_Z 41)
    false "Earth" "AYSE" 0 (demo_engineering 2).

(** Habitat docked with AYSE, and the two apart. *)
Definition docked : protos.PhysicalState.t :=
  demo_snapshot [demo_entity HABITAT (float_of_Z (-7)) AYSE;
                 demo_entity AYSE (float_of_Z 7) ""].
Definition undocked : protos.PhysicalState.t :=
  demo_snapshot [demo_entity HABITAT (float_of_Z (-7)) "";
                 demo_entity AYSE (float_of_Z 7) ""].

Definition empty_world : World := mk_World [] 0 (fun _ => f64_nan).

(** The store after [PhysicsState(None, docked)]: one container, at 0. *)
Definition docked_world : World :=
  Eval vm_compute in snd (PhysicsState__init__ demo_names None docked empty_world).
Definition undocked_world : World :=
  Eval vm_compute in snd (PhysicsState__init__ demo_names None undocked empty_world).


(** A snapshot with AYSE and no Habitat, and one whose only entity has
    landed on an entity that is not in the snapshot. *)
Definition ayse_alone : protos.PhysicalState.t :=
  demo_snapshot [demo_entity AYSE f64_zero ""].
Definition ayse_alone_world : World :=
  Eval vm_compute in snd (PhysicsState__init__ demo_names None ayse_alone empty_world).
Definition landed_nowhere : protos.PhysicalState.t :=
  demo_snapshot [demo_entity HABITAT f64_zero "Mars"].

(** Snapshots whose heading is NaN, and a negative heading of tiny
    magnitude (-2^-200). *)
Definition tiny_negative : float64 :=
  Eval vm_compute in SFopp (SFldexp prec emax f64_one (-200)).
Definition nan_heading : protos.PhysicalState.t :=
  demo_snapshot [demo_entity HABITAT f64_nan ""].
Definition tiny_heading : protos.PhysicalState.t :=
  demo_snapshot [demo_entity HABITAT tiny_negative ""].

(** The containers of the stores above. *)
Definition blank : PhysicsState.t :=
  PhysicsState.mk (demo_snapshot []) 0 [] [] (EngineeringState.mk (mk_ndarray 0%nat 0 0)) None.
Definition docked_container : PhysicsState.t :=
  Eval vm_compute in nth 0 (objs docked_world) blank.
Definition undocked_container : PhysicsState.t :=
  Eval vm_compute in nth 0 (objs undocked_world) blank.
Definition ayse_alone_container : PhysicsState.t :=
  Eval vm_compute in nth 0 (objs ayse_alone_world) blank.


(** ** The rest of the classes *)

(** Field updates of the messages ([setattr] on a protobuf message). *)
Definition Entity_with_name (e : protos.Entity.t) (v : string) : protos.Entity.t :=
  protos.Entity.mk v (protos.Entity.x e) (protos.Entity.y e)
    (protos.Entity.vx e) (protos.Entity.vy e) (protos.Entity.r e)
    (protos.Entity.mass e) (protos.Entity.heading e) (protos.Entity.spin e)
    (protos.Entity.fuel e) (protos.Entity.throttle e) (protos.Entity.landed_on e)
    (protos.Entity.broken e) (protos.Entity.artificial e)
    (protos.Entity.atmosphere_thickness e) (protos.Entity.atmosphere_scaling e).

Definition Entity_with_mass (e : protos.Entity.t) (v : float64) : protos.Entity.t :=
  protos.Entity.mk (protos.Entity.name e) (protos.Entity.x e) (protos.Entity.y e)
    (protos.Entity.vx e) (protos.Entity.vy e) (protos.Entity.r e)
    v (protos.Entity.heading e) (protos.Entity.spin e)
    (protos.Entity.fuel e) (protos.Entity.throttle e) (protos.Entity.landed_on e)
    (protos.Entity.broken e) (protos.Entity.artificial e)
    (protos.Entity.atmosphere_thickness e) (protos.Entity.atmosphere_scaling e).

Definition Entity_with_atmosphere_thickness (e : protos.Entity.t) (v : float64)
    : protos.Entity.t :=
  protos.Entity.mk (protos.Entity.name e) (protos.Entity.x e) (protos.Entity.y e)
    (protos.Entity.vx e) (protos.Entity.vy e) (protos.Entity.r e)
    (protos.Entity.mass e) (protos.Entity.heading e) (protos.Entity.spin e)
    (protos.Entity.fuel e) (protos.Entity.throttle e) (protos.Entity.landed_on e)
    (protos.Entity.broken e) (protos.Entity.artificial e)
    v (protos.Entity.atmosphere_scaling e).

Definition PhysicalState_with_timestamp (p : protos.PhysicalState.t) (v : float64)
    : protos.PhysicalState.t :=
  protos.PhysicalState.mk (protos.PhysicalState.entities p) v
    (protos.PhysicalState.srb_time p) (protos.PhysicalState.time_acc p)
    (protos.PhysicalState.parachute_deployed p) (protos.PhysicalState.reference p)
    (protos.PhysicalState.target p) (protos.PhysicalState.navmode p)
    (protos.PhysicalState.engineering p).

Definition PhysicalState_with_reference (p : protos.PhysicalState.t) (v : string)
    : protos.PhysicalState.t :=
  protos.PhysicalState.mk (protos.PhysicalState.entities p)
    (protos.PhysicalState.timestamp p)
    (protos.PhysicalState.srb_time p) (protos.PhysicalState.time_acc p)
    (protos.PhysicalState.parachute_deployed p) v
    (protos.PhysicalState.target p) (protos.PhysicalState.navmode p)
    (protos.PhysicalState.engineering p).

Definition PhysicalState_with_target (p : protos.PhysicalState.t) (v : string)
    : protos.PhysicalState.t :=
  protos.PhysicalState.mk (protos.PhysicalState.entities p)
    (protos.PhysicalState.timestamp p)
    (protos.PhysicalState.srb_time p) (protos.PhysicalState.time_acc p)
    (protos.PhysicalState.parachute_deployed p) (protos.PhysicalState.reference p)
    v (protos.PhysicalState.navmode p)
    (protos.PhysicalState.engineering p).

(** A computation that leaves every container, and what fresh memory
    holds, as it was: it only reads (the access count may grow). *)
Definition read_only {A} (c : M A) : Prop :=
  forall w, objs (snd (c w)) = objs w /\ junk (snd (c w)) = junk w.

Section MoreClasses.

Variable names : strings.t.

(** *** [Entity]: the derived properties *)

(** [pos]: a fresh array of [x] and [y]. *)
Definition Entity_pos (e : Entity) : M (list float64) :=
x <- Entity_x e ;;
y <- Entity_y e ;;
ret [x; y].

(** [pos = coord], on a view: [self.x = coord[0]], then [self.y = coord[1]]. *)
Definition _EntityView_set_pos (self : _EntityView.t) (coord : list scalar) : M unit :=
c0 <- lift (py_getitem coord 0) ;;
_EntityView_set_x self c0 ;;
c1 <- lift (py_getitem coord 1) ;;
_EntityView_set_y self c1.

(** [v]: an array of [vx] and [vy]. *)
Definition Entity_v (e : Entity) : M (list float64) :=
vx <- Entity_vx e ;;
vy <- Entity_vy e ;;
ret [vx; vy].

Definition _EntityView_set_v (self : _EntityView.t) (coord : list scalar) : M unit :=
c0 <- lift (py_getitem coord 0) ;;
_EntityView_set_vx self c0 ;;
c1 <- lift (py_getitem coord 1) ;;
_EntityView_set_vy self c1.

(** [name], an unchanging field: the wrapper reads its message, a view
  the message of its row in the retained snapshot. *)
Definition _EntityView_name (self : _EntityView.t) : M string :=
s <- deref (_EntityView._creator self) ;;
e <- lift (py_getitem (protos.PhysicalState.entities (PhysicsState._proto_state s))
                      (_EntityView._index self)) ;;
ret (protos.Entity.name e).

Definition _EntityView_mass (self : _EntityView.t) : M float64 :=
s <- deref (_EntityView._creator self) ;;
e <- lift (py_getitem (protos.PhysicalState.entities (PhysicsState._proto_state s))
                      (_EntityView._index self)) ;;
ret (protos.Entity.mass e).

Definition Entity_name (e : Entity) : M string :=
match e with
| EntityOf p => ret (protos.Entity.name p)
| ViewOf v => _EntityView_name v
end.

Definition Entity_dockable (e : Entity) : M bool :=
n <- Entity_name e ;;
ret (String.eqb n AYSE).

(** [entity_view_unchanging_fset]: the message of the row, in the retained
  snapshot, is changed in place. *)
Definition entity_view_unchanging_fset
  (set : protos.Entity.t -> protos.Entity.t) (self : _EntityView.t) : M unit :=
s <- deref (_EntityView._creator self) ;;
i <- lift (py_index
             (length (protos.PhysicalState.entities (PhysicsState._proto_state s)))
             (_EntityView._index self)) ;;
update (_EntityView._creator self)
  (fun s => PhysicsState.with_proto s
     (protos.PhysicalState.with_entities (PhysicsState._proto_state s)
        (alter set i (protos.PhysicalState.entities (PhysicsState._proto_state s))))).

Definition _EntityView_set_name (self : _EntityView.t) (val : string) : M unit :=
entity_view_unchanging_fset (fun e => Entity_with_name e val) self.
Definition _EntityView_set_mass (self : _EntityView.t) (val : float64) : M unit :=
entity_view_unchanging_fset (fun e => Entity_with_mass e val) self.
Definition _EntityView_set_atmosphere_thickness (self : _EntityView.t) (val : float64)
  : M unit :=
entity_view_unchanging_fset (fun e => Entity_with_atmosphere_thickness e val) self.

(** *** [PhysicsState]: the remaining accessors *)

(** Implements [for entity in physics_state:] loops; the views, in the
  order the generator yields them. *)
Definition PhysicsState__iter__ (self : ref) : M (list _EntityView.t) :=
s <- deref self ;;
map_each (range (PhysicsState._n s))
  (fun i => PhysicsState__getitem__ self (IInt i)).

Definition PhysicsState_timestamp (self : ref) : M float64 :=
s <- deref self ;; ret (protos.PhysicalState.timestamp (PhysicsState._proto_state s)).

Definition PhysicsState_set_timestamp (self : ref) (t : float64) : M unit :=
update self (fun s => PhysicsState.with_proto s
  (PhysicalState_with_timestamp (PhysicsState._proto_state s) t)).

Definition PhysicsState_srb_time (self : ref) : M float64 :=
s <- deref self ;; ret (protos.PhysicalState.srb_time (PhysicsState._proto_state s)).

Definition PhysicsState_set_srb_time (self : ref) (val : float64) : M unit :=
update self (fun s => PhysicsState.with_proto s
  (protos.PhysicalState.with_srb_time (PhysicsState._proto_state s) val)) ;;
a <- array_rep self ;;
array_set a (SRB_TIME_INDEX names) (SFloat val).

(** Returns the time acceleration, e.g. 1x or 50x. *)
Definition PhysicsState_time_acc (self : ref) : M float64 :=
s <- deref self ;; ret (protos.PhysicalState.time_acc (PhysicsState._proto_state s)).

Definition PhysicsState_set_time_acc (self : ref) (new_acc : float64) : M unit :=
update self (fun s => PhysicsState.with_proto s
  (protos.PhysicalState.with_time_acc (PhysicsState._proto_state s) new_acc)) ;;
a <- array_rep self ;;
array_set a (TIME_ACC_INDEX names) (SFloat new_acc).

(** Returns a mapping from index to index of entity landings: the dict, as
  its items in insertion order (the keys are the positions met, each
  once). *)
Definition PhysicsState_LandedOn (self : ref) : M (list (Z * Z)) :=
col <- _y_component self f_landed_on ;;
fold_each (range (Z.of_nat (size col))) []
  (fun (landed_map : list (Z * Z)) landed =>
     landee <- array_get col landed ;;
     i <- lift (int_of_float landee) ;;
     if negb (i =? PhysicsState.NO_INDEX)
     then j <- lift (int_of_float landee) ;;
          ret (landed_map ++ [(landed, j)])%list
     else ret landed_map).

(** [x != 0] on a float. *)
Definition f64_nonzero (x : float64) : bool := negb (f64_eqb x f64_zero).

(** The indexes a first call of [Atmospheres] collects. *)
Definition with_atmosphere (es : list protos.Entity.t) : list Z :=
List.map fst
  (List.filter
     (fun ie : Z * protos.Entity.t =>
        f64_nonzero (protos.Entity.atmosphere_scaling (snd ie))
        && f64_nonzero (protos.Entity.atmosphere_thickness (snd ie)))
     (enumerate es)).

(** Returns a list of indexes of entities that have an atmosphere. *)
Definition PhysicsState_Atmospheres (self : ref) : M (list Z) :=
s <- deref self ;;
match PhysicsState._entities_with_atmospheres s with
| Some l => ret l
| None =>
    let l := with_atmosphere
               (protos.PhysicalState.entities (PhysicsState._proto_state s)) in
    update self (fun s => PhysicsState.with_atmospheres s (Some l)) ;;
    ret l
end.

(** Returns current reference of the physics system, shown in GUI. *)
Definition PhysicsState_reference (self : ref) : M string :=
s <- deref self ;; ret (protos.PhysicalState.reference (PhysicsState._proto_state s)).

Definition PhysicsState_set_reference (self : ref) (name : string) : M unit :=
update self (fun s => PhysicsState.with_proto s
  (PhysicalState_with_reference (PhysicsState._proto_state s) name)).

(** Convenience function, a full Entity representing the reference. *)
Definition PhysicsState_reference_entity (self : ref) : M _EntityView.t :=
s <- deref self ;;
PhysicsState__getitem__ self
  (IStr (protos.PhysicalState.reference (PhysicsState._proto_state s))).

(** Returns landing/docking target, shown in GUI. *)
Definition PhysicsState_target (self : ref) : M string :=
s <- deref self ;; ret (protos.PhysicalState.target (PhysicsState._proto_state s)).

Definition PhysicsState_set_target (self : ref) (name : string) : M unit :=
update self (fun s => PhysicsState.with_proto s
  (PhysicalState_with_target (PhysicsState._proto_state s) name)).

(** Convenience function, a full Entity representing the target. *)
Definition PhysicsState_target_entity (self : ref) : M _EntityView.t :=
s <- deref self ;;
PhysicsState__getitem__ self
  (IStr (protos.PhysicalState.target (PhysicsState._proto_state s))).

(** *** What the accessors keep *)

(** The two trailing scalars of the buffer agree with the retained
  message. *)
Definition scalars_in_sync (s : PhysicsState.t) : Prop :=
py_getitem (PhysicsState._array_rep s) (SRB_TIME_INDEX names)
= Ok (protos.PhysicalState.srb_time (PhysicsState._proto_state s))
/\ py_getitem (PhysicsState._array_rep s) (TIME_ACC_INDEX names)
   = Ok (protos.PhysicalState.time_acc (PhysicsState._proto_state s)).

(** The mutable fields the generated properties read back as floats. *)
Definition float_fields : list field :=
[f_x; f_y; f_vx; f_vy; f_heading; f_spin; f_fuel; f_throttle].

End MoreClasses.

(** Two plain entities: one landed on Habitat with a heading of 100, one
    landed on an entity no container here has; and the buffer of the docked
    container. *)
Definition visitor : protos.Entity.t := demo_entity "Visitor" (float_of_Z 100) HABITAT.
Definition stray : protos.Entity.t := demo_entity "Stray" f64_one "Mars".
Definition docked_buffer : list float64 := PhysicsState._array_rep docked_container.


(** ** Facts about float64 conversions *)

Lemma digits2_pos_size (p : positive) : digits2_pos p = Pos.size p.
Proof. induction p; simpl; congruence. Qed.

Lemma digits2_pos_iter_xO (k p : positive) :
  Z.pos (digits2_pos (Pos.iter xO p k)) = Z.pos (digits2_pos p) + Z.pos k.
Proof.
  induction k using Pos.peano_ind.
  - simpl. lia.
  - rewrite Pos.iter_succ. simpl digits2_pos. lia.
Qed.

Lemma Zpos_iter_xO (k p : positive) :
  Z.pos (Pos.iter xO p k) = Z.pos p * 2 ^ Z.pos k.
Proof.
  induction k using Pos.peano_ind.
  - simpl. lia.
  - rewrite Pos.iter_succ, Pos2Z.inj_xO, IHk, Pos2Z.inj_succ, Z.pow_succ_r; lia.
Qed.

Lemma digits2_pos_bound (p : positive) :
  Z.pos p < 2 ^ 53 -> Z.pos (digits2_pos p) <= 53.
Proof.
  intros H. rewrite digits2_pos_size.
  destruct (Z.le_gt_cases (Z.pos (Pos.size p)) 53) as [|Hgt]; [assumption|].
  exfalso.
  pose proof (Pos.size_le p) as Hle.
  assert (Hz : 2 ^ Z.pos (Pos.size p) <= Z.pos p~0).
  { rewrite <- Pos2Z.inj_pow. apply Pos2Z.pos_le_pos. exact Hle. }
  assert (2 ^ 54 <= 2 ^ Z.pos (Pos.size p)) by (apply Z.pow_le_mono_r; lia).
  rewrite Pos2Z.inj_xO in Hz. lia.
Qed.

Lemma binary_round_aux_exact (s : bool) (m : positive) (e : Z) :
  Z.pos (digits2_pos m) = 53 -> -1074 <= e <= 971 ->
  binary_round_aux prec emax s (Z.pos m) e loc_Exact = S754_finite s m e.
Proof.
  intros Hd He.
  assert (Hsh : shr_fexp prec emax (Z.pos m) e loc_Exact
                = ({| shr_m := Z.pos m; shr_r := false; shr_s := false |}, e)).
  { unfold shr_fexp, fexp, emin, prec, emax. simpl Zdigits2. rewrite Hd.
    replace (Z.max (53 + e - 53) (3 - 1024 - 53) - e) with 0 by lia.
    reflexivity. }
  unfold binary_round_aux. rewrite Hsh. simpl shr_m. simpl loc_of_shr_record.
  simpl round_nearest_even. rewrite Hsh. simpl shr_m.
  unfold prec, emax.
  destruct (Z.leb_spec e (1024 - 53)); [reflexivity | lia].
Qed.

(** A positive int below 2^53 converts to the float with the same value:
    the mantissa is the int shifted up to 53 bits. *)
Lemma float_of_Z_pos (s : bool) (p : positive) :
  Z.pos p < 2 ^ 53 ->
  exists m e, binary_round prec emax s p 0 = S754_finite s m e
              /\ (-52 <= e <= 0) /\ Z.pos m = Z.pos p * 2 ^ (- e)%Z.
Proof.
  intros Hp. pose proof (digits2_pos_bound p Hp) as Hd.
  assert (Hf : fexp prec emax (Z.pos (digits2_pos p) + 0)
               = Z.pos (digits2_pos p) - 53)
    by (unfold fexp, emin, prec, emax; lia).
  unfold binary_round, shl_align. rewrite Hf.
  destruct (Z.pos (digits2_pos p) - 53 - 0) as [|k|k] eqn:Hk; [| lia |].
  - exists p, 0. split; [| split].
    + apply binary_round_aux_exact; lia.
    + lia.
    + change (2 ^ (- 0)) with 1. now rewrite Z.mul_1_r.
  - exists (Pos.iter xO p k), (Z.pos (digits2_pos p) - 53).
    split; [| split; [lia |]].
    + apply binary_round_aux_exact; [| lia].
      rewrite digits2_pos_iter_xO. lia.
    + rewrite Zpos_iter_xO. f_equal. f_equal. lia.
Qed.

Lemma int_of_float_finite (s : bool) (m : positive) (e z : Z) :
  (-52) <= e <= 0 -> Z.pos m = z * 2 ^ (- e) ->
  int_of_float (S754_finite s m e) = Ok (if s then - z else z).
Proof.
  intros He Hm. unfold int_of_float.
  destruct e as [|e|e]; [| lia |].
  - change (2 ^ (- 0)) with 1 in Hm. rewrite Z.mul_1_r in Hm. rewrite Hm.
    change (2 ^ 0) with 1. now rewrite Z.mul_1_r.
  - simpl Z.opp in Hm. rewrite Hm.
    rewrite Z.div_mul by (apply Z.pow_nonzero; lia). reflexivity.
Qed.

(** Ints of magnitude below 2^53 survive the trip through a float64 cell. *)
Lemma int_of_float_of_Z (z : Z) :
  - (2 ^ 53) < z < 2 ^ 53 -> int_of_float (float_of_Z z) = Ok z.
Proof.
  intros Hz. unfold float_of_Z, binary_normalize.
  destruct z as [|p|p]; [reflexivity | |].
  - destruct (float_of_Z_pos false p) as (m & e & -> & He & Hm); [lia|].
    now rewrite (int_of_float_finite false m e (Z.pos p)).
  - destruct (float_of_Z_pos true p) as (m & e & -> & He & Hm); [lia|].
    now rewrite (int_of_float_finite true m e (Z.pos p)).
Qed.

Lemma float_of_Z_finite (z : Z) :
  - (2 ^ 53) < z < 2 ^ 53 -> is_finite (float_of_Z z) = true.
Proof.
  intros Hz. unfold float_of_Z, binary_normalize.
  destruct z as [|p|p]; [reflexivity | |].
  - destruct (float_of_Z_pos false p) as (m & e & -> & _); [lia|]. reflexivity.
  - destruct (float_of_Z_pos true p) as (m & e & -> & _); [lia|]. reflexivity.
Qed.

Lemma np_coerce_int (z : Z) :
  - (2 ^ 53) < z < 2 ^ 53 -> np_coerce (SInt z) = Ok (float_of_Z z).
Proof. intros Hz. unfold np_coerce. now rewrite float_of_Z_finite. Qed.

Lemma np_coerce_bool (b : bool) :
  exists x, np_coerce (SBool b) = Ok x /\ bool_of_float x = b.
Proof. destruct b; eexists; split; reflexivity. Qed.

(** [==] on floats holds only between equal finite values or two zeros. *)
Lemma f64_eqb_true (a b : float64) :
  f64_eqb a b = true -> a = b \/ (exists s t, a = S754_zero s /\ b = S754_zero t).
Proof.
  unfold f64_eqb, SFeqb, SFcompare.
  destruct a as [sa|sa| |sa ma ea], b as [sb|sb| |sb mb eb];
    try discriminate; try (destruct sa, sb; discriminate || (left; reflexivity));
    try (destruct sa; discriminate); try (destruct sb; discriminate).
  - right. eauto.
  - intros H. left.
    change (Pos.compare_cont Eq ma mb) with (ma ?= mb)%positive in H.
    destruct sa, sb; try discriminate;
      destruct (Z.compare_spec ea eb); try discriminate; subst;
      destruct (Pos.compare_spec ma mb); try discriminate; now subst.
Qed.

Lemma f64_eqb_refl_finite (a : float64) :
  is_finite a = true -> f64_eqb a a = true.
Proof.
  unfold f64_eqb, SFeqb, SFcompare.
  destruct a as [s|s| |s m e]; try discriminate; intros _; [reflexivity|].
  destruct s; rewrite Z.compare_refl, Pos.compare_cont_refl; reflexivity.
Qed.

(** On ints below 2^53, float equality is int equality. *)
Lemma f64_eqb_float_of_Z (a b : Z) :
  - (2 ^ 53) < a < 2 ^ 53 -> - (2 ^ 53) < b < 2 ^ 53 ->
  f64_eqb (float_of_Z a) (float_of_Z b) = (a =? b).
Proof.
  intros Ha Hb. destruct (Z.eqb_spec a b) as [->|Hne].
  - apply f64_eqb_refl_finite, float_of_Z_finite, Hb.
  - destruct (f64_eqb (float_of_Z a) (float_of_Z b)) eqn:E; [|reflexivity].
    exfalso. apply Hne.
    pose proof (int_of_float_of_Z a Ha) as Ia.
    pose proof (int_of_float_of_Z b Hb) as Ib.
    destruct (f64_eqb_true _ _ E) as [E' | (s & t & Ea & Eb)].
    + rewrite E' in Ia. congruence.
    + rewrite Ea in Ia. rewrite Eb in Ib. simpl in *. congruence.
Qed.

(** ** The range of [np.mod] *)

Lemma digits2_pos_lower (p : positive) : 2 ^ (Z.pos (digits2_pos p) - 1) <= Z.pos p.
Proof.
  induction p as [p IH|p IH|]; simpl digits2_pos.
  - rewrite Pos2Z.inj_succ, (Pos2Z.inj_xI p).
    replace (Z.succ (Z.pos (digits2_pos p)) - 1)
      with (Z.succ (Z.pos (digits2_pos p) - 1)) by lia.
    rewrite Z.pow_succ_r by lia.
    set (x := 2 ^ (Z.pos (digits2_pos p) - 1)) in *. clearbody x. lia.
  - rewrite Pos2Z.inj_succ, (Pos2Z.inj_xO p).
    replace (Z.succ (Z.pos (digits2_pos p)) - 1)
      with (Z.succ (Z.pos (digits2_pos p) - 1)) by lia.
    rewrite Z.pow_succ_r by lia.
    set (x := 2 ^ (Z.pos (digits2_pos p) - 1)) in *. clearbody x. lia.
  - simpl. lia.
Qed.

Lemma digits2_pos_upper (p : positive) : Z.pos p < 2 ^ Z.pos (digits2_pos p).
Proof.
  induction p as [p IH|p IH|]; simpl digits2_pos.
  - rewrite Pos2Z.inj_succ, (Pos2Z.inj_xI p), Z.pow_succ_r by lia.
    set (x := 2 ^ Z.pos (digits2_pos p)) in *. clearbody x. lia.
  - rewrite Pos2Z.inj_succ, (Pos2Z.inj_xO p), Z.pow_succ_r by lia.
    set (x := 2 ^ Z.pos (digits2_pos p)) in *. clearbody x. lia.
  - simpl. lia.
Qed.

Lemma digits2_pos_le (p : positive) (n : Z) :
  Z.pos p < 2 ^ n -> Z.pos (digits2_pos p) <= n.
Proof.
  intros H. pose proof (digits2_pos_lower p) as Hl.
  destruct (Z.le_gt_cases (Z.pos (digits2_pos p)) n) as [|Hgt]; [assumption|].
  exfalso.
  destruct (Z.le_gt_cases 0 n) as [Hn|Hn].
  - assert (2 ^ n <= 2 ^ (Z.pos (digits2_pos p) - 1)) by (apply Z.pow_le_mono_r; lia).
    lia.
  - rewrite Z.pow_neg_r in H by lia. lia.
Qed.

Lemma shr_1_m (mrs : shr_record) :
  0 <= shr_m mrs -> shr_m (shr_1 mrs) = shr_m mrs / 2.
Proof.
  destruct mrs as [m r s]. cbn [shr_m]. intros Hm.
  destruct m as [|[p|p|]|p]; cbn [shr_1 shr_m]; try lia.
  - reflexivity.
  - rewrite (Pos2Z.inj_xI p). apply (Z.div_unique _ _ _ 1); lia.
  - rewrite (Pos2Z.inj_xO p). apply (Z.div_unique _ _ _ 0); lia.
  - reflexivity.
Qed.

Lemma iter_shr_1_m (p : positive) (mrs : shr_record) :
  0 <= shr_m mrs ->
  shr_m (SpecFloat.iter_pos shr_1 p mrs) = shr_m mrs / 2 ^ Z.pos p.
Proof.
  revert mrs. induction p as [p IH|p IH|]; intros mrs Hm; cbn [SpecFloat.iter_pos].
  - assert (H1 : 0 <= shr_m (shr_1 mrs)).
    { rewrite shr_1_m by assumption. apply Z.div_pos; lia. }
    assert (H2 : 0 <= shr_m (SpecFloat.iter_pos shr_1 p (shr_1 mrs))).
    { rewrite IH by assumption. apply Z.div_pos; [assumption|]. apply Z.pow_pos_nonneg; lia. }
    rewrite IH, IH, shr_1_m by assumption.
    assert (Hp : 0 < 2 ^ Z.pos p) by (apply Z.pow_pos_nonneg; lia).
    rewrite !Z.div_div by lia.
    f_equal. rewrite (Pos2Z.inj_xI p).
    replace (2 * Z.pos p + 1) with (1 + Z.pos p + Z.pos p) by lia.
    rewrite !Z.pow_add_r by lia. lia.
  - assert (H2 : 0 <= shr_m (SpecFloat.iter_pos shr_1 p mrs)).
    { rewrite IH by assumption. apply Z.div_pos; [assumption|]. apply Z.pow_pos_nonneg; lia. }
    rewrite IH, IH by assumption.
    assert (Hp : 0 < 2 ^ Z.pos p) by (apply Z.pow_pos_nonneg; lia).
    rewrite !Z.div_div by lia.
    f_equal. rewrite (Pos2Z.inj_xO p).
    replace (2 * Z.pos p) with (Z.pos p + Z.pos p) by lia.
    rewrite !Z.pow_add_r by lia. lia.
  - rewrite shr_1_m by assumption. reflexivity.
Qed.

Lemma round_nearest_even_bounds (m : Z) (l : location) :
  m <= round_nearest_even m l <= m + 1.
Proof.
  destruct l as [|[| |]]; cbn [round_nearest_even]; try lia.
  destruct (Z.even m); lia.
Qed.

Lemma shr_fexp_fit (m e : Z) (l : location) :
  Z.max (Zdigits2 m + e - 53) (-1074) <= e ->
  shr_fexp prec emax m e l = (shr_record_of_loc m l, e).
Proof.
  intros H. unfold shr_fexp, shr, fexp, emin, prec, emax.
  destruct (Z.max (Zdigits2 m + e - 53) (3 - 1024 - 53) - e) eqn:E;
    [reflexivity | lia | reflexivity].
Qed.

Lemma shr_fexp_shift (m e : Z) (l : location) (k : positive) :
  Z.max (Zdigits2 m + e - 53) (-1074) - e = Z.pos k ->
  shr_fexp prec emax m e l
  = (SpecFloat.iter_pos shr_1 k (shr_record_of_loc m l), e + Z.pos k).
Proof.
  intros H. unfold shr_fexp, shr, fexp, emin, prec, emax.
  change (3 - 1024 - 53) with (-1074). now rewrite H.
Qed.

(** Rounding a mantissa that already fits changes nothing. *)
Lemma binary_round_aux_fit (s : bool) (m : positive) (e : Z) :
  Z.max (Z.pos (digits2_pos m) + e - 53) (-1074) <= e -> e <= 971 ->
  binary_round_aux prec emax s (Z.pos m) e loc_Exact = S754_finite s m e.
Proof.
  intros Hf He. unfold binary_round_aux.
  rewrite (shr_fexp_fit (Z.pos m) e loc_Exact) by exact Hf.
  cbn [shr_record_of_loc shr_m loc_of_shr_record round_nearest_even].
  rewrite (shr_fexp_fit (Z.pos m) e loc_Exact) by exact Hf.
  cbn [shr_record_of_loc shr_m]. unfold prec, emax.
  destruct (Z.leb_spec e (1024 - 53)); [reflexivity | lia].
Qed.

Lemma fexp_below (p : positive) (e : Z) (M : positive) (E : Z) :
  Z.pos M < 2 ^ 53 -> -1074 <= E ->
  Z.pos p * 2 ^ (e - Z.min e E) < Z.pos M * 2 ^ (E - Z.min e E) ->
  Z.max (Z.pos (digits2_pos p) + e - 53) (-1074) <= E.
Proof.
  intros HM HE Hv. pose proof (digits2_pos_lower p) as Hl.
  set (d := Z.pos (digits2_pos p)) in *.
  assert (Hd : 1 <= d) by (unfold d; lia).
  destruct (Z.le_gt_cases (d + e - 53) E) as [|Hgt]; [lia|]. exfalso.
  destruct (Z.le_gt_cases e E) as [Hle|Hlt].
  - rewrite Z.min_l, Z.sub_diag, Z.mul_1_r in Hv by lia.
    assert (H1 : Z.pos M * 2 ^ (E - e) < 2 ^ 53 * 2 ^ (E - e)).
    { apply Z.mul_lt_mono_pos_r; [apply Z.pow_pos_nonneg; lia | assumption]. }
    rewrite <- Z.pow_add_r in H1 by lia.
    assert (H2 : 2 ^ (53 + (E - e)) <= 2 ^ (d - 1)) by (apply Z.pow_le_mono_r; lia).
    lia.
  - rewrite Z.min_r, Z.sub_diag, Z.mul_1_r in Hv by lia.
    assert (H1 : 2 ^ (d - 1) * 2 ^ (e - E) <= Z.pos p * 2 ^ (e - E)).
    { apply Z.mul_le_mono_nonneg_r; [apply Z.pow_nonneg; lia | assumption]. }
    rewrite <- Z.pow_add_r in H1 by lia.
    assert (H2 : 2 ^ 53 <= 2 ^ (d - 1 + (e - E))) by (apply Z.pow_le_mono_r; lia).
    lia.
Qed.

Lemma binary_round_cases (s : bool) (p : positive) (e : Z) :
  binary_round prec emax s p e
  = match Z.max (Z.pos (digits2_pos p) + e - 53) (-1074) - e with
    | Z.neg k =>
        binary_round_aux prec emax s (Z.pos (Pos.iter xO p k))
          (Z.max (Z.pos (digits2_pos p) + e - 53) (-1074)) loc_Exact
    | _ => binary_round_aux prec emax s (Z.pos p) e loc_Exact
    end.
Proof.
  change (binary_round prec emax s p e)
    with (let '(mz, ez) :=
            match Z.max (Z.pos (digits2_pos p) + e - 53) (-1074) - e with
            | Z.neg k =>
                (Pos.iter xO p k, Z.max (Z.pos (digits2_pos p) + e - 53) (-1074))
            | _ => (p, e)
            end in
          binary_round_aux prec emax s (Z.pos mz) ez loc_Exact).
  now destruct (Z.max (Z.pos (digits2_pos p) + e - 53) (-1074) - e).
Qed.

Lemma binary_round_below (s : bool) (p : positive) (e : Z) (M : positive) (E : Z) :
  2 ^ 52 <= Z.pos M < 2 ^ 53 -> -1074 <= E <= 971 ->
  Z.pos p * 2 ^ (e - Z.min e E) < Z.pos M * 2 ^ (E - Z.min e E) ->
  f64_below M E s (binary_round prec emax s p e).
Proof.
  intros HM HE Hv.
  pose proof (fexp_below p e M E (proj2 HM) (proj1 HE) Hv) as HfE.
  pose proof (digits2_pos_upper p) as Hup.
  set (d := Z.pos (digits2_pos p)) in *.
  assert (Hd : 1 <= d) by (unfold d; lia).
  rewrite binary_round_cases. fold d.
  set (f := Z.max (d + e - 53) (-1074)) in *.
  destruct (f - e) as [|k|k] eqn:Hk.
  - (* the mantissa fits as it is *)
    assert (f = e) by lia. subst f.
    rewrite binary_round_aux_fit by (fold d; lia).
    right. exists p, e. split; [reflexivity|].
    assert (Hp : Z.pos p < 2 ^ 53).
    { assert (2 ^ d <= 2 ^ 53) by (apply Z.pow_le_mono_r; lia). lia. }
    split; [exact Hp|].
    destruct (Z.eq_dec e E) as [->|Hne]; [right | left; lia].
    rewrite Z.min_id, Z.sub_diag, !Z.mul_1_r in Hv. lia.
  - (* rounding: the mantissa is shifted right by [k] *)
    assert (Hf : f = e + Z.pos k) by lia.
    unfold binary_round_aux.
    rewrite (shr_fexp_shift (Z.pos p) e loc_Exact k) by (cbn [Zdigits2]; fold d; fold f; lia).
    cbn [shr_record_of_loc].
    set (mrs := SpecFloat.iter_pos shr_1 k {| shr_m := Z.pos p; shr_r := false; shr_s := false |}).
    assert (Hm0 : shr_m mrs = Z.pos p / 2 ^ Z.pos k)
      by (unfold mrs; now rewrite iter_shr_1_m by (cbn; lia)).
    pose proof (round_nearest_even_bounds (shr_m mrs) (loc_of_shr_record mrs)) as Hr.
    set (m1 := round_nearest_even (shr_m mrs) (loc_of_shr_record mrs)) in *.
    rewrite Hm0 in Hr. clear Hm0. clearbody m1. clear mrs.
    assert (Hpk : 0 < 2 ^ Z.pos k) by (apply Z.pow_pos_nonneg; lia).
    assert (H0 : 0 <= Z.pos p / 2 ^ Z.pos k) by (apply Z.div_pos; lia).
    assert (H53 : Z.pos p / 2 ^ Z.pos k < 2 ^ 53).
    { apply Z.div_lt_upper_bound; [lia|].
      rewrite <- Z.pow_add_r by lia.
      assert (2 ^ d <= 2 ^ (Z.pos k + 53)) by (apply Z.pow_le_mono_r; lia). lia. }
    rewrite <- Hf.
    assert (HeqE : f = E -> m1 <= Z.pos M).
    { intros HfE'. assert (Hlt : e < E) by lia.
      rewrite Z.min_l, Z.sub_diag, Z.mul_1_r in Hv by lia.
      replace (E - e) with (Z.pos k) in Hv by lia.
      assert (Z.pos p / 2 ^ Z.pos k < Z.pos M)
        by (apply Z.div_lt_upper_bound; lia).
      lia. }
    destruct m1 as [|q|q]; [| | lia].
    + rewrite (shr_fexp_fit 0 f loc_Exact) by (cbn [Zdigits2]; lia).
      cbn [shr_record_of_loc shr_m]. now left.
    + destruct (Z.eq_dec (Z.pos q) (2 ^ 53)) as [Hq|Hq].
      * (* the rounding carried into a 54th bit *)
        assert (HfltE : f < E) by lia.
        assert (Hq' : q = 9007199254740992%positive) by lia. subst q.
        rewrite (shr_fexp_shift _ f loc_Exact 1)
          by (cbn [Zdigits2 digits2_pos Pos.succ]; lia).
        cbn [shr_record_of_loc SpecFloat.iter_pos shr_1 shr_m].
        unfold prec, emax.
        destruct (Z.leb_spec (f + 1) (1024 - 53)); [| lia].
        right. eexists _, _. split; [reflexivity|]. split; [lia|].
        destruct (Z.eq_dec (f + 1) E); [right | left]; lia.
      * assert (Hq53 : Z.pos q < 2 ^ 53) by lia.
        pose proof (digits2_pos_le q 53 Hq53) as Hdq.
        rewrite (shr_fexp_fit (Z.pos q) f loc_Exact) by (cbn [Zdigits2]; lia).
        cbn [shr_record_of_loc shr_m]. unfold prec, emax.
        destruct (Z.leb_spec f (1024 - 53)); [| lia].
        right. exists q, f. split; [reflexivity|]. split; [exact Hq53|].
        destruct (Z.eq_dec f E) as [Heq|Hne]; [right | left; lia].
        split; [exact Heq | now apply HeqE].
  - (* the mantissa is shifted left by [k] to its canonical exponent *)
    assert (Hf : e = f + Z.pos k) by lia.
    assert (Hmz : Z.pos (Pos.iter xO p k) < 2 ^ 53).
    { rewrite Zpos_iter_xO.
      assert (Z.pos p * 2 ^ Z.pos k < 2 ^ d * 2 ^ Z.pos k)
        by (apply Z.mul_lt_mono_pos_r; [apply Z.pow_pos_nonneg; lia | lia]).
      rewrite <- Z.pow_add_r in H by lia.
      assert (2 ^ (d + Z.pos k) <= 2 ^ 53) by (apply Z.pow_le_mono_r; lia). lia. }
    rewrite binary_round_aux_fit by (rewrite ?digits2_pos_iter_xO; fold d; lia).
    right. eexists _, _. split; [reflexivity|]. split; [exact Hmz|].
    destruct (Z.eq_dec f E) as [Heq|Hne]; [right | left; lia].
    split; [exact Heq|].
    rewrite Z.min_r, Z.sub_diag, Z.mul_1_r in Hv by lia.
    rewrite Zpos_iter_xO. replace (Z.pos k) with (e - E) by lia. lia.
Qed.

Lemma shl_align_value (m : positive) (e e' : Z) :
  e' <= e -> Z.pos (fst (shl_align m e e')) = Z.pos m * 2 ^ (e - e').
Proof.
  intros Hle.
  change (shl_align m e e')
    with (match e' - e with
          | Z.neg d => (Pos.iter xO m d, e')
          | _ => (m, e)
          end).
  destruct (e' - e) as [|k|k] eqn:Hk; cbn [fst]; [| lia |].
  - replace (e - e') with 0 by lia. lia.
  - rewrite Zpos_iter_xO. f_equal. f_equal. lia.
Qed.

(** [2 * np.pi] is the float of mantissa 7074237752028440 and exponent -50;
    [fmod] by it is smaller in magnitude and keeps the sign of its first
    argument. *)
Lemma fmod_two_pi_below (s : bool) (m : positive) (e : Z) :
  f64_below 7074237752028440 (-50) s (fmod (S754_finite s m e) two_pi).
Proof.
  unfold two_pi, fmod.
  set (ez := Z.min e (-50)).
  set (a := Z.pos m * 2 ^ (e - ez)).
  set (b := 7074237752028440 * 2 ^ (-50 - ez)).
  assert (Hpw : 0 < 2 ^ (-50 - ez)) by (apply Z.pow_pos_nonneg; lia).
  assert (Hpa : 0 < 2 ^ (e - ez)) by (apply Z.pow_pos_nonneg; lia).
  assert (Hb : 0 < b) by (unfold b; lia).
  assert (Ha : 0 <= a) by (unfold a; lia).
  pose proof (Z.rem_bound_pos a b Ha Hb) as Hr.
  destruct (Z.rem a b) as [|q|q]; [left; now destruct s | | lia].
  replace (binary_normalize prec emax (cond_Zopp s (Z.pos q)) ez s)
    with (binary_round prec emax s q ez) by (now destruct s).
  apply binary_round_below; [lia | lia |].
  replace (Z.min ez (-50)) with ez by lia.
  rewrite Z.sub_diag, Z.mul_1_r. exact (proj2 Hr).
Qed.

Lemma f64_below_range (M : positive) (E : Z) (r : float64) :
  f64_below M E false r ->
  f64_leb f64_zero r = true /\ f64_leb r (S754_finite false M E) = true.
Proof.
  intros [-> | (m & e & -> & Hm & Hb)]; [now split|].
  split; [reflexivity|].
  unfold f64_leb, SFleb, SFcompare.
  destruct Hb as [Hlt | [-> Hle]].
  - now rewrite (proj2 (Z.compare_lt_iff e E) Hlt).
  - rewrite Z.compare_refl.
    change (Pos.compare_cont Eq m M) with (m ?= M)%positive.
    destruct (Pos.compare_spec m M); [reflexivity | reflexivity | lia].
Qed.

(** [np.mod(h, 2 * np.pi)] is a float in the closed interval from 0 to
    [2 * np.pi] when [h] is finite, and NaN when [h] is NaN or infinite. *)
Lemma np_mod_two_pi_range (h : float64) :
  if is_finite h
  then f64_leb f64_zero (np_mod h two_pi) = true
       /\ f64_leb (np_mod h two_pi) two_pi = true
  else np_mod h two_pi = f64_nan.
Proof.
  destruct h as [s|s| |s m e]; cbn [is_finite];
    [now destruct s | now destruct s | reflexivity |].
  pose proof (fmod_two_pi_below s m e) as Hf.
  unfold np_mod. change (negb (bool_of_float two_pi)) with false. cbv iota.
  change (f64_ltb two_pi f64_zero) with false.
  destruct Hf as [-> | (m' & e' & -> & Hm & Hb)]; [now split|].
  cbn [bool_of_float].
  destruct s;
    [change (f64_ltb (S754_finite true m' e') f64_zero) with true
    |change (f64_ltb (S754_finite false m' e') f64_zero) with false];
    cbn [Bool.eqb negb].
  - (* a negative remainder: one addition of [2 * np.pi] *)
    apply (f64_below_range 7074237752028440 (-50)).
    assert (He' : e' <= -50) by lia.
    unfold two_pi, SFadd. replace (Z.min e' (-50)) with e' by lia.
    cbn [cond_Zopp].
    rewrite (shl_align_value m' e' e'), (shl_align_value 7074237752028440 (-50) e') by lia.
    rewrite Z.sub_diag, Z.mul_1_r.
    assert (Hpw : 0 < 2 ^ (-50 - e')) by (apply Z.pow_pos_nonneg; lia).
    assert (Hsum : 0 <= - Z.pos m' + 7074237752028440 * 2 ^ (-50 - e')).
    { destruct Hb as [Hlt | [-> Hle]].
      - assert (2 ^ 1 <= 2 ^ (-50 - e')) by (apply Z.pow_le_mono_r; lia).
        change (2 ^ 1) with 2 in *. lia.
      - change (2 ^ (-50 - -50)) with 1. lia. }
    destruct (- Z.pos m' + 7074237752028440 * 2 ^ (-50 - e')) as [|q|q] eqn:Hq;
      [now left | | lia].
    cbn [binary_normalize].
    apply binary_round_below; [lia | lia |].
    replace (Z.min e' (-50)) with e' by lia.
    rewrite Z.sub_diag, Z.mul_1_r. lia.
  - apply (f64_below_range 7074237752028440 (-50)). right. now exists m', e'.
Qed.


(** ** Computations: basic steps *)

Lemma bind_ok {A B} (c : M A) (k : A -> M B) (w w' : World) (a : A) :
  c w = (Ok a, w') -> bind c k w = k a w'.
Proof. unfold bind. now intros ->. Qed.

Lemma bind_raise {A B} (c : M A) (k : A -> M B) (w w' : World) (e : exn) :
  c w = (Raise e, w') -> bind c k w = (Raise e, w').
Proof. unfold bind. now intros ->. Qed.

Lemma bind_assoc {A B C} (c : M A) (k : A -> M B) (k' : B -> M C) (w : World) :
  bind (bind c k) k' w = bind c (fun a => bind (k a) k') w.
Proof. unfold bind. destruct (c w) as [[a|e] w']; reflexivity. Qed.

Lemma bind_ret {A B} (a : A) (k : A -> M B) (w : World) :
  bind (ret a) k w = k a w.
Proof. reflexivity. Qed.

Lemma bind_lift_ok {A B} (a : A) (k : A -> M B) (w : World) :
  bind (lift (Ok a)) k w = k a w.
Proof. reflexivity. Qed.

Lemma bind_lift_raise {A B} (e : exn) (k : A -> M B) (w : World) :
  bind (lift (Raise e)) k w = (Raise e, w).
Proof. reflexivity. Qed.

Lemma bind_assert_true {B} (k : unit -> M B) (w : World) :
  bind (assert true) k w = k tt w.
Proof. reflexivity. Qed.

Lemma bind_assert_false {B} (k : unit -> M B) (w : World) :
  bind (assert false) k w = (Raise AssertionError, w).
Proof. reflexivity. Qed.

Ltac norm :=
  repeat (rewrite bind_assoc || rewrite bind_ret || rewrite bind_lift_ok
          || rewrite bind_assert_true).

Lemma deref_live (w : World) (r : ref) (s : PhysicsState.t) :
  objs w !! r = Some s -> deref r w = (Ok s, w).
Proof. unfold deref. now intros ->. Qed.

(** Reading a cell changes nothing but the access count. *)
Lemma array_get_frame (a : ndarray) (k : Z) (w w' : World) (r : result float64) :
  array_get a k w = (r, w') -> objs w' = objs w /\ junk w' = junk w.
Proof.
  unfold array_get, bind, lift, deref, tick, ret, raise.
  destruct (py_index (size a) k); [| now intros [= _ <-]].
  destruct (objs w !! base a); [| now intros [= _ <-]].
  destruct (_ !! _); now intros [= _ <-].
Qed.

Lemma int_of_cell_frame (a : ndarray) (k z : Z) (w w' : World) :
  (x <- array_get a k ;; lift (int_of_float x)) w = (Ok z, w') ->
  objs w' = objs w.
Proof.
  unfold bind at 1. destruct (array_get a k w) as [[x|e] w1] eqn:E; [| discriminate].
  unfold lift. intros [= _ <-]. now apply array_get_frame in E.
Qed.


(** ** Slices *)

Lemma array_slice_range (a : ndarray) (lo hi : Z) :
  0 <= lo <= hi -> hi <= Z.of_nat (size a) ->
  array_slice a (Some lo) (Some hi)
  = mk_ndarray (base a) (off a + Z.to_nat lo) (Z.to_nat (hi - lo)).
Proof.
  intros H1 H2. unfold array_slice, slice_bounds, clamp_slice_end.
  destruct (Z.ltb_spec lo 0), (Z.ltb_spec hi 0); try lia.
  f_equal; lia.
Qed.

Lemma array_slice_from (a : ndarray) (lo : Z) :
  0 <= lo <= Z.of_nat (size a) ->
  array_slice a (Some lo) None
  = mk_ndarray (base a) (off a + Z.to_nat lo) (size a - Z.to_nat lo).
Proof.
  intros H. unfold array_slice, slice_bounds, clamp_slice_end.
  destruct (Z.ltb_spec lo 0); try lia.
  f_equal; lia.
Qed.

Lemma array_slice_tail (a : ndarray) (k : Z) :
  0 < k <= Z.of_nat (size a) ->
  array_slice a (Some (- k)) None
  = mk_ndarray (base a) (off a + (size a - Z.to_nat k)) (Z.to_nat k).
Proof.
  intros H. unfold array_slice, slice_bounds, clamp_slice_end.
  destruct (Z.ltb_spec (- k) 0); try lia.
  f_equal; lia.
Qed.

Lemma py_index_nonneg (n : nat) (k : Z) :
  0 <= k < Z.of_nat n -> py_index n k = Ok (Z.to_nat k).
Proof.
  intros H. unfold py_index.
  destruct (Z.leb_spec 0 k), (Z.ltb_spec k (Z.of_nat n)); try lia. reflexivity.
Qed.

Lemma py_index_neg (n : nat) (k : Z) :
  - Z.of_nat n <= k < 0 -> py_index n k = Ok (Z.to_nat (Z.of_nat n + k)).
Proof.
  intros H. unfold py_index.
  destruct (Z.leb_spec 0 k); try lia. simpl.
  destruct (Z.leb_spec (- Z.of_nat n) k), (Z.ltb_spec k 0); try lia. reflexivity.
Qed.

Lemma py_index_Ok (n : nat) (k : Z) (i : nat) :
  py_index n k = Ok i -> (i < n)%nat.
Proof.
  unfold py_index.
  destruct (Z.leb_spec 0 k), (Z.ltb_spec k (Z.of_nat n)); simpl.
  all: try (intros [= <-]; lia).
  all: destruct (Z.leb_spec (- Z.of_nat n) k), (Z.ltb_spec k 0); simpl;
    try discriminate; intros [= <-]; lia.
Qed.

Lemma py_index_out (n : nat) (k : Z) :
  k < - Z.of_nat n \/ Z.of_nat n <= k -> py_index n k = Raise IndexError.
Proof.
  intros H. unfold py_index.
  destruct (Z.leb_spec 0 k), (Z.ltb_spec k (Z.of_nat n)); simpl; try lia;
    destruct (Z.leb_spec (- Z.of_nat n) k), (Z.ltb_spec k 0); simpl; try lia;
    reflexivity.
Qed.

Lemma py_getitem_exn {A} (l : list A) (k : Z) (e : exn) :
  py_getitem l k = Raise e -> e = IndexError.
Proof.
  unfold py_getitem, py_index.
  repeat match goal with
         | |- context [if ?b then _ else _] => destruct b
         | |- context [match ?l !! ?i with _ => _ end] => destruct (l !! i)
         end; congruence.
Qed.

Lemma py_getitem_nonneg {A} (l : list A) (i : nat) (a : A) :
  l !! i = Some a -> py_getitem l (Z.of_nat i) = Ok a.
Proof.
  intros H. unfold py_getitem.
  rewrite py_index_nonneg by (apply lookup_lt_Some in H; lia).
  now rewrite Nat2Z.id, H.
Qed.

(** ** Names *)

Lemma py_in_In (x : string) (l : list string) : py_in x l = true <-> In x l.
Proof.
  unfold py_in. rewrite existsb_exists. split.
  - intros (y & Hy & E). apply String.eqb_eq in E. now subst.
  - intros H. exists x. split; [assumption | apply String.eqb_refl].
Qed.

Lemma list_index_absent (x : string) (l : list string) :
  py_in x l = false -> list_index x l = Raise ValueError.
Proof.
  unfold py_in. induction l as [|y l IH]; simpl; [reflexivity|].
  destruct (String.eqb x y); simpl; [discriminate|].
  intros H. now rewrite IH.
Qed.

Lemma list_index_present (x : string) (l : list string) :
  In x l ->
  exists i : nat, list_index x l = Ok (Z.of_nat i) /\ l !! i = Some x.
Proof.
  induction l as [|y l IH]; simpl; [tauto|].
  destruct (String.eqb_spec x y) as [->|Hne].
  - intros _. now exists 0%nat.
  - intros [->|H]; [congruence|].
    destruct (IH H) as (i & -> & Hi). exists (S i). split; [f_equal; lia | exact Hi].
Qed.

(** ** The store: one container stepped in place *)

Section Put.

Variables (w0 : World) (c : ref).
Hypothesis Hc : (c < length (objs w0))%nat.

Lemma put_lookup (s : PhysicsState.t) (k : nat) :
  objs (put w0 c s k) !! c = Some s.
Proof. simpl. now apply list_lookup_insert_eq. Qed.

Lemma put_put (s s' : PhysicsState.t) (k k' : nat) :
  put (put w0 c s k) c s' k' = put w0 c s' k'.
Proof. unfold put. simpl. now rewrite list_insert_insert_eq. Qed.

Lemma deref_put (s : PhysicsState.t) (k : nat) :
  deref c (put w0 c s k) = (Ok s, put w0 c s k).
Proof. apply deref_live, put_lookup. Qed.

Lemma update_put (g : PhysicsState.t -> PhysicsState.t) (s : PhysicsState.t) (k : nat) :
  update c g (put w0 c s k) = (Ok tt, put w0 c (g s) k).
Proof.
  unfold update. rewrite put_lookup. f_equal.
  change (mk_World _ _ _) with (put (put w0 c s k) c (g s) k).
  apply put_put.
Qed.

Lemma tick_put (j : nat) (s : PhysicsState.t) (k : nat) :
  tick j (put w0 c s k) = (Ok tt, put w0 c s (k + j)).
Proof. reflexivity. Qed.

Lemma array_rep_put (s : PhysicsState.t) (k : nat) :
  array_rep c (put w0 c s k)
  = (Ok (mk_ndarray c 0 (length (PhysicsState._array_rep s))), put w0 c s k).
Proof. unfold array_rep. now rewrite (bind_ok _ _ _ _ _ (deref_put s k)). Qed.

Lemma array_get_put (a : ndarray) (idx : Z) (i : nat) (x : float64)
    (s : PhysicsState.t) (k : nat) :
  base a = c -> py_index (size a) idx = Ok i ->
  PhysicsState._array_rep s !! (off a + i)%nat = Some x ->
  array_get a idx (put w0 c s k) = (Ok x, put w0 c s (k + 1)).
Proof.
  intros Hb Hi Hx. unfold array_get. rewrite Hi, Hb.
  rewrite (bind_ok _ _ _ _ i) by reflexivity.
  rewrite (bind_ok _ _ _ _ _ (deref_put s k)).
  rewrite (bind_ok _ _ _ _ _ (tick_put 1 s k)).
  now rewrite Hx.
Qed.

Lemma array_set_put (a : ndarray) (idx : Z) (i : nat) (v : scalar) (x : float64)
    (s : PhysicsState.t) (k : nat) :
  base a = c -> np_coerce v = Ok x -> py_index (size a) idx = Ok i ->
  (off a + i < length (PhysicsState._array_rep s))%nat ->
  array_set a idx v (put w0 c s k)
  = (Ok tt, put w0 c (poke (off a + i) x s) (k + 1)).
Proof.
  intros Hb Hv Hi Hlt. unfold array_set. rewrite Hv, Hi, Hb.
  rewrite (bind_ok _ _ _ _ i) by reflexivity.
  rewrite (bind_ok _ _ _ _ x) by reflexivity.
  rewrite (bind_ok _ _ _ _ _ (deref_put s k)).
  rewrite (bind_ok _ _ _ _ _ (tick_put 1 s k)).
  destruct (Nat.ltb_spec (off a + i) (length (PhysicsState._array_rep s))); [| lia].
  apply update_put.
Qed.

End Put.

Lemma put_id (w : World) (c : ref) (s : PhysicsState.t) :
  objs w !! c = Some s -> put w c s (ops w) = w.
Proof.
  intros H. unfold put. rewrite list_insert_id by assumption. now destruct w.
Qed.

Lemma alloc_put (mk : ref -> PhysicsState.t) (w : World) :
  let c := length (objs w) in
  let wa := mk_World (objs w ++ [mk c]) (ops w) (junk w) in
  alloc mk w = (Ok c, put wa c (mk c) (ops w)) /\ (c < length (objs wa))%nat.
Proof.
  intros c wa. split.
  - unfold alloc. fold c. f_equal. symmetry. apply (put_id wa).
    simpl. now rewrite lookup_app_r, Nat.sub_diag.
  - subst wa. simpl. rewrite length_app. simpl. lia.
Qed.


Section Proofs.

Variable names : strings.t.

(** *** Whole-row assignment from a view of the same container *)

Lemma setitem_from_own_view (w : World) (c : ref) (idx : index) (j : Z) :
  PhysicsState__setitem__ c idx (ViewOf (_EntityView.mk c j)) w = (Ok tt, w).
Proof.
  unfold PhysicsState__setitem__. simpl. now rewrite Nat.eqb_refl.
Qed.

(** C8. [C[i] = C[i]]: the view obtained from [C] at row [i] is assigned
    back to row [i].  The assignment returns with the store as it was: the
    buffer and every field of every container are unchanged, and so is the
    count of buffer cells accessed, so nothing was traversed. *)
Theorem self_assignment_is_noop (w : World) (c : ref) (i : Z) :
  (v <- PhysicsState__getitem__ c (IInt i) ;;
   PhysicsState__setitem__ c (IInt i) (ViewOf v)) w = (Ok tt, w).
Proof.
  unfold PhysicsState__getitem__.
  rewrite (bind_ok _ _ w w (_EntityView.mk c i)) by reflexivity.
  apply setitem_from_own_view.
Qed.

(** C10. Assigning to row [idx] any view [V] created by the same
    container, whatever row [j] it aliases, returns at the identity check:
    the store (buffer included) is unchanged and no cell is accessed, so
    nothing is copied from row [j] to the assigned row. *)
Theorem assignment_from_own_view_ignores_row
    (w : World) (c : ref) (idx : index) (j : Z) :
  PhysicsState__setitem__ c idx (ViewOf (_EntityView.mk c j)) w = (Ok tt, w).
Proof. apply setitem_from_own_view. Qed.

(** *** Indexing collections *)

Lemma owner_array_live (w : World) (c : ref) (s : PhysicsState.t) :
  objs w !! c = Some s ->
  owner_array c w = (Ok (EngineeringState._array (PhysicsState.engineering s)), w).
Proof. intros H. unfold owner_array. now rewrite (bind_ok _ _ _ _ _ (deref_live _ _ _ H)). Qed.

Lemma ComponentList_int (w : World) (c : ref) (s : PhysicsState.t) (k : Z) :
  objs w !! c = Some s ->
  ComponentList__getitem__ names c (IInt k) w
  = if k >=? _N_COMPONENTS names then (Raise IndexError, w)
    else (Ok (ComponentView.mk c (components_array names s) k), w).
Proof.
  intros H. unfold ComponentList__getitem__.
  destruct (k >=? _N_COMPONENTS names); [reflexivity|].
  rewrite (bind_ok _ _ w w k) by reflexivity.
  now rewrite (bind_ok _ _ _ _ _ (owner_array_live _ _ _ H)).
Qed.

Lemma CoolantLoopList_int (w : World) (c : ref) (s : PhysicsState.t) (k : Z) :
  objs w !! c = Some s ->
  CoolantLoopList__getitem__ names c (IInt k) w
  = if k >=? _N_COOLANT_LOOPS names then (Raise IndexError, w)
    else (Ok (CoolantView.mk (coolant_loops_array names s) k), w).
Proof.
  intros H. unfold CoolantLoopList__getitem__.
  destruct (k >=? _N_COOLANT_LOOPS names); [reflexivity|].
  rewrite (bind_ok _ _ w w k) by reflexivity.
  now rewrite (bind_ok _ _ _ _ _ (owner_array_live _ _ _ H)).
Qed.

Lemma RadiatorList_int (w : World) (c : ref) (s : PhysicsState.t) (k : Z) :
  objs w !! c = Some s ->
  RadiatorList__getitem__ names c (IInt k) w
  = if k >=? _N_RADIATORS names then (Raise IndexError, w)
    else (Ok (RadiatorView.mk c (radiators_array names s) k), w).
Proof.
  intros H. unfold RadiatorList__getitem__.
  destruct (k >=? _N_RADIATORS names); [reflexivity|].
  rewrite (bind_ok _ _ w w k) by reflexivity.
  now rewrite (bind_ok _ _ _ _ _ (owner_array_live _ _ _ H)).
Qed.

(** C4 (amended). Lookup by an int [k] in the three engineering
    collections raises [IndexError] exactly when [k] is at or past the
    declared count; every smaller int, the negative ones included, is
    answered with a view of index [k].  Lookup of an entity by an int
    checks nothing: every int is answered with a view of that row. *)
Theorem int_lookup_checks_upper_bound_only
    (w : World) (c : ref) (s : PhysicsState.t) (k : Z) :
  objs w !! c = Some s ->
  ComponentList__getitem__ names c (IInt k) w
    = (if k >=? _N_COMPONENTS names then (Raise IndexError, w)
       else (Ok (ComponentView.mk c (components_array names s) k), w))
  /\ CoolantLoopList__getitem__ names c (IInt k) w
    = (if k >=? _N_COOLANT_LOOPS names then (Raise IndexError, w)
       else (Ok (CoolantView.mk (coolant_loops_array names s) k), w))
  /\ RadiatorList__getitem__ names c (IInt k) w
    = (if k >=? _N_RADIATORS names then (Raise IndexError, w)
       else (Ok (RadiatorView.mk c (radiators_array names s) k), w))
  /\ PhysicsState__getitem__ c (IInt k) w = (Ok (_EntityView.mk c k), w).
Proof.
  intros H. repeat split.
  - now apply ComponentList_int.
  - now apply CoolantLoopList_int.
  - now apply RadiatorList_int.
Qed.

(** *** Coolant-loop references *)

Lemma RadiatorView_get_coolant_loop_resolves
    (w w' : World) (r : RadiatorView.t) (s : PhysicsState.t) (k : Z) :
  objs w !! RadiatorView._parent r = Some s ->
  RadiatorView_attached_to_coolant_loop r w = (Ok k, w') ->
  k <= _N_COOLANT_LOOPS names ->
  RadiatorView_get_coolant_loop names r w
  = (Ok (CoolantView.mk (coolant_loops_array names s) (k - 1)), w')
  /\ CoolantLoopList__getitem__ names (RadiatorView._parent r) (IInt (k - 1)) w'
     = (Ok (CoolantView.mk (coolant_loops_array names s) (k - 1)), w').
Proof.
  intros Hs Hk Hle.
  assert (Hs' : objs w' !! RadiatorView._parent r = Some s).
  { unfold RadiatorView_attached_to_coolant_loop in Hk.
    apply int_of_cell_frame in Hk. now rewrite Hk. }
  pose proof (CoolantLoopList_int w' _ s (k - 1) Hs') as Hget.
  destruct (Z.geb_spec (k - 1) (_N_COOLANT_LOOPS names)); [lia|].
  split; [| exact Hget].
  unfold RadiatorView_get_coolant_loop.
  now rewrite (bind_ok _ _ _ _ _ Hk).
Qed.



(** *** The layout of a constructed container *)

Ltac layout :=
  unfold expected_size, SRB_TIME_INDEX, TIME_ACC_INDEX, ENGINEERING_START_INDEX,
    N_ENGINEERING_FIELDS, _RADIATOR_START_INDEX, _COOLANT_START_INDEX,
    _COMPONENT_START_INDEX, _N_COMPONENT_FIELDS, _N_COOLANT_FIELDS,
    _N_RADIATOR_FIELDS, PhysicsState.N_SINGULAR_ELEMENTS,
    _N_COMPONENTS, _N_COOLANT_LOOPS, _N_RADIATORS, len in *;
  cbn [length _PER_ENTITY_MUTABLE_FIELDS] in *; lia.

Lemma N_ENGINEERING_FIELDS_nonneg : 0 <= N_ENGINEERING_FIELDS names.
Proof. layout. Qed.

Lemma constructed_inv (w : World) (c : ref) :
  constructed names w c = true ->
  exists s,
    objs w !! c = Some s
    /\ PhysicsState._n s
       = len (protos.PhysicalState.entities (PhysicsState._proto_state s))
    /\ PhysicsState._entity_names s
       = List.map protos.Entity.name
           (protos.PhysicalState.entities (PhysicsState._proto_state s))
    /\ len (PhysicsState._array_rep s) = expected_size names (PhysicsState._n s)
    /\ EngineeringState._array (PhysicsState.engineering s)
       = array_slice (mk_ndarray c 0 (length (PhysicsState._array_rep s)))
           (Some (ENGINEERING_START_INDEX names)) None
    /\ declared_cardinalities names (PhysicsState._proto_state s).
Proof.
  unfold constructed. destruct (objs w !! c) as [s|]; [| discriminate].
  intros H. exists s.
  repeat (apply andb_prop in H as [H ?]).
  repeat match goal with
         | H : (_ =? _) = true |- _ => apply Z.eqb_eq in H
         | H : Nat.eqb _ _ = true |- _ => apply Nat.eqb_eq in H
         | H : bool_decide _ = true |- _ => apply bool_decide_eq_true in H
         end.
  repeat split; try assumption.
  destruct (EngineeringState._array (PhysicsState.engineering s)), (array_slice _ _ _).
  simpl in *. congruence.
Qed.

Lemma expected_size_eq (n : Z) :
  expected_size names n = n * 10 + 2 + N_ENGINEERING_FIELDS names.
Proof. reflexivity. Qed.

(** With at least one engineering field, the engineering array is the
    tail of the buffer. *)
Lemma engineering_array_tail (c : ref) (L : nat) (n : Z) :
  0 <= n -> Z.of_nat L = expected_size names n ->
  0 < N_ENGINEERING_FIELDS names ->
  array_slice (mk_ndarray c 0 L) (Some (ENGINEERING_START_INDEX names)) None
  = mk_ndarray c (Z.to_nat (n * 10 + 2)) (Z.to_nat (N_ENGINEERING_FIELDS names)).
Proof.
  intros Hn HL HE. rewrite expected_size_eq in HL.
  unfold ENGINEERING_START_INDEX. rewrite array_slice_tail by (simpl; lia).
  simpl. f_equal. lia.
Qed.





(** *** The length check of the constructor *)

(** C9. Given a buffer whose length is not entity count x mutable-field
    count + 2 + engineering-field count, the constructor raises (an
    [IndexError] where the buffer is too short to hold the two singular
    scalars, an [AssertionError] otherwise) and returns no container. *)
Theorem wrong_length_buffer_is_rejected
    (w : World) (y : list float64) (proto_state : protos.PhysicalState.t) :
  len y <> expected_size names (len (protos.PhysicalState.entities proto_state)) ->
  exists w',
    PhysicsState__init__ names (Some y) proto_state w = (Raise IndexError, w')
    \/ PhysicsState__init__ names (Some y) proto_state w = (Raise AssertionError, w').
Proof.
  intros Hlen. unfold PhysicsState__init__.
  match goal with
  | |- context [alloc ?mk] => destruct (alloc_put mk w) as [Ha Hc]
  end.
  set (c := length (objs w)) in *.
  set (wa := mk_World _ _ _) in *.
  norm. rewrite (bind_ok _ _ _ _ _ Ha). norm.
  destruct (py_getitem y (SRB_TIME_INDEX names)) as [srb|e] eqn:Esrb.
  2:{ apply py_getitem_exn in Esrb as ->. rewrite bind_lift_raise. eauto. }
  norm. rewrite (bind_ok _ _ _ _ _ (update_put wa c Hc _ _ _)). norm.
  destruct (py_getitem y (TIME_ACC_INDEX names)) as [acc|e] eqn:Eacc.
  2:{ apply py_getitem_exn in Eacc as ->. rewrite bind_lift_raise. eauto. }
  norm. rewrite (bind_ok _ _ _ _ _ (update_put wa c Hc _ _ _)). norm.
  rewrite (bind_ok _ _ _ _ _ (array_rep_put wa c Hc _ _)). norm.
  unfold EngineeringState__init__. norm.
  destruct (_ =? _N_COMPONENTS names); [| rewrite bind_assert_false; eauto].
  norm.
  destruct (_ =? _N_COOLANT_LOOPS names); [| rewrite bind_assert_false; eauto].
  norm.
  destruct (_ =? _N_RADIATORS names); [| rewrite bind_assert_false; eauto].
  norm. rewrite (bind_ok _ _ _ _ _ (update_put wa c Hc _ _ _)). norm.
  rewrite (bind_ok _ _ _ _ _ (array_rep_put wa c Hc _ _)).
  cbn [PhysicsState._array_rep PhysicsState.with_engineering
       PhysicsState.with_proto size].
  fold (len y).
  destruct (Z.eqb_spec (len y)
              (expected_size names (len (protos.PhysicalState.entities proto_state))));
    [contradiction|].
  rewrite bind_assert_false. eauto.
Qed.

(** *** Entity views over one container *)

Lemma sized_poke (pos : nat) (x : float64) (s : PhysicsState.t) :
  sized names s -> sized names (poke pos x s).
Proof.
  unfold sized, poke, len. cbn [PhysicsState._n PhysicsState._array_rep
                                 PhysicsState.with_array].
  now rewrite length_insert.
Qed.

Lemma entity_cell (s : PhysicsState.t) (fo i : Z) :
  sized names s -> 0 <= fo <= 9 -> 0 <= i < PhysicsState._n s ->
  let pos := Z.to_nat (PhysicsState._n s * fo + i) in
  py_index (length (PhysicsState._array_rep s)) (PhysicsState._n s * fo + i) = Ok pos
  /\ (pos < length (PhysicsState._array_rep s))%nat.
Proof.
  intros [Hn Hlen] Hfo Hi pos.
  pose proof N_ENGINEERING_FIELDS_nonneg as HE.
  rewrite expected_size_eq in Hlen. unfold len in Hlen.
  assert (0 <= PhysicsState._n s * fo + i < Z.of_nat (length (PhysicsState._array_rep s)))
    by nia.
  split; [now apply py_index_nonneg | subst pos; lia].
Qed.

Lemma poke_lookup (s : PhysicsState.t) (pos : nat) (x : float64) :
  (pos < length (PhysicsState._array_rep s))%nat ->
  PhysicsState._array_rep (poke pos x s) !! pos = Some x.
Proof. intros H. now apply list_lookup_insert_eq. Qed.

Section Views.

Variables (w0 : World) (c : ref).
Hypothesis Hc : (c < length (objs w0))%nat.

Lemma float_fset_put (s : PhysicsState.t) (k : nat) (fo i : Z)
    (val : scalar) (x : float64) :
  sized names s -> 0 <= fo <= 9 -> 0 <= i < PhysicsState._n s ->
  np_coerce val = Ok x ->
  entity_view_float_fset fo (_EntityView.mk c i) val (put w0 c s k)
  = (Ok tt, put w0 c (poke (Z.to_nat (PhysicsState._n s * fo + i)) x s) (k + 1)).
Proof.
  intros Hs Hfo Hi Hx. destruct (entity_cell s fo i Hs Hfo Hi) as [Hidx Hlt].
  unfold entity_view_float_fset. cbn [_EntityView._creator _EntityView._index].
  rewrite (bind_ok _ _ _ _ _ (deref_put w0 c Hc s k)).
  rewrite (bind_ok _ _ _ _ _ (array_rep_put w0 c Hc s k)).
  now rewrite (array_set_put w0 c Hc (mk_ndarray c 0 _) _ _ val x s k eq_refl Hx Hidx Hlt).
Qed.

Lemma float_fget_put (s : PhysicsState.t) (k : nat) (fo i : Z) (x : float64) :
  sized names s -> 0 <= fo <= 9 -> 0 <= i < PhysicsState._n s ->
  PhysicsState._array_rep s !! Z.to_nat (PhysicsState._n s * fo + i) = Some x ->
  entity_view_float_fget fo (_EntityView.mk c i) (put w0 c s k)
  = (Ok x, put w0 c s (k + 1)).
Proof.
  intros Hs Hfo Hi Hx. destruct (entity_cell s fo i Hs Hfo Hi) as [Hidx Hlt].
  unfold entity_view_float_fget. cbn [_EntityView._creator _EntityView._index].
  rewrite (bind_ok _ _ _ _ _ (deref_put w0 c Hc s k)).
  rewrite (bind_ok _ _ _ _ _ (array_rep_put w0 c Hc s k)).
  now rewrite (array_get_put w0 c Hc (mk_ndarray c 0 _) _ _ x s k eq_refl Hidx Hx).
Qed.

Lemma y_component_put (s : PhysicsState.t) (k : nat) (f : field) :
  sized names s -> 0 <= field_order f <= 9 ->
  _y_component c f (put w0 c s k)
  = (Ok (mk_ndarray c (Z.to_nat (field_order f * PhysicsState._n s))
           (Z.to_nat (PhysicsState._n s))),
     put w0 c s k).
Proof.
  intros [Hn Hlen] Hfo. unfold _y_component.
  rewrite (bind_ok _ _ _ _ _ (deref_put w0 c Hc s k)).
  rewrite (bind_ok _ _ _ _ _ (array_rep_put w0 c Hc s k)).
  pose proof N_ENGINEERING_FIELDS_nonneg as HE.
  rewrite expected_size_eq in Hlen. unfold len in Hlen.
  rewrite array_slice_range by (cbn [size]; nia).
  unfold ret. do 3 f_equal. lia.
Qed.

End Views.

Lemma constructed_sized (w : World) (c : ref) (s : PhysicsState.t) :
  constructed names w c = true -> objs w !! c = Some s -> sized names s.
Proof.
  intros H Hs. destruct (constructed_inv w c H) as (s' & Hs' & Hn & _ & Hlen & _).
  assert (s' = s) by congruence. subst s'.
  split; [rewrite Hn; unfold len; lia | assumption].
Qed.

(** C2. After a value is stored in field [x] through the view [C[i]] (7,
    say, which the buffer holds as the float 7.0), the column accessor
    [C.X] has that value at position [i], and a freshly obtained view
    [C[i]] reads [x] as that value. *)
Theorem write_through_view_is_visible
    (w : World) (c : ref) (s : PhysicsState.t) (i : Z) (val : scalar) (x : float64) :
  constructed names w c = true ->
  objs w !! c = Some s ->
  0 <= i < PhysicsState._n s ->
  np_coerce val = Ok x ->
  exists w',
    (v <- PhysicsState__getitem__ c (IInt i) ;; _EntityView_set_x v val) w
    = (Ok tt, w')
    /\ fst ((X <- PhysicsState_X c ;; array_get X i) w') = Ok x
    /\ fst ((v <- PhysicsState__getitem__ c (IInt i) ;; _EntityView_x v) w') = Ok x.
Proof.
  intros Hcon Hs Hi Hx.
  pose proof (constructed_sized w c s Hcon Hs) as Hsz.
  assert (Hc : (c < length (objs w))%nat) by (now apply lookup_lt_Some in Hs).
  rewrite <- (put_id w c s Hs).
  set (pos := Z.to_nat (PhysicsState._n s * 0 + i)).
  destruct (entity_cell s 0 i Hsz ltac:(lia) Hi) as [_ Hlt]. fold pos in Hlt.
  exists (put w c (poke pos x s) (ops w + 1)).
  unfold PhysicsState__getitem__, _EntityView_set_x, _EntityView_x, PhysicsState_X.
  norm. change (field_order f_x) with 0.
  split; [| split].
  - now apply float_fset_put.
  - rewrite (bind_ok _ _ _ _ _
               (y_component_put w c Hc _ _ f_x (sized_poke pos x s Hsz) ltac:(cbv; split; discriminate))).
    change (field_order f_x) with 0.
    erewrite (array_get_put w c Hc); [reflexivity | reflexivity | |].
    + cbn [size]. apply py_index_nonneg. cbn [poke PhysicsState._n PhysicsState.with_array]. lia.
    + cbn [off]. replace (Z.to_nat (0 * _) + Z.to_nat i)%nat with pos by (subst pos; lia).
      now apply poke_lookup.
  - erewrite float_fget_put; [reflexivity | assumption | now apply sized_poke | lia | exact Hi |].
    now apply poke_lookup.
Qed.

(** *** Names and indices *)

Lemma name_to_index_run (w : World) (c : ref) (s : PhysicsState.t) (name : option string) :
  objs w !! c = Some s ->
  _name_to_index c name w = (name_index (PhysicsState._entity_names s) name, w).
Proof.
  intros Hs. unfold _name_to_index.
  now rewrite (bind_ok _ _ _ _ _ (deref_live _ _ _ Hs)).
Qed.

Lemma name_index_absent (tbl : list string) (name : string) :
  name <> "" -> py_in name tbl = false ->
  name_index tbl (Some name) = Raise NoEntityError.
Proof.
  intros Hne Hin. unfold name_index.
  destruct (String.eqb_spec name ""); [contradiction|].
  now rewrite (list_index_absent _ _ Hin).
Qed.

Lemma name_index_present (tbl : list string) (name : string) :
  name <> "" -> In name tbl ->
  exists i : nat, name_index tbl (Some name) = Ok (Z.of_nat i) /\ tbl !! i = Some name.
Proof.
  intros Hne Hin. destruct (list_index_present _ _ Hin) as (i & Hi & Hl).
  exists i. split; [| exact Hl]. unfold name_index.
  destruct (String.eqb_spec name ""); [contradiction|].
  now rewrite Hi.
Qed.

Lemma name_to_index_empty (w : World) (c : ref) (s : PhysicsState.t) :
  objs w !! c = Some s ->
  _name_to_index c (Some "") w = (Ok PhysicsState.NO_INDEX, w).
Proof. intros Hs. now rewrite (name_to_index_run w c s). Qed.

Lemma name_to_index_absent (w : World) (c : ref) (s : PhysicsState.t) (name : string) :
  objs w !! c = Some s -> name <> "" ->
  py_in name (PhysicsState._entity_names s) = false ->
  _name_to_index c (Some name) w = (Raise NoEntityError, w).
Proof.
  intros Hs Hne Hin. rewrite (name_to_index_run w c s) by assumption.
  now rewrite name_index_absent.
Qed.

Lemma name_to_index_present (w : World) (c : ref) (s : PhysicsState.t) (name : string) :
  objs w !! c = Some s -> name <> "" ->
  In name (PhysicsState._entity_names s) ->
  exists i : nat,
    _name_to_index c (Some name) w = (Ok (Z.of_nat i), w)
    /\ PhysicsState._entity_names s !! i = Some name.
Proof.
  intros Hs Hne Hin.
  destruct (name_index_present _ _ Hne Hin) as (i & Hi & Hl).
  exists i. split; [| exact Hl].
  rewrite (name_to_index_run w c s) by assumption. now rewrite Hi.
Qed.

(** Storing the index of a name in the [landed_on] cell of a row and
    reading the property back. *)
Lemma landed_on_stored (w : World) (c : ref) (s : PhysicsState.t) (i idx : Z)
    (name : string) :
  objs w !! c = Some s -> sized names s ->
  0 <= i < PhysicsState._n s ->
  - (2 ^ 53) < idx < 2 ^ 53 ->
  _name_to_index c (Some name) w = (Ok idx, w) ->
  (if idx =? PhysicsState.NO_INDEX then Ok ""
   else py_getitem (PhysicsState._entity_names s) idx) = Ok name ->
  exists w',
    _EntityView_set_landed_on (_EntityView.mk c i) (Some name) w = (Ok tt, w')
    /\ fst (_EntityView_landed_on (_EntityView.mk c i) w') = Ok name.
Proof.
  intros Hs Hsz Hi Hidx Hn2i Hback.
  assert (Hc : (c < length (objs w))%nat) by (now apply lookup_lt_Some in Hs).
  set (pos := Z.to_nat (PhysicsState._n s * 8 + i)).
  destruct (entity_cell s 8 i Hsz ltac:(lia) Hi) as [Hpos Hlt]. fold pos in Hpos, Hlt.
  exists (put w c (poke pos (float_of_Z idx) s) (ops w + 1)). split.
  - unfold _EntityView_set_landed_on, entity_view_landed_on_fset.
    cbn [_EntityView._creator _EntityView._index]. norm.
    rewrite (bind_ok _ _ _ _ _ Hn2i).
    rewrite <- (put_id w c s Hs) at 1.
    rewrite (bind_ok _ _ _ _ _ (deref_put w c Hc s _)).
    rewrite (bind_ok _ _ _ _ _ (array_rep_put w c Hc s _)).
    change (field_order f_landed_on) with 8.
    apply (array_set_put w c Hc (mk_ndarray c 0 _)); try assumption; try reflexivity.
    now apply np_coerce_int.
  - unfold _EntityView_landed_on, entity_view_landed_on_fget.
    cbn [_EntityView._creator _EntityView._index].
    rewrite (bind_ok _ _ _ _ _ (deref_put w c Hc _ _)).
    rewrite (bind_ok _ _ _ _ _ (array_rep_put w c Hc _ _)).
    change (field_order f_landed_on) with 8.
    erewrite (bind_ok (array_get _ _));
      [| apply (array_get_put w c Hc (mk_ndarray c 0 _) _ pos (float_of_Z idx));
         [reflexivity | | now apply poke_lookup ] ].
    + rewrite (int_of_float_of_Z idx Hidx). norm.
      cbn [poke PhysicsState._entity_names PhysicsState.with_array].
      destruct (idx =? PhysicsState.NO_INDEX).
      * injection Hback as <-. reflexivity.
      * unfold lift. now rewrite Hback.
    + cbn [size poke PhysicsState._n PhysicsState._array_rep PhysicsState.with_array].
      now rewrite length_insert.
Qed.

(** C7. On a view of a row of a constructed container: [landed_on] set to
    the name of an entity of the name table reads back as that name; set
    to the empty string it reads back as the empty string; set to any
    other name it raises [NoEntityError]. *)
Theorem landed_on_translates_names
    (w : World) (c : ref) (s : PhysicsState.t) (i : Z) (name : string) :
  constructed names w c = true ->
  objs w !! c = Some s ->
  0 <= i < PhysicsState._n s ->
  PhysicsState._n s < 2 ^ 53 ->
  let v := _EntityView.mk c i in
  (In name (PhysicsState._entity_names s) \/ name = "" ->
   exists w',
     _EntityView_set_landed_on v (Some name) w = (Ok tt, w')
     /\ fst (_EntityView_landed_on v w') = Ok name)
  /\ (~ In name (PhysicsState._entity_names s) -> name <> "" ->
      _EntityView_set_landed_on v (Some name) w = (Raise NoEntityError, w)).
Proof.
  intros Hcon Hs Hi Hn v.
  pose proof (constructed_sized w c s Hcon Hs) as Hsz.
  destruct (constructed_inv w c Hcon) as (s' & Hs' & Hlen & Hnames & _).
  assert (s' = s) by congruence. subst s'.
  split.
  - intros Hin. destruct (String.eqb_spec name "") as [->|Hne].
    + apply (landed_on_stored w c s i PhysicsState.NO_INDEX ""); try assumption.
      * unfold PhysicsState.NO_INDEX. lia.
      * now apply (name_to_index_empty w c s).
      * reflexivity.
    + destruct Hin as [Hin|]; [| contradiction].
      destruct (name_to_index_present w c s name Hs Hne Hin) as (k & Hk & Hl).
      assert (Z.of_nat k < PhysicsState._n s).
      { apply lookup_lt_Some in Hl. rewrite Hnames, length_map in Hl.
        rewrite Hlen. unfold len. lia. }
      apply (landed_on_stored w c s i (Z.of_nat k) name); try assumption.
      * lia.
      * destruct (Z.eqb_spec (Z.of_nat k) PhysicsState.NO_INDEX) as [E|_];
          [unfold PhysicsState.NO_INDEX in E; lia|].
        now apply py_getitem_nonneg.
  - intros Hnin Hne.
    unfold v, _EntityView_set_landed_on, entity_view_landed_on_fset.
    cbn [_EntityView._creator _EntityView._index]. norm.
    apply bind_raise. apply (name_to_index_absent w c s); try assumption.
    destruct (py_in name (PhysicsState._entity_names s)) eqn:E; [| reflexivity].
    apply py_in_In in E. contradiction.
Qed.

(** *** The controlled craft *)

Lemma craft_neither_present (w : World) (c : ref) (s : PhysicsState.t) :
  objs w !! c = Some s ->
  py_in HABITAT (PhysicsState._entity_names s) = false ->
  py_in AYSE (PhysicsState._entity_names s) = false ->
  PhysicsState_craft c w = (Ok None, w).
Proof.
  intros Hs Hh Ha. unfold PhysicsState_craft.
  rewrite (bind_ok _ _ _ _ _ (deref_live _ _ _ Hs)). now rewrite Hh, Ha.
Qed.

Lemma craft_habitat_only (w : World) (c : ref) (s : PhysicsState.t) :
  objs w !! c = Some s ->
  py_in HABITAT (PhysicsState._entity_names s) = true ->
  py_in AYSE (PhysicsState._entity_names s) = false ->
  PhysicsState_craft c w = (Ok (Some HABITAT), w).
Proof.
  intros Hs Hh Ha. unfold PhysicsState_craft.
  rewrite (bind_ok _ _ _ _ _ (deref_live _ _ _ Hs)). now rewrite Hh, Ha.
Qed.

(** C3. With AYSE in the entity list and Habitat not in it, the craft
    accessor returns neither name nor none: resolving Habitat's index
    raises [NoEntityError]. *)
Theorem craft_raises_without_habitat (w : World) (c : ref) (s : PhysicsState.t) :
  objs w !! c = Some s ->
  py_in AYSE (PhysicsState._entity_names s) = true ->
  py_in HABITAT (PhysicsState._entity_names s) = false ->
  PhysicsState_craft c w = (Raise NoEntityError, w).
Proof.
  intros Hs Ha Hh. unfold PhysicsState_craft.
  rewrite (bind_ok _ _ _ _ _ (deref_live _ _ _ Hs)). rewrite Hh, Ha.
  cbn [negb andb]. apply bind_raise.
  now apply (name_to_index_absent w c s).
Qed.

End Proofs.


(** ** Sequences of cell writes *)

Lemma apply_writes_app (arr : list float64) (ws ws' : list (nat * float64)) :
  apply_writes arr (ws ++ ws') = apply_writes (apply_writes arr ws) ws'.
Proof. unfold apply_writes. apply fold_left_app. Qed.

Lemma apply_writes_length (ws : list (nat * float64)) (arr : list float64) :
  length (apply_writes arr ws) = length arr.
Proof.
  revert arr. induction ws as [|[p x] ws IH]; intros arr; [reflexivity|].
  simpl. rewrite IH. apply length_insert.
Qed.

Lemma apply_writes_out (ws : list (nat * float64)) (arr : list float64) (q : nat) :
  ~ In q (List.map fst ws) -> apply_writes arr ws !! q = arr !! q.
Proof.
  revert arr. induction ws as [|[p x] ws IH]; intros arr Hq; [reflexivity|].
  simpl in *. rewrite IH by tauto.
  apply list_lookup_insert_ne. intros ->. tauto.
Qed.

Lemma consec_cons (p : nat) (x : float64) (xs : list float64) :
  consec p (x :: xs) = (p, x) :: consec (S p) xs.
Proof. reflexivity. Qed.

Lemma consec_app (p : nat) (xs ys : list float64) :
  consec p (xs ++ ys) = (consec p xs ++ consec (p + length xs) ys)%list.
Proof.
  revert p. induction xs as [|x xs IH]; intros p.
  - simpl. now rewrite Nat.add_0_r.
  - simpl app. rewrite !consec_cons, IH. simpl. do 3 f_equal. lia.
Qed.

Lemma consec_length (p : nat) (xs : list float64) : length (consec p xs) = length xs.
Proof. unfold consec. rewrite length_combine, length_seq. lia. Qed.

Lemma consec_positions (p : nat) (xs : list float64) (q : nat) :
  In q (List.map fst (consec p xs)) -> (p <= q < p + length xs)%nat.
Proof.
  revert p. induction xs as [|x xs IH]; intros p; simpl; [tauto|].
  intros [<-|H]; [lia|]. apply IH in H. lia.
Qed.

Lemma apply_writes_consec_out (p : nat) (xs arr : list float64) (q : nat) :
  (q < p \/ p + length xs <= q)%nat ->
  apply_writes arr (consec p xs) !! q = arr !! q.
Proof.
  intros H. apply apply_writes_out. intros Hin%consec_positions. lia.
Qed.

Lemma apply_writes_consec_in (xs : list float64) (p : nat) (arr : list float64) (j : nat) :
  (p + length xs <= length arr)%nat -> (j < length xs)%nat ->
  apply_writes arr (consec p xs) !! (p + j)%nat = xs !! j.
Proof.
  revert p arr j. induction xs as [|x xs IH]; intros p arr j Hlen Hj; simpl in *; [lia|].
  change (apply_writes (<[p:=x]> arr) (consec (S p) xs) !! (p + j)%nat = (x :: xs) !! j).
  destruct j as [|j].
  - rewrite Nat.add_0_r, apply_writes_consec_out by lia.
    apply list_lookup_insert_eq. lia.
  - replace (p + S j)%nat with (S p + j)%nat by lia.
    apply IH; [rewrite length_insert|]; lia.
Qed.

Lemma column_writes_out (N : nat) (cols : list (nat * list float64))
    (arr : list float64) (q : nat) :
  Forall (fun c => q < N * fst c \/ N * fst c + length (snd c) <= q)%nat cols ->
  apply_writes arr (column_writes N cols) !! q = arr !! q.
Proof.
  revert arr. induction cols as [|[fo xs] cols IH]; intros arr H; [reflexivity|].
  apply Forall_cons in H as [H1 H2].
  unfold column_writes. simpl. rewrite apply_writes_app.
  fold (column_writes N cols). rewrite IH by assumption.
  now apply apply_writes_consec_out.
Qed.

Lemma column_writes_in (N : nat) (cols : list (nat * list float64))
    (arr : list float64) (fo : nat) (xs : list float64) (i : nat) :
  Forall (fun c => length (snd c) = N /\ N * fst c + N <= length arr)%nat cols ->
  List.NoDup (List.map fst cols) ->
  In (fo, xs) cols -> (i < N)%nat ->
  apply_writes arr (column_writes N cols) !! (N * fo + i)%nat = xs !! i.
Proof.
  revert arr. induction cols as [|[fo0 xs0] cols IH]; intros arr Hall Hnd Hin Hi;
    [destruct Hin|].
  apply Forall_cons in Hall as [[Hl0 Hb0] Hall].
  simpl in Hnd. apply List.NoDup_cons_iff in Hnd as [Hnot Hnd]. simpl in Hl0, Hb0, Hnot.
  unfold column_writes. simpl. rewrite apply_writes_app. fold (column_writes N cols).
  destruct Hin as [[= -> ->]|Hin].
  - rewrite column_writes_out.
    + apply apply_writes_consec_in; lia.
    + apply List.Forall_forall. intros [fo' xs'] Hin'. simpl.
      pose proof (proj1 (List.Forall_forall _ _) Hall _ Hin') as [Hl' _].
      simpl in Hl'. rewrite Hl'.
      assert (fo' <> fo).
      { intros ->. apply Hnot. apply in_map_iff. now exists (fo, xs'). }
      nia.
  - apply IH; try assumption.
    eapply Forall_impl; [exact Hall|]. intros [fo' xs'] [? ?].
    now rewrite apply_writes_length.
Qed.


(** ** Loops over one container's buffer *)

Lemma bind_ext {A B} (c : M A) (k k' : A -> M B) (w : World) :
  (forall a w', k a w' = k' a w') -> bind c k w = bind c k' w.
Proof. intros H. unfold bind. destruct (c w) as [[a|e] w1]; [apply H | reflexivity]. Qed.

Lemma for_each_app {A} (l l' : list A) (body : A -> M unit) (w : World) :
  for_each (l ++ l') body w = bind (for_each l body) (fun _ => for_each l' body) w.
Proof.
  revert w. induction l as [|a l IH]; intros w; [reflexivity|].
  simpl. rewrite bind_assoc. apply bind_ext. intros _ w'. apply IH.
Qed.

Lemma fold_each_app {A S} (l l' : list A) (s : S) (body : S -> A -> M S) (w : World) :
  fold_each (l ++ l') s body w
  = bind (fold_each l s body) (fun s' => fold_each l' s' body) w.
Proof.
  revert s w. induction l as [|a l IH]; intros s w; [reflexivity|].
  simpl. rewrite bind_assoc. apply bind_ext. intros s' w'. apply IH.
Qed.

Lemma fold_each_ext {A S} (l : list A) (s : S) (body body' : S -> A -> M S) (w : World) :
  (forall s a w, body s a w = body' s a w) ->
  fold_each l s body w = fold_each l s body' w.
Proof.
  intros H. revert s w. induction l as [|a l IH]; intros s w; [reflexivity|].
  simpl.
  transitivity (bind (body' s a) (fun s' => fold_each l s' body) w);
    [unfold bind; now rewrite H | apply bind_ext; intros s' w'; apply IH].
Qed.

(** A loop over lists is the loop over their concatenation. *)
Lemma fold_each_concat {A S} (ls : list (list A)) (s : S) (body : S -> A -> M S)
    (w : World) :
  fold_each ls s (fun s l => fold_each l s body) w = fold_each (concat ls) s body w.
Proof.
  revert s w. induction ls as [|l ls IH]; intros s w; [reflexivity|].
  simpl. rewrite fold_each_app. apply bind_ext. intros s' w'. apply IH.
Qed.

Section Loops.

Variables (w0 : World) (c : ref).
Hypothesis Hc : (c < length (objs w0))%nat.
Variable s0 : PhysicsState.t.

Local Abbreviation at_ arr k := (put w0 c (PhysicsState.with_array s0 arr) k).

Lemma deref_at (arr : list float64) (k : nat) :
  deref c (at_ arr k) = (Ok (PhysicsState.with_array s0 arr), at_ arr k).
Proof. now apply deref_put. Qed.

Lemma array_rep_at (arr : list float64) (k : nat) :
  array_rep c (at_ arr k) = (Ok (mk_ndarray c 0 (length arr)), at_ arr k).
Proof. now apply (array_rep_put w0 c Hc (PhysicsState.with_array s0 arr) k). Qed.

Lemma write_cell (a : ndarray) (idx : Z) (i : nat) (v : scalar) (x : float64)
    (arr : list float64) (k : nat) :
  base a = c -> np_coerce v = Ok x -> py_index (size a) idx = Ok i ->
  (off a + i < length arr)%nat ->
  array_set a idx v (at_ arr k)
  = (Ok tt, at_ (apply_writes arr [((off a + i)%nat, x)]) (k + 1)).
Proof.
  intros Hb Hv Hi Hlt.
  now rewrite (array_set_put w0 c Hc a idx i v x (PhysicsState.with_array s0 arr) k Hb Hv Hi Hlt).
Qed.

Lemma read_cell (a : ndarray) (idx : Z) (i : nat) (x : float64)
    (arr : list float64) (k : nat) :
  base a = c -> py_index (size a) idx = Ok i ->
  arr !! (off a + i)%nat = Some x ->
  array_get a idx (at_ arr k) = (Ok x, at_ arr (k + 1)).
Proof.
  intros Hb Hi Hx.
  now rewrite (array_get_put w0 c Hc a idx i x (PhysicsState.with_array s0 arr) k Hb Hi Hx).
Qed.

(** A loop whose every round is a sequence of cell writes. *)
Lemma for_each_writes {A} (l : list A) (body : A -> M unit)
    (ws : A -> list (nat * float64)) (L : nat) :
  (forall a arr k, In a l -> length arr = L ->
     body a (at_ arr k)
     = (Ok tt, at_ (apply_writes arr (ws a)) (k + length (ws a)))) ->
  forall arr k, length arr = L ->
    for_each l body (at_ arr k)
    = (Ok tt, at_ (apply_writes arr (concat (List.map ws l)))
                (k + length (concat (List.map ws l)))).
Proof.
  induction l as [|a l IH]; intros Hbody arr k Harr.
  - simpl. unfold ret. now rewrite Nat.add_0_r.
  - simpl for_each. rewrite (bind_ok _ _ _ _ _ (Hbody a arr k (or_introl eq_refl) Harr)).
    rewrite IH.
    + simpl. rewrite apply_writes_app, length_app. do 2 f_equal. lia.
    + intros a' arr' k' Hin. apply Hbody. now right.
    + now rewrite apply_writes_length.
Qed.

(** The write-marker loop: the values go to consecutive cells. *)
Lemma fold_each_writes (a : ndarray) (vals : list scalar) (xs : list float64) :
  base a = c -> Forall2 (fun v x => np_coerce v = Ok x) vals xs ->
  forall (m : nat) (arr : list float64) (k : nat),
    (m + length vals <= size a)%nat -> (off a + size a <= length arr)%nat ->
    fold_each vals (Z.of_nat m)
      (fun write_marker value =>
         array_set a write_marker value ;; ret (write_marker + 1))
      (at_ arr k)
    = (Ok (Z.of_nat (m + length vals)),
       at_ (apply_writes arr (consec (off a + m) xs)) (k + length vals)).
Proof.
  intros Hb H. induction H as [|v x vals xs Hv H IH]; intros m arr k Hm Ha.
  - simpl. unfold ret. now rewrite !Nat.add_0_r.
  - simpl fold_each. simpl length in *. norm.
    rewrite (bind_ok _ _ _ _ _
               (write_cell a (Z.of_nat m) m v x arr k Hb Hv
                  ltac:(rewrite py_index_nonneg by lia; f_equal; lia) ltac:(lia))).
    norm. replace (Z.of_nat m + 1) with (Z.of_nat (S m)) by lia.
    rewrite IH by (rewrite ?apply_writes_length; simpl; rewrite ?length_insert; lia).
    rewrite consec_cons. simpl apply_writes.
    do 2 f_equal; [f_equal; lia | | lia].
    do 2 f_equal. f_equal. lia.
Qed.

End Loops.


(** ** The cold path of the constructor *)

Lemma In_enumerate_from {A} (l : list A) (j i : Z) (a : A) :
  In (i, a) (enumerate_from j l) ->
  exists t : nat, i = j + Z.of_nat t /\ l !! t = Some a.
Proof.
  revert j. induction l as [|b l IH]; intros j; simpl; [tauto|].
  intros [[= <- <-]|H].
  - exists 0%nat. split; [lia | reflexivity].
  - destruct (IH _ H) as (t & -> & Ht). exists (S t). split; [lia | exact Ht].
Qed.

Lemma In_zip_range {A} (l : list A) (i : Z) (a : A) :
  In (i, a) (zip (range (len l)) l) ->
  exists t : nat, i = Z.of_nat t /\ l !! t = Some a.
Proof.
  unfold range, len. rewrite Nat2Z.id.
  assert (H : forall j, In (i, a) (zip (List.map Z.of_nat (seq j (length l))) l) ->
                        exists t : nat, i = Z.of_nat (j + t) /\ l !! t = Some a).
  { induction l as [|b l IH]; intros j; simpl; [tauto|].
    intros [[= <- <-]|H].
    - exists 0%nat. split; [f_equal; lia | reflexivity].
    - destruct (IH _ H) as (t & -> & Ht). exists (S t). split; [f_equal; lia | exact Ht]. }
  intros Hin. destruct (H 0%nat Hin) as (t & -> & Ht). now exists t.
Qed.

Lemma lookup_concat_rows {A} (rs : list (list A)) (m k j : nat) (r : list A) :
  Forall (fun r => length r = m) rs -> rs !! k = Some r -> (j < m)%nat ->
  concat rs !! (k * m + j)%nat = r !! j.
Proof.
  intros Hall. revert k. induction Hall as [|r0 rs Hr0 Hall IH]; intros k Hk Hj;
    [discriminate|].
  destruct k as [|k]; simpl in *.
  - injection Hk as ->. apply lookup_app_l. lia.
  - rewrite lookup_app_r by lia. rewrite <- (IH k) by assumption. f_equal. lia.
Qed.

Lemma length_concat_rows {A} (rs : list (list A)) (m : nat) :
  Forall (fun r => length r = m) rs -> length (concat rs) = (length rs * m)%nat.
Proof.
  induction 1 as [|r rs Hr Hall IH]; [reflexivity|].
  simpl. rewrite length_app, IH, Hr. lia.
Qed.

Lemma rows_uniform {P} (fields : list (P -> scalar)) (l : list P) :
  Forall (fun r => length r = length fields) (rows fields l).
Proof.
  unfold rows. apply List.Forall_forall. intros r Hr.
  apply in_map_iff in Hr as (p & <- & _). apply length_map.
Qed.

Lemma rows_lookup {P} (fields : list (P -> scalar)) (l : list P) (k : nat) (p : P) :
  l !! k = Some p -> rows fields l !! k = Some (List.map (fun f => f p) fields).
Proof.
  unfold rows. revert k. induction l as [|q l IH]; intros [|k]; simpl; try discriminate.
  - now intros [= ->].
  - apply IH.
Qed.

(** *** The cells of one entity *)

Lemma stored_landed_on (tbl : list string) (e : protos.Entity.t) :
  protos.Entity.landed_on e = "" \/ In (protos.Entity.landed_on e) tbl ->
  Z.of_nat (length tbl) < 2 ^ 53 ->
  exists idx,
    - (2 ^ 53) < idx < 2 ^ 53
    /\ stored_cell tbl f_landed_on e = Ok (float_of_Z idx)
    /\ (if idx =? PhysicsState.NO_INDEX then Ok ""
        else py_getitem tbl idx) = Ok (protos.Entity.landed_on e).
Proof.
  intros Hlo Hlen. unfold stored_cell. cbn [field_eqb _LANDED_ON].
  destruct (String.eqb_spec (protos.Entity.landed_on e) "") as [E|Hne].
  - exists PhysicsState.NO_INDEX. unfold name_index. rewrite E. simpl String.eqb.
    cbv iota. repeat split; reflexivity.
  - destruct Hlo as [|Hin]; [contradiction|].
    destruct (name_index_present tbl _ Hne Hin) as (t & Ht & Hl).
    pose proof (lookup_lt_Some _ _ _ Hl) as Hlt.
    exists (Z.of_nat t). rewrite Ht. split; [lia|]. split.
    + apply np_coerce_int. lia.
    + destruct (Z.eqb_spec (Z.of_nat t) PhysicsState.NO_INDEX) as [E|_];
        [unfold PhysicsState.NO_INDEX in E; lia|].
      now apply py_getitem_nonneg.
Qed.

Lemma lookup_map {A B} (f : A -> B) (l : list A) (i : nat) :
  List.map f l !! i = f <$> l !! i.
Proof. exact (list_lookup_fmap f l i). Qed.

Lemma alter_as_insert {A} (f : A -> A) (l : list A) (i : nat) (x : A) :
  l !! i = Some x -> <[i := f x]> l = alter f i l.
Proof.
  revert i. induction l as [|a l IH]; intros [|i]; simpl; try discriminate.
  - now intros [= ->].
  - intros H. f_equal. now apply IH.
Qed.

(** *** Taking a range of cells modulo [m] *)

Lemma mod_cells_length (m : float64) (o : nat) (js : list nat) (arr : list float64) :
  length (mod_cells m o js arr) = length arr.
Proof.
  revert arr. induction js as [|j js IH]; intros arr; [reflexivity|].
  simpl. rewrite IH. apply length_alter.
Qed.

Lemma mod_cells_out (m : float64) (o : nat) (js : list nat) (arr : list float64) (q : nat) :
  (forall j, In j js -> q <> (o + j)%nat) ->
  mod_cells m o js arr !! q = arr !! q.
Proof.
  revert arr. induction js as [|j js IH]; intros arr H; [reflexivity|].
  simpl. rewrite IH by (intros j' Hj'; apply H; now right).
  apply list_lookup_alter_ne. intros E. apply (H j); [now left | auto].
Qed.

Lemma mod_cells_seq_in (m : float64) (o len j0 : nat) (arr : list float64) (j : nat) :
  (j0 <= j < j0 + len)%nat ->
  mod_cells m o (seq j0 len) arr !! (o + j)%nat
  = (fun x => np_mod x m) <$> arr !! (o + j)%nat.
Proof.
  revert j0 arr. induction len as [|len IH]; intros j0 arr Hj; [lia|].
  simpl. destruct (Nat.eq_dec j j0) as [->|Hne].
  - rewrite mod_cells_out by (intros j' Hj'%in_seq; lia).
    apply list_lookup_alter_eq.
  - rewrite IH by lia. f_equal. apply list_lookup_alter_ne. lia.
Qed.

Lemma bind_ret_r {A} (c : M A) (w : World) : bind c ret w = c w.
Proof. unfold bind, ret. destruct (c w) as [[a|e] w']; reflexivity. Qed.


Lemma L_eq (names : strings.t) (es : list protos.Entity.t) :
  Z.to_nat (expected_size names (len es))
  = (10 * length es + 2 + Z.to_nat (N_ENGINEERING_FIELDS names))%nat.
Proof.
  pose proof (N_ENGINEERING_FIELDS_nonneg names). rewrite expected_size_eq.
  unfold len. lia.
Qed.

Section Cold.

Variable names : strings.t.
Variables (w0 : World) (c : ref).
Hypothesis Hc : (c < length (objs w0))%nat.

(** The container under construction: its fields apart from the buffer. *)
Variable s0 : PhysicsState.t.
Variable es : list protos.Entity.t.
Hypothesis Hn : PhysicsState._n s0 = len es.
Hypothesis Htbl : PhysicsState._entity_names s0 = List.map protos.Entity.name es.
Hypothesis Hsmall : len es < 2 ^ 53.

Local Abbreviation at_ arr k := (put w0 c (PhysicsState.with_array s0 arr) k).
Local Abbreviation tbl := (List.map protos.Entity.name es).
Local Abbreviation N := (length es).
Local Abbreviation L := (Z.to_nat (expected_size names (len es))).

Lemma proto_value_run (f : field) (e : protos.Entity.t) (x : float64)
    (arr : list float64) (k : nat) :
  stored_cell tbl f e = Ok x ->
  exists v,
    (if field_eqb f _LANDED_ON
     then i <- _name_to_index c (Some (protos.Entity.landed_on e)) ;; ret (SInt i)
     else as_scalar (getattr e f)) (at_ arr k)
    = (Ok v, at_ arr k)
    /\ np_coerce v = Ok x.
Proof.
  unfold stored_cell. destruct (field_eqb f _LANDED_ON).
  - destruct (name_index tbl _) as [i|] eqn:E; [| discriminate].
    intros Hx. exists (SInt i). split; [| exact Hx].
    erewrite bind_ok; [reflexivity|].
    rewrite (name_to_index_run (at_ arr k) c (PhysicsState.with_array s0 arr))
      by (now apply put_lookup).
    cbn [PhysicsState._entity_names PhysicsState.with_array]. now rewrite Htbl, E.
  - destruct (getattr e f) as [v|]; [| discriminate].
    intros Hx. exists v. split; [reflexivity | exact Hx].
Qed.

Lemma cell_of_stored (f : field) (e : protos.Entity.t) (x : float64) :
  stored_cell tbl f e = Ok x -> cell tbl f e = x.
Proof. unfold cell. now intros ->. Qed.

Lemma concat_enumerate_consec (f : field) (fo : Z) (l : list protos.Entity.t) (j : Z) :
  0 <= fo -> 0 <= j ->
  concat (List.map (fun ie : Z * protos.Entity.t =>
                      [(Z.to_nat (len es * fo + fst ie), cell tbl f (snd ie))])
                   (enumerate_from j l))
  = consec (Z.to_nat (len es * fo + j)) (List.map (cell tbl f) l).
Proof.
  intros Hfo. revert j. induction l as [|e l IH]; intros j Hj; [reflexivity|].
  simpl List.map. simpl concat. rewrite consec_cons, IH by lia.
  cbn [fst snd app]. do 2 f_equal. unfold len. lia.
Qed.

(** One column of the entity block. *)
Lemma column_loop (f : field) (fo : Z) (arr : list float64) (k : nat) :
  0 <= fo <= 9 ->
  (forall e, In e es -> exists x, stored_cell tbl f e = Ok x) ->
  length arr = L ->
  for_each (enumerate es)
    (fun '(entity_index, entity) =>
       proto_value <-
         (if field_eqb f _LANDED_ON
          then i <- _name_to_index c (Some (protos.Entity.landed_on entity)) ;;
               ret (SInt i)
          else as_scalar (getattr entity f)) ;;
       array_set (mk_ndarray c 0 L) (len es * fo + entity_index) proto_value)
    (at_ arr k)
  = (Ok tt,
     at_ (apply_writes arr (consec (N * Z.to_nat fo) (List.map (cell tbl f) es)))
         (k + N)).
Proof.
  intros Hfo Hcells Harr.
  erewrite (for_each_writes w0 c Hc s0 (enumerate es) _
              (fun ie => [(Z.to_nat (len es * fo + fst ie), cell tbl f (snd ie))]) L);
    [| | exact Harr].
  - unfold enumerate. rewrite concat_enumerate_consec by lia.
    rewrite consec_length, length_map.
    unfold len. rewrite Z.add_0_r, Z2Nat.inj_mul, Nat2Z.id by lia. reflexivity.
  - intros [i e] arr' k' Hin Harr'.
    apply In_enumerate_from in Hin as (t & -> & Ht).
    pose proof (lookup_lt_Some _ _ _ Ht) as Hlt.
    destruct (Hcells e) as [x Hx];
      [apply list_elem_of_In; now apply list_elem_of_lookup_2 in Ht|].
    destruct (proto_value_run f e x arr' k' Hx) as (v & Hv & Hco).
    rewrite (bind_ok _ _ _ _ _ Hv).
    cbn [fst snd length]. rewrite (cell_of_stored f e x Hx).
    pose proof (L_eq names es) as HL.
    assert (Hmul : 0 <= len es * fo <= len es * 9)
      by (unfold len; split; [apply Z.mul_nonneg_nonneg | apply Z.mul_le_mono_nonneg_l]; lia).
    assert (Hpos : 0 <= len es * fo + (0 + Z.of_nat t) < Z.of_nat L)
      by (unfold len in *; lia).
    apply (write_cell w0 c Hc s0 (mk_ndarray c 0 L) _
             (Z.to_nat (len es * fo + (0 + Z.of_nat t))) v x arr' k' eq_refl Hco).
    + cbn [size]. now apply py_index_nonneg.
    + cbn [off]. rewrite Harr'. lia.
Qed.

(** The ten columns of the entity block. *)
Lemma fields_loop (arr : list float64) (k : nat) :
  Forall (fun e => protos.Entity.landed_on e = "" \/ In (protos.Entity.landed_on e) tbl) es ->
  length arr = L ->
  exists k',
    for_each _ENTITY_FIELD_ORDER
      (fun '(field_name, field_n) =>
         for_each (enumerate es)
           (fun '(entity_index, entity) =>
              proto_value <-
                (if field_eqb field_name _LANDED_ON
                 then i <- _name_to_index c (Some (protos.Entity.landed_on entity)) ;;
                      ret (SInt i)
                 else as_scalar (getattr entity field_name)) ;;
              array_set (mk_ndarray c 0 L) (len es * field_n + entity_index) proto_value))
      (at_ arr k)
    = (Ok tt,
       at_ (apply_writes arr
              (column_writes N
                 (List.map (fun p => (Z.to_nat (snd p), List.map (cell tbl (fst p)) es))
                           _ENTITY_FIELD_ORDER)))
           k').
Proof.
  intros Hres Harr. eexists.
  erewrite (for_each_writes w0 c Hc s0 _ENTITY_FIELD_ORDER _
              (fun p => consec (N * Z.to_nat (snd p)) (List.map (cell tbl (fst p)) es)) L);
    [| | exact Harr].
  - unfold column_writes. rewrite List.map_map. reflexivity.
  - intros [f fo] arr' k' Hin Harr'. cbn [fst snd].
    rewrite consec_length, length_map.
    assert (Hfo : 0 <= fo <= 9)
      by (simpl in Hin; repeat destruct Hin as [[= <- <-]|Hin]; try lia; destruct Hin).
    apply column_loop; [exact Hfo | | exact Harr'].
    intros e He.
    simpl in Hin; repeat destruct Hin as [[= <- <-]|Hin]; try destruct Hin;
      try (eexists; reflexivity).
    destruct (stored_landed_on tbl e) as (idx & _ & Hidx & _); [| | eauto].
    + now apply (proj1 (List.Forall_forall _ _) Hres).
    + rewrite length_map. exact Hsmall.
Qed.

(** [np.mod(column, m, out=column)]. *)
Lemma heading_loop (o sz : nat) (m : float64) (arr : list float64) (k : nat) :
  (o + sz <= length arr)%nat ->
  np_mod_inplace (mk_ndarray c o sz) m (at_ arr k)
  = (Ok tt, at_ (mod_cells m o (seq 0 sz) arr) (k + 2 * sz)).
Proof.
  intros Hle. unfold np_mod_inplace, range. cbn [size]. rewrite Nat2Z.id.
  assert (H : forall cnt j0 arr k,
             (j0 + cnt <= sz)%nat -> (o + sz <= length arr)%nat ->
             for_each (List.map Z.of_nat (seq j0 cnt))
               (fun i => x <- array_get (mk_ndarray c o sz) i ;;
                         array_set (mk_ndarray c o sz) i (SFloat (np_mod x m)))
               (at_ arr k)
             = (Ok tt, at_ (mod_cells m o (seq j0 cnt) arr) (k + 2 * cnt))).
  { clear arr k Hle. induction cnt as [|cnt IH]; intros j0 arr k Hj Hle.
    - simpl. unfold ret. now rewrite Nat.add_0_r.
    - simpl seq. simpl List.map. simpl for_each.
      destruct (lookup_lt_is_Some_2 arr (o + j0)%nat ltac:(lia)) as [x Hx].
      assert (Hidx : py_index sz (Z.of_nat j0) = Ok j0)
        by (rewrite py_index_nonneg by lia; now rewrite Nat2Z.id).
      norm.
      rewrite (bind_ok _ _ _ _ _
                 (read_cell w0 c Hc s0 (mk_ndarray c o sz) _ j0 x arr k eq_refl Hidx Hx)).
      rewrite (bind_ok _ _ _ _ _
                 (write_cell w0 c Hc s0 (mk_ndarray c o sz) _ j0 (SFloat (np_mod x m)) (np_mod x m) arr (k + 1)
                    eq_refl eq_refl Hidx ltac:(cbn [off]; lia))).
      cbn [off apply_writes fold_left fst snd].
      rewrite (alter_as_insert (fun x => np_mod x m) arr _ x Hx).
      rewrite IH by (rewrite ?length_alter; lia).
      simpl mod_cells. do 2 f_equal. lia. }
  apply H; [lia | exact Hle].
Qed.

(** The engineering block, written cell by cell behind the write marker. *)
Lemma engineering_populate (a : ndarray) (p : protos.EngineeringState.t)
    (arr : list float64) (k : nat) :
  base a = c ->
  len (protos.EngineeringState.components p) = _N_COMPONENTS names ->
  len (protos.EngineeringState.coolant_loops p) = _N_COOLANT_LOOPS names ->
  len (protos.EngineeringState.radiators p) = _N_RADIATORS names ->
  Forall (fun v => exists x, np_coerce v = Ok x) (engineering_scalars p) ->
  (length (engineering_scalars p) <= size a)%nat ->
  (off a + size a <= length arr)%nat ->
  EngineeringState__init__ names a p true (at_ arr k)
  = (Ok (EngineeringState.mk a),
     at_ (apply_writes arr (consec (off a) (List.map coerced (engineering_scalars p))))
         (k + length (engineering_scalars p))).
Proof.
  intros Hb HC HL HR Hco Hsz Hoff. unfold EngineeringState__init__.
  rewrite HC, HL, HR, !Z.eqb_refl. norm.
  match goal with
  | |- bind (fold_each ?groups 0 ?body) _ _ = _ =>
      assert (Hrun : fold_each groups 0 body (at_ arr k)
                     = (Ok (Z.of_nat (0 + length (engineering_scalars p))),
                        at_ (apply_writes arr
                               (consec (off a + 0)
                                  (List.map coerced (engineering_scalars p))))
                            (k + length (engineering_scalars p))))
  end.
  { erewrite fold_each_ext; [| intros; apply fold_each_concat].
    cbn [fold_each].
    transitivity
      (fold_each (engineering_scalars p) (Z.of_nat 0)
         (fun write_marker value =>
            array_set a write_marker value ;; ret (write_marker + 1))
         (at_ arr k)).
    - unfold engineering_scalars. rewrite fold_each_app.
      apply bind_ext. intros s' w'. rewrite fold_each_app.
      apply bind_ext. intros s'' w''. exact (bind_ret_r _ _).
    - apply (fold_each_writes w0 c Hc s0 a); try assumption; try lia.
      clear -Hco. induction Hco as [|v vs [x Hx] _ IH]; constructor; [| exact IH].
      unfold coerced. now rewrite Hx. }
  rewrite (bind_ok _ _ _ _ _ Hrun). norm.
  unfold ret. now rewrite Nat.add_0_r.
Qed.

End Cold.


Section ColdInit.

Variable names : strings.t.
Variables (w : World) (S : protos.PhysicalState.t).
Hypothesis Hres : landed_on_resolves S.
Hypothesis Hcard : declared_cardinalities names S.
Hypothesis Hint : int32_fields S.
Hypothesis Hsmall : len (protos.PhysicalState.entities S) < 2 ^ 53.

Local Abbreviation es := (protos.PhysicalState.entities S).
Local Abbreviation eng := (protos.PhysicalState.engineering S).
Local Abbreviation tbl := (List.map protos.Entity.name es).
Local Abbreviation N := (length es).
Local Abbreviation NE := (Z.to_nat (N_ENGINEERING_FIELDS names)).
Local Abbreviation L := (Z.to_nat (expected_size names (len es))).
Local Abbreviation c := (length (objs w)).
Local Abbreviation eng_view :=
  (array_slice (mk_ndarray c 0 L) (Some (ENGINEERING_START_INDEX names)) None).

Lemma engineering_scalars_length : length (engineering_scalars eng) = NE.
Proof.
  destruct Hcard as (HC & HL & HR).
  unfold engineering_scalars. rewrite !length_app.
  rewrite !(length_concat_rows _ _ (rows_uniform _ _)).
  unfold rows. rewrite !length_map. cbn [length Component_DESCRIPTOR_fields
    CoolantLoop_DESCRIPTOR_fields Radiator_DESCRIPTOR_fields].
  unfold N_ENGINEERING_FIELDS, _N_COMPONENT_FIELDS, _N_COOLANT_FIELDS,
    _N_RADIATOR_FIELDS. rewrite <- HC, <- HL, <- HR. unfold len. lia.
Qed.

Lemma engineering_scalars_coerce :
  Forall (fun v => exists x, np_coerce v = Ok x) (engineering_scalars eng).
Proof.
  destruct Hint as [HiC HiR].
  assert (Hi : forall z, protos.int32 z -> exists x, np_coerce (SInt z) = Ok x).
  { intros z [Hlo Hhi]. exists (float_of_Z z). apply np_coerce_int. lia. }
  unfold engineering_scalars. rewrite !Forall_app. repeat split.
  - apply List.Forall_forall. intros v Hv.
    apply in_concat in Hv as (r & Hr & Hv). unfold rows in Hr.
    apply in_map_iff in Hr as (p & <- & Hp).
    pose proof (proj1 (List.Forall_forall _ _) HiC p Hp).
    simpl in Hv. repeat destruct Hv as [<-|Hv]; try destruct Hv;
      try (eexists; reflexivity); auto.
  - apply List.Forall_forall. intros v Hv.
    apply in_concat in Hv as (r & Hr & Hv). unfold rows in Hr.
    apply in_map_iff in Hr as (p & <- & Hp).
    simpl in Hv. repeat destruct Hv as [<-|Hv]; try destruct Hv;
      eexists; reflexivity.
  - apply List.Forall_forall. intros v Hv.
    apply in_concat in Hv as (r & Hr & Hv). unfold rows in Hr.
    apply in_map_iff in Hr as (p & <- & Hp).
    pose proof (proj1 (List.Forall_forall _ _) HiR p Hp).
    simpl in Hv. repeat destruct Hv as [<-|Hv]; try destruct Hv;
      try (eexists; reflexivity); auto.
Qed.

Lemma L_split : L = (10 * N + 2 + NE)%nat.
Proof. apply L_eq. Qed.

(** The engineering array of the container under construction. *)
Lemma eng_view_facts :
  base eng_view = c
  /\ (NE <= size eng_view)%nat
  /\ (off eng_view + size eng_view <= L)%nat
  /\ (0 < NE -> off eng_view = 10 * N + 2 /\ size eng_view = NE)%nat.
Proof.
  pose proof L_split as HL. pose proof (N_ENGINEERING_FIELDS_nonneg names) as H0.
  unfold ENGINEERING_START_INDEX.
  destruct (Z.eq_dec (N_ENGINEERING_FIELDS names) 0) as [E|Hne].
  - rewrite E. change (- 0) with 0. rewrite array_slice_from by (cbn [size]; lia).
    cbn [base off size]. rewrite E in *. repeat split; lia.
  - rewrite array_slice_tail by (cbn [size]; lia).
    cbn [base off size]. repeat split; lia.
Qed.

(** The buffer the cold path assembles, as a sequence of writes over the
    fresh memory, followed by the normalisation of the heading column. *)
Lemma cold_init_run :
  exists (wa : World) (arr : list float64) (k : nat),
    (c < length (objs wa))%nat
    /\ PhysicsState__init__ names None S w
       = (Ok c,
          put wa c
            (PhysicsState.mk S (len es) tbl arr (EngineeringState.mk eng_view) None) k)
    /\ arr = cold_buffer names (junk w) S.
Proof.
  pose proof L_split as HL.
  pose proof (N_ENGINEERING_FIELDS_nonneg names) as HE0.
  pose proof eng_view_facts as (Hbase & Hsize & Hoff & Hpos).
  pose proof engineering_scalars_length as Hlen.
  destruct Hcard as (HC & HLp & HR).
  unfold PhysicsState__init__. norm.
  rewrite (bind_ok _ _ _ _ (List.map (junk w) (seq 0 L))) by reflexivity.
  cbv beta. norm.
  match goal with
  | |- context [alloc ?mk] => destruct (alloc_put mk w) as [Ha Hc]
  end.
  set (wa := mk_World _ _ _) in *.
  rewrite (bind_ok _ _ _ _ _ Ha). clear Ha. norm.
  set (s0 := PhysicsState.mk S (len es) tbl [] (EngineeringState.mk (mk_ndarray c 0 0)) None).
  set (arr0 := List.map (junk w) (seq 0 L)).
  assert (Harr0 : length arr0 = L) by (subst arr0; now rewrite length_map, length_seq).
  change (put wa c _ (ops w)) with (put wa c (PhysicsState.with_array s0 arr0) (ops w)).
  norm. rewrite (bind_ok _ _ _ _ _ (array_rep_at wa c Hc s0 arr0 _)).
  rewrite Harr0.
  destruct (fields_loop names wa c Hc s0 es eq_refl eq_refl Hsmall arr0 (ops w) Hres Harr0)
    as [k1 Hloop].
  norm. erewrite bind_ok; [| exact Hloop]. clear Hloop.
  set (arr1 := apply_writes arr0 _).
  assert (Harr1 : length arr1 = L) by (subst arr1; now rewrite apply_writes_length).
  norm. erewrite bind_ok;
    [| apply (write_cell wa c Hc s0 (mk_ndarray c 0 L) _ (10 * N)%nat
                (SFloat (protos.PhysicalState.srb_time S))
                (protos.PhysicalState.srb_time S) arr1 k1 eq_refl eq_refl);
       [cbn [size]; unfold SRB_TIME_INDEX, ENGINEERING_START_INDEX;
        rewrite py_index_neg by lia; f_equal; lia
       | cbn [off]; lia] ].
  cbn [off Nat.add].
  set (arr2 := apply_writes arr1 _).
  assert (Harr2 : length arr2 = L) by (subst arr2; now rewrite apply_writes_length).
  norm. erewrite bind_ok;
    [| apply (write_cell wa c Hc s0 (mk_ndarray c 0 L) _ (10 * N + 1)%nat
                (SFloat (protos.PhysicalState.time_acc S))
                (protos.PhysicalState.time_acc S) arr2 (k1 + 1) eq_refl eq_refl);
       [cbn [size]; unfold TIME_ACC_INDEX, SRB_TIME_INDEX, ENGINEERING_START_INDEX;
        rewrite py_index_neg by lia; f_equal; lia
       | cbn [off]; lia] ].
  cbn [off Nat.add].
  set (arr3 := apply_writes arr2 _).
  assert (Harr3 : length arr3 = L) by (subst arr3; now rewrite apply_writes_length).
  norm. erewrite bind_ok;
    [| apply (engineering_populate names wa c Hc s0 eng_view eng arr3 (k1 + 1 + 1)
                Hbase HC HLp HR engineering_scalars_coerce); lia ].
  assert (Hconsec : consec (off eng_view) (List.map coerced (engineering_scalars eng))
                    = consec (10 * N + 2) (List.map coerced (engineering_scalars eng))).
  { destruct (engineering_scalars eng) as [|v vs] eqn:E; [reflexivity|].
    simpl in Hlen. destruct Hpos as [-> _]; [lia | reflexivity]. }
  rewrite Hconsec. clear Hconsec.
  set (arr4 := apply_writes arr3 _).
  assert (Harr4 : length arr4 = L) by (subst arr4; now rewrite apply_writes_length).
  norm. erewrite bind_ok; [| apply (update_put wa c Hc) ].
  norm.
  set (s1 := PhysicsState.mk S (len es) tbl [] (EngineeringState.mk eng_view) None).
  change (put wa c _ ?k) with (put wa c (PhysicsState.with_array s1 arr4) k).
  norm. rewrite (bind_ok _ _ _ _ _ (array_rep_at wa c Hc s1 arr4 _)).
  cbn [size]. rewrite Harr4.
  replace (Z.of_nat L =? expected_size names (len es)) with true
    by (symmetry; apply Z.eqb_eq; pose proof (N_ENGINEERING_FIELDS_nonneg names);
        rewrite expected_size_eq in *; unfold len in *; lia).
  norm.
  norm. erewrite bind_ok;
    [| apply (y_component_put names wa c Hc (PhysicsState.with_array s1 arr4) _ f_heading);
       [split; [cbn; unfold len; lia
               | cbn [PhysicsState._array_rep PhysicsState.with_array PhysicsState._n s1];
                 unfold len at 1; rewrite Harr4;
                 pose proof (N_ENGINEERING_FIELDS_nonneg names);
                 rewrite expected_size_eq in *; unfold len in *; lia]
       | cbv; split; discriminate] ].
  change (field_order f_heading) with 4.
  cbn [PhysicsState._n PhysicsState.with_array s1].
  replace (Z.to_nat (4 * len es)) with (4 * N)%nat by (unfold len; lia).
  replace (Z.to_nat (len es)) with N by (unfold len; lia).
  norm. erewrite bind_ok; [| apply (heading_loop wa c Hc s1); lia ].
  norm. erewrite bind_ok; [| apply (update_put wa c Hc) ].
  norm. unfold ret.
  exists wa, (mod_cells two_pi (4 * N) (seq 0 N) arr4), (k1 + 1 + 1 + length (engineering_scalars eng) + 2 * N)%nat.
  split; [exact Hc|]. split; reflexivity.
Qed.

Lemma cold_buffer_length : length (cold_buffer names (junk w) S) = L.
Proof.
  unfold cold_buffer. cbv zeta.
  now rewrite mod_cells_length, !apply_writes_length, length_map, length_seq.
Qed.

(** The cell of field [f] (column [fo]) of row [i]. *)
Lemma cold_buffer_cell (f : field) (fo : Z) (i : nat) (e : protos.Entity.t) :
  In (f, fo) _ENTITY_FIELD_ORDER -> es !! i = Some e ->
  cold_buffer names (junk w) S !! (N * Z.to_nat fo + i)%nat
  = Some (if field_eqb f f_heading then np_mod (cell tbl f e) two_pi
          else cell tbl f e).
Proof.
  intros Hin He. pose proof (lookup_lt_Some _ _ _ He) as Hi.
  pose proof L_split as HL.
  assert (Hfo : (Z.to_nat fo <= 9)%nat /\ 0 <= fo
                /\ (field_eqb f f_heading = true <-> Z.to_nat fo = 4%nat)).
  { simpl in Hin. repeat destruct Hin as [[= <- <-]|Hin]; try destruct Hin;
      (split; [simpl; lia | split; [lia | split; [try discriminate | try discriminate]]]);
      reflexivity. }
  destruct Hfo as (Hfo & Hfo0 & Hhead).
  set (q := (N * Z.to_nat fo + i)%nat).
  assert (Hq : (q < 10 * N)%nat) by (subst q; nia).
  assert (Hbase :
    apply_writes
      (apply_writes
         (apply_writes
            (apply_writes (List.map (junk w) (seq 0 L))
               (column_writes N
                  (List.map (fun fo => (Z.to_nat (snd fo), List.map (cell tbl (fst fo)) es))
                            _ENTITY_FIELD_ORDER)))
            [((10 * N)%nat, protos.PhysicalState.srb_time S)])
         [((10 * N + 1)%nat, protos.PhysicalState.time_acc S)])
      (consec (10 * N + 2) (List.map coerced (engineering_scalars eng))) !! q
    = Some (cell tbl f e)).
  { rewrite apply_writes_consec_out by lia.
    rewrite !apply_writes_out by (simpl; lia).
    subst q.
    rewrite (column_writes_in N _ _ (Z.to_nat fo) (List.map (cell tbl f) es) i).
    - now rewrite lookup_map, He.
    - rewrite length_map, length_seq. cbn [List.map _ENTITY_FIELD_ORDER fst snd].
      repeat constructor; cbn [fst snd]; rewrite ?length_map; lia.
    - cbn [List.map _ENTITY_FIELD_ORDER fst snd].
      repeat (constructor; [simpl; lia|]). constructor.
    - apply in_map_iff. now exists (f, fo).
    - exact Hi. }
  unfold cold_buffer. cbv zeta. fold q.
  destruct (field_eqb f f_heading) eqn:Ef.
  - assert (E4 : Z.to_nat fo = 4%nat) by (now apply Hhead).
    replace q with (4 * N + i)%nat by (subst q; rewrite E4; lia).
    rewrite mod_cells_seq_in by lia.
    replace (4 * N + i)%nat with q by (subst q; rewrite E4; lia).
    now rewrite Hbase.
  - rewrite mod_cells_out; [exact Hbase|].
    intros j Hj%in_seq. subst q.
    assert (Z.to_nat fo <> 4%nat) by (intros E; apply Hhead in E; congruence).
    nia.
Qed.

(** The cells of the engineering block. *)
Lemma cold_buffer_engineering (j : nat) (v : scalar) :
  engineering_scalars eng !! j = Some v ->
  cold_buffer names (junk w) S !! (10 * N + 2 + j)%nat = Some (coerced v).
Proof.
  intros Hv. pose proof (lookup_lt_Some _ _ _ Hv) as Hj.
  pose proof L_split as HL. pose proof engineering_scalars_length as Hlen.
  unfold cold_buffer. cbv zeta.
  rewrite mod_cells_out by (intros j' Hj'%in_seq; lia).
  rewrite apply_writes_consec_in.
  - now rewrite lookup_map, Hv.
  - rewrite !apply_writes_length, !length_map, length_seq. lia.
  - now rewrite length_map.
Qed.

End ColdInit.


(** ** Loops that only read *)

Section Reads.

Variables (w0 : World) (c : ref) (s : PhysicsState.t).

Lemma map_each_reads {A B} (l : list A) (body : A -> M B) (g : A -> B) (cost : nat) :
  (forall a k, In a l -> body a (put w0 c s k) = (Ok (g a), put w0 c s (k + cost))) ->
  forall k,
    map_each l body (put w0 c s k)
    = (Ok (List.map g l), put w0 c s (k + cost * length l)).
Proof.
  induction l as [|a l IH]; intros Hbody k.
  - simpl. unfold ret. do 2 f_equal. lia.
  - simpl map_each. rewrite (bind_ok _ _ _ _ _ (Hbody a k (or_introl eq_refl))).
    rewrite (bind_ok _ _ _ _ _ (IH (fun a' k' Hin => Hbody a' k' (or_intror Hin)) _)).
    unfold ret. simpl. do 2 f_equal. lia.
Qed.

(** Views and messages zipped, each message read back as it is. *)
Lemma zip_getitem_reads {V P} (getitem : Z -> M V) (body : V -> P -> M P)
    (view : Z -> V) (l : list P) (cost : nat) :
  (forall (t : nat) (p : P) k, l !! t = Some p ->
     getitem (Z.of_nat t) (put w0 c s k) = (Ok (view (Z.of_nat t)), put w0 c s k)
     /\ body (view (Z.of_nat t)) p (put w0 c s k) = (Ok p, put w0 c s (k + cost))) ->
  (forall k, getitem (Z.of_nat (length l)) (put w0 c s k)
             = (Raise IndexError, put w0 c s k)) ->
  forall k,
    zip_getitem getitem 0 l body (put w0 c s k)
    = (Ok l, put w0 c s (k + cost * length l)).
Proof.
  intros Hbody Hend.
  assert (H : forall (l' : list P) (j : nat) k,
             (forall t p, l' !! t = Some p -> l !! (j + t)%nat = Some p) ->
             length l = (j + length l')%nat ->
             zip_getitem getitem (Z.of_nat j) l' body (put w0 c s k)
             = (Ok l', put w0 c s (k + cost * length l'))).
  { induction l' as [|p l' IH]; intros j k Hl' Hlen.
    - simpl in *. rewrite Nat.add_0_r in Hlen. rewrite <- Hlen.
      unfold bind, until_IndexError. rewrite Hend.
      unfold ret. do 2 f_equal. lia.
    - simpl zip_getitem.
      destruct (Hbody j p k) as [Hget Hb];
        [rewrite <- (Nat.add_0_r j); now apply Hl'|].
      unfold bind at 1, until_IndexError. rewrite Hget.
      rewrite (bind_ok _ _ _ _ _ Hb).
      replace (Z.of_nat j + 1) with (Z.of_nat (S j)) by lia.
      rewrite (bind_ok _ _ _ _ _ (IH (S j) _
                 ltac:(intros t p' Ht; replace (S j + t)%nat with (j + S t)%nat by lia;
                       now apply Hl')
                 ltac:(simpl in Hlen; lia))).
      unfold ret. simpl. do 2 f_equal. lia. }
  intros k. apply (H l 0%nat k); [now intros | reflexivity].
Qed.

End Reads.


(** ** Reading the cold buffer back *)

Section RoundTrip.

Variable names : strings.t.
Variables (w : World) (S : protos.PhysicalState.t).
Hypothesis Hres : landed_on_resolves S.
Hypothesis Hcard : declared_cardinalities names S.
Hypothesis Hint : int32_fields S.
Hypothesis Hsmall : len (protos.PhysicalState.entities S) < 2 ^ 53.

Variable wa : World.
Hypothesis Hc : (length (objs w) < length (objs wa))%nat.

Local Abbreviation es := (protos.PhysicalState.entities S).
Local Abbreviation eng := (protos.PhysicalState.engineering S).
Local Abbreviation tbl := (List.map protos.Entity.name es).
Local Abbreviation N := (length es).
Local Abbreviation L := (Z.to_nat (expected_size names (len es))).
Local Abbreviation c := (length (objs w)).
Local Abbreviation eng_view :=
  (array_slice (mk_ndarray c 0 L) (Some (ENGINEERING_START_INDEX names)) None).
Local Abbreviation sF :=
  (PhysicsState.mk S (len es) tbl (cold_buffer names (junk w) S)
     (EngineeringState.mk eng_view) None).
Local Abbreviation at_ k := (put wa c sF k).

Lemma sF_sized : sized names sF.
Proof.
  split; cbn [PhysicsState._n PhysicsState._array_rep]; [unfold len; lia|].
  unfold len at 1. rewrite (cold_buffer_length names w S).
  pose proof (N_ENGINEERING_FIELDS_nonneg names).
  rewrite expected_size_eq in *. unfold len. lia.
Qed.

Lemma cell_position (fo : Z) (i : nat) :
  0 <= fo ->
  Z.to_nat (len es * fo + Z.of_nat i) = (N * Z.to_nat fo + i)%nat.
Proof. intros Hfo. unfold len. nia. Qed.

Lemma float_read (f : field) (fo : Z) (i : nat) (e : protos.Entity.t) (k : nat) :
  In (f, fo) _ENTITY_FIELD_ORDER -> es !! i = Some e ->
  entity_view_float_fget fo (_EntityView.mk c (Z.of_nat i)) (at_ k)
  = (Ok (if field_eqb f f_heading then np_mod (cell tbl f e) two_pi
         else cell tbl f e),
     at_ (k + 1)).
Proof.
  intros Hin He. pose proof (lookup_lt_Some _ _ _ He) as Hi.
  assert (Hfo : 0 <= fo <= 9)
    by (simpl in Hin; repeat destruct Hin as [[= <- <-]|Hin]; try lia; destruct Hin).
  apply (float_fget_put names wa c Hc sF k fo (Z.of_nat i)); try exact sF_sized;
    cbn [PhysicsState._n PhysicsState._array_rep]; [lia | unfold len; lia |].
  rewrite cell_position by lia.
  now apply (cold_buffer_cell names w S).
Qed.

Lemma cell_broken (e : protos.Entity.t) :
  bool_of_float (cell tbl f_broken e) = protos.Entity.broken e.
Proof.
  unfold cell, stored_cell. cbn [field_eqb _LANDED_ON getattr np_coerce].
  now destruct (protos.Entity.broken e).
Qed.

Lemma broken_read (i : nat) (e : protos.Entity.t) (k : nat) :
  es !! i = Some e ->
  _EntityView_broken (_EntityView.mk c (Z.of_nat i)) (at_ k)
  = (Ok (protos.Entity.broken e), at_ (k + 1)).
Proof.
  intros He. unfold _EntityView_broken, entity_view_bool_fget.
  change (field_order f_broken) with 9.
  pose proof (float_read f_broken 9 i e k ltac:(simpl; tauto) He) as Hr.
  unfold entity_view_float_fget in Hr. cbn [field_eqb] in Hr.
  cbn [_EntityView._creator _EntityView._index] in *.
  rewrite (bind_ok _ _ _ _ _ (deref_put wa c Hc sF k)).
  rewrite (bind_ok _ _ _ _ _ (array_rep_put wa c Hc sF k)).
  rewrite (bind_ok _ _ _ _ _ (deref_put wa c Hc sF k)) in Hr.
  rewrite (bind_ok _ _ _ _ _ (array_rep_put wa c Hc sF k)) in Hr.
  rewrite (bind_ok _ _ _ _ _ Hr).
  unfold ret. now rewrite cell_broken.
Qed.

Lemma landed_on_read (i : nat) (e : protos.Entity.t) (k : nat) :
  es !! i = Some e ->
  _EntityView_landed_on (_EntityView.mk c (Z.of_nat i)) (at_ k)
  = (Ok (protos.Entity.landed_on e), at_ (k + 1)).
Proof.
  intros He. unfold _EntityView_landed_on, entity_view_landed_on_fget.
  change (field_order f_landed_on) with 8.
  pose proof (float_read f_landed_on 8 i e k ltac:(simpl; tauto) He) as Hr.
  unfold entity_view_float_fget in Hr. cbn [field_eqb] in Hr.
  destruct (stored_landed_on tbl e) as (idx & Hidx & Hst & Hback).
  { apply (proj1 (List.Forall_forall _ _) Hres).
    apply list_elem_of_In. now apply list_elem_of_lookup_2 in He. }
  { rewrite length_map. exact Hsmall. }
  rewrite (cell_of_stored es f_landed_on e _ Hst) in Hr.
  cbn [_EntityView._creator _EntityView._index] in *.
  rewrite (bind_ok _ _ _ _ _ (deref_put wa c Hc sF k)).
  rewrite (bind_ok _ _ _ _ _ (array_rep_put wa c Hc sF k)).
  rewrite (bind_ok _ _ _ _ _ (deref_put wa c Hc sF k)) in Hr.
  rewrite (bind_ok _ _ _ _ _ (array_rep_put wa c Hc sF k)) in Hr.
  rewrite (bind_ok _ _ _ _ _ Hr).
  rewrite (int_of_float_of_Z idx Hidx). norm.
  cbn [PhysicsState._entity_names].
  destruct (idx =? PhysicsState.NO_INDEX).
  - injection Hback as <-. reflexivity.
  - unfold lift. now rewrite Hback.
Qed.

(** One round of the entity loop of [as_proto]. *)
Lemma row_reads (i : nat) (e : protos.Entity.t) (k : nat) :
  es !! i = Some e ->
  (entity_data <- PhysicsState__getitem__ c (IInt (Z.of_nat i)) ;;
   x <- _EntityView_x entity_data ;;
   y <- _EntityView_y entity_data ;;
   vx <- _EntityView_vx entity_data ;;
   vy <- _EntityView_vy entity_data ;;
   heading <- _EntityView_heading entity_data ;;
   spin <- _EntityView_spin entity_data ;;
   fuel <- _EntityView_fuel entity_data ;;
   throttle <- _EntityView_throttle entity_data ;;
   landed_on <- _EntityView_landed_on entity_data ;;
   broken <- _EntityView_broken entity_data ;;
   ret (protos.Entity.mk (protos.Entity.name e) x y vx vy
          (protos.Entity.r e) (protos.Entity.mass e)
          heading spin fuel throttle landed_on broken
          (protos.Entity.artificial e)
          (protos.Entity.atmosphere_thickness e)
          (protos.Entity.atmosphere_scaling e))) (at_ k)
  = (Ok (normalize_heading e), at_ (k + 10)).
Proof.
  intros He. unfold PhysicsState__getitem__. norm.
  unfold _EntityView_x, _EntityView_y, _EntityView_vx, _EntityView_vy,
    _EntityView_heading, _EntityView_spin, _EntityView_fuel, _EntityView_throttle.
  rewrite (bind_ok _ _ _ _ _ (float_read f_x _ i e _ ltac:(simpl; tauto) He)).
  rewrite (bind_ok _ _ _ _ _ (float_read f_y _ i e _ ltac:(simpl; tauto) He)).
  rewrite (bind_ok _ _ _ _ _ (float_read f_vx _ i e _ ltac:(simpl; tauto) He)).
  rewrite (bind_ok _ _ _ _ _ (float_read f_vy _ i e _ ltac:(simpl; tauto) He)).
  rewrite (bind_ok _ _ _ _ _ (float_read f_heading _ i e _ ltac:(simpl; tauto) He)).
  rewrite (bind_ok _ _ _ _ _ (float_read f_spin _ i e _ ltac:(simpl; tauto) He)).
  rewrite (bind_ok _ _ _ _ _ (float_read f_fuel _ i e _ ltac:(simpl; tauto) He)).
  rewrite (bind_ok _ _ _ _ _ (float_read f_throttle _ i e _ ltac:(simpl; tauto) He)).
  rewrite (bind_ok _ _ _ _ _ (landed_on_read i e _ He)).
  rewrite (bind_ok _ _ _ _ _ (broken_read i e _ He)).
  unfold ret. f_equal. f_equal. lia.
Qed.

(** *** The engineering block *)

Local Abbreviation comps := (protos.EngineeringState.components eng).
Local Abbreviation loops := (protos.EngineeringState.coolant_loops eng).
Local Abbreviation rads := (protos.EngineeringState.radiators eng).

Lemma scalars_component (t : nat) (p : protos.Component.t) (j : nat) :
  comps !! t = Some p -> (j < 6)%nat ->
  engineering_scalars eng !! (t * 6 + j)%nat
  = List.map (fun f => f p) Component_DESCRIPTOR_fields !! j.
Proof.
  intros Hp Hj. pose proof (lookup_lt_Some _ _ _ Hp) as Ht.
  unfold engineering_scalars.
  rewrite lookup_app_l
    by (rewrite (length_concat_rows _ _ (rows_uniform _ _)); unfold rows;
        rewrite length_map; simpl; lia).
  apply (lookup_concat_rows _ 6 t j);
    [exact (rows_uniform Component_DESCRIPTOR_fields comps) | now apply rows_lookup | exact Hj].
Qed.

Lemma scalars_coolant_loop (t : nat) (p : protos.CoolantLoop.t) (j : nat) :
  loops !! t = Some p -> (j < 3)%nat ->
  engineering_scalars eng !! (length comps * 6 + (t * 3 + j))%nat
  = List.map (fun f => f p) CoolantLoop_DESCRIPTOR_fields !! j.
Proof.
  intros Hp Hj. pose proof (lookup_lt_Some _ _ _ Hp) as Ht.
  unfold engineering_scalars.
  assert (Hlc : length (concat (rows Component_DESCRIPTOR_fields comps))
                = (length comps * 6)%nat)
    by (rewrite (length_concat_rows _ _ (rows_uniform _ _)); unfold rows;
        now rewrite length_map).
  rewrite lookup_app_r by lia. rewrite Hlc.
  replace (length comps * 6 + (t * 3 + j) - length comps * 6)%nat
    with (t * 3 + j)%nat by lia.
  rewrite lookup_app_l
    by (rewrite (length_concat_rows _ _ (rows_uniform _ _)); unfold rows;
        rewrite length_map; simpl; lia).
  apply (lookup_concat_rows _ 3 t j);
    [exact (rows_uniform CoolantLoop_DESCRIPTOR_fields loops) | now apply rows_lookup | exact Hj].
Qed.

Lemma scalars_radiator (t : nat) (p : protos.Radiator.t) (j : nat) :
  rads !! t = Some p -> (j < 2)%nat ->
  engineering_scalars eng !! (length comps * 6 + length loops * 3 + (t * 2 + j))%nat
  = List.map (fun f => f p) Radiator_DESCRIPTOR_fields !! j.
Proof.
  intros Hp Hj. pose proof (lookup_lt_Some _ _ _ Hp) as Ht.
  unfold engineering_scalars.
  assert (Hlc : length (concat (rows Component_DESCRIPTOR_fields comps))
                = (length comps * 6)%nat)
    by (rewrite (length_concat_rows _ _ (rows_uniform _ _)); unfold rows;
        now rewrite length_map).
  assert (Hll : length (concat (rows CoolantLoop_DESCRIPTOR_fields loops))
                = (length loops * 3)%nat)
    by (rewrite (length_concat_rows _ _ (rows_uniform _ _)); unfold rows;
        now rewrite length_map).
  rewrite lookup_app_r by lia. rewrite Hlc.
  rewrite lookup_app_r by lia. rewrite Hll.
  replace (length comps * 6 + length loops * 3 + (t * 2 + j) - length comps * 6
           - length loops * 3)%nat with (t * 2 + j)%nat by lia.
  apply (lookup_concat_rows _ 2 t j);
    [exact (rows_uniform Radiator_DESCRIPTOR_fields rads) | now apply rows_lookup | exact Hj].
Qed.

(** A cell of the engineering block, read through a slice of it. *)
Lemma engineering_read (a : ndarray) (idx : Z) (i pos : nat) (v : scalar) (k : nat) :
  base a = c -> py_index (size a) idx = Ok i ->
  (off a + i = 10 * N + 2 + pos)%nat ->
  engineering_scalars eng !! pos = Some v ->
  array_get a idx (at_ k) = (Ok (coerced v), at_ (k + 1)).
Proof.
  intros Hb Hi Hpos Hv.
  apply (array_get_put wa c Hc a idx i (coerced v) sF k Hb Hi).
  cbn [PhysicsState._array_rep]. rewrite Hpos.
  now apply (cold_buffer_engineering names w S Hcard).
Qed.

Lemma eng_view_eq :
  (0 < Z.to_nat (N_ENGINEERING_FIELDS names))%nat ->
  eng_view = mk_ndarray c (10 * N + 2) (Z.to_nat (N_ENGINEERING_FIELDS names)).
Proof.
  intros Hpos. destruct (eng_view_facts names w S) as (Hb & _ & _ & H).
  destruct (H Hpos) as [Ho Hs]. destruct eng_view; simpl in *. congruence.
Qed.

Lemma NE_eq :
  Z.to_nat (N_ENGINEERING_FIELDS names)
  = (length comps * 6 + length loops * 3 + length rads * 2)%nat.
Proof.
  destruct Hcard as (HC & HL & HR).
  unfold N_ENGINEERING_FIELDS, _N_COMPONENT_FIELDS, _N_COOLANT_FIELDS,
    _N_RADIATOR_FIELDS. rewrite <- HC, <- HL, <- HR. unfold len. lia.
Qed.

Lemma components_array_eq :
  (0 < length comps)%nat ->
  components_array names sF = mk_ndarray c (10 * N + 2) (length comps * 6).
Proof.
  intros Hpos. pose proof NE_eq as HNE. destruct Hcard as (HC & HL & HR).
  unfold components_array. cbn [PhysicsState.engineering EngineeringState._array].
  rewrite eng_view_eq by lia.
  unfold _COMPONENT_START_INDEX, _COOLANT_START_INDEX, _N_COMPONENT_FIELDS.
  rewrite <- HC. rewrite array_slice_range by (cbn [size]; unfold len; lia).
  cbn [base off]. f_equal; unfold len; lia.
Qed.

Lemma coolant_loops_array_eq :
  (0 < length loops)%nat ->
  coolant_loops_array names sF
  = mk_ndarray c (10 * N + 2 + length comps * 6) (length loops * 3).
Proof.
  intros Hpos. pose proof NE_eq as HNE. destruct Hcard as (HC & HL & HR).
  unfold coolant_loops_array. cbn [PhysicsState.engineering EngineeringState._array].
  rewrite eng_view_eq by lia.
  unfold _RADIATOR_START_INDEX, _COOLANT_START_INDEX, _N_COMPONENT_FIELDS,
    _N_COOLANT_FIELDS.
  rewrite <- HC, <- HL. rewrite array_slice_range by (cbn [size]; unfold len; lia).
  cbn [base off]. f_equal; unfold len; lia.
Qed.

Lemma radiators_array_eq :
  (0 < length rads)%nat ->
  radiators_array names sF
  = mk_ndarray c (10 * N + 2 + length comps * 6 + length loops * 3) (length rads * 2).
Proof.
  intros Hpos. pose proof NE_eq as HNE. destruct Hcard as (HC & HL & HR).
  unfold radiators_array. cbn [PhysicsState.engineering EngineeringState._array].
  rewrite eng_view_eq by lia.
  unfold _RADIATOR_START_INDEX, _COOLANT_START_INDEX, _N_COMPONENT_FIELDS,
    _N_COOLANT_FIELDS.
  rewrite <- HC, <- HL. rewrite array_slice_from by (cbn [size]; unfold len; lia).
  cbn [base off size]. f_equal; unfold len; lia.
Qed.

Lemma components_loop (k : nat) :
  zip_getitem (fun k => ComponentList__getitem__ names c (IInt k)) 0 comps
    (fun component_data component =>
       connected <- ComponentView_connected component_data ;;
       temperature <- ComponentView_temperature component_data ;;
       resistance <- ComponentView_resistance component_data ;;
       voltage <- ComponentView_voltage component_data ;;
       current <- ComponentView_current component_data ;;
       ret (protos.Component.mk connected temperature resistance voltage
              current (protos.Component.attached_to_coolant_loop component)))
    (at_ k)
  = (Ok comps, at_ (k + 5 * length comps)).
Proof.
  pose proof Hcard as (HC & _ & _).
  apply (zip_getitem_reads wa c sF _ _
           (fun z => ComponentView.mk c (components_array names sF) z)).
  - intros t p k' Hp. pose proof (lookup_lt_Some _ _ _ Hp) as Ht. split.
    + rewrite (ComponentList_int names _ c sF) by (now apply put_lookup).
      destruct (Z.geb_spec (Z.of_nat t) (_N_COMPONENTS names)); [| reflexivity].
      rewrite <- HC in *. unfold len in *. lia.
    + unfold ComponentView_connected, ComponentView_temperature,
        ComponentView_resistance, ComponentView_voltage, ComponentView_current.
      cbn [ComponentView._array ComponentView._n]. unfold _N_COMPONENT_FIELDS.
      rewrite components_array_eq by lia. norm.
      assert (Hrd : forall (j : nat) k0, (j < 6)%nat ->
                forall v, List.map (fun f => f p) Component_DESCRIPTOR_fields !! j = Some v ->
                array_get (mk_ndarray c (10 * N + 2) (length comps * 6))
                  (Z.of_nat t * 6 + Z.of_nat j) (at_ k0)
                = (Ok (coerced v), at_ (k0 + 1))).
      { intros j k0 Hj v Hv.
        apply (engineering_read (mk_ndarray c _ _) _ (t * 6 + j) (t * 6 + j) v k0 eq_refl).
        - cbn [size]. rewrite py_index_nonneg by lia. f_equal. lia.
        - cbn [off]. lia.
        - now rewrite (scalars_component t p j Hp Hj). }
      rewrite (bind_ok _ _ _ _ _ (Hrd 0%nat _ ltac:(lia) _ eq_refl)). norm.
      rewrite (bind_ok _ _ _ _ _ (Hrd 1%nat _ ltac:(lia) _ eq_refl)).
      rewrite (bind_ok _ _ _ _ _ (Hrd 2%nat _ ltac:(lia) _ eq_refl)).
      rewrite (bind_ok _ _ _ _ _ (Hrd 3%nat _ ltac:(lia) _ eq_refl)).
      rewrite (bind_ok _ _ _ _ _ (Hrd 4%nat _ ltac:(lia) _ eq_refl)).
      unfold ret, coerced. cbn [np_coerce].
      destruct p as [connected ? ? ? ? ?]. cbn. f_equal; [| f_equal; lia].
      f_equal. now destruct connected.
  - intros k'. rewrite (ComponentList_int names _ c sF) by (now apply put_lookup).
    destruct (Z.geb_spec (Z.of_nat (length comps)) (_N_COMPONENTS names)); [reflexivity|].
    rewrite <- HC in *. unfold len in *. lia.
Qed.

Lemma coolant_loops_loop (k : nat) :
  zip_getitem (fun k => CoolantLoopList__getitem__ names c (IInt k)) 0 loops
    (fun coolant_data coolant =>
       coolant_temp <- CoolantView_coolant_temp coolant_data ;;
       primary_pump_on <- CoolantView_primary_pump_on coolant_data ;;
       secondary_pump_on <- CoolantView_secondary_pump_on coolant_data ;;
       ret (protos.CoolantLoop.mk coolant_temp primary_pump_on secondary_pump_on))
    (at_ k)
  = (Ok loops, at_ (k + 3 * length loops)).
Proof.
  pose proof Hcard as (_ & HL & _).
  apply (zip_getitem_reads wa c sF _ _
           (fun z => CoolantView.mk (coolant_loops_array names sF) z)).
  - intros t p k' Hp. pose proof (lookup_lt_Some _ _ _ Hp) as Ht. split.
    + rewrite (CoolantLoopList_int names _ c sF) by (now apply put_lookup).
      destruct (Z.geb_spec (Z.of_nat t) (_N_COOLANT_LOOPS names)); [| reflexivity].
      rewrite <- HL in *. unfold len in *. lia.
    + unfold CoolantView_coolant_temp, CoolantView_primary_pump_on,
        CoolantView_secondary_pump_on.
      cbn [CoolantView._array CoolantView._n]. unfold _N_COOLANT_FIELDS.
      rewrite coolant_loops_array_eq by lia. norm.
      assert (Hrd : forall (j : nat) k0, (j < 3)%nat ->
                forall v, List.map (fun f => f p) CoolantLoop_DESCRIPTOR_fields !! j = Some v ->
                array_get (mk_ndarray c (10 * N + 2 + length comps * 6) (length loops * 3))
                  (Z.of_nat t * 3 + Z.of_nat j) (at_ k0)
                = (Ok (coerced v), at_ (k0 + 1))).
      { intros j k0 Hj v Hv.
        apply (engineering_read (mk_ndarray c _ _) _ (t * 3 + j)
                 (length comps * 6 + (t * 3 + j)) v k0 eq_refl).
        - cbn [size]. rewrite py_index_nonneg by lia. f_equal. lia.
        - cbn [off]. lia.
        - now rewrite (scalars_coolant_loop t p j Hp Hj). }
      rewrite (bind_ok _ _ _ _ _ (Hrd 0%nat _ ltac:(lia) _ eq_refl)). norm.
      rewrite (bind_ok _ _ _ _ _ (Hrd 1%nat _ ltac:(lia) _ eq_refl)). norm.
      rewrite (bind_ok _ _ _ _ _ (Hrd 2%nat _ ltac:(lia) _ eq_refl)). norm.
      unfold ret, coerced. cbn [np_coerce].
      destruct p as [? p1 p2]. cbn. f_equal; [| f_equal; lia].
      f_equal. now destruct p1, p2.
  - intros k'. rewrite (CoolantLoopList_int names _ c sF) by (now apply put_lookup).
    destruct (Z.geb_spec (Z.of_nat (length loops)) (_N_COOLANT_LOOPS names)); [reflexivity|].
    rewrite <- HL in *. unfold len in *. lia.
Qed.

Lemma radiators_loop (k : nat) :
  zip_getitem (fun k => RadiatorList__getitem__ names c (IInt k)) 0 rads
    (fun radiator_data radiator =>
       attached_to_coolant_loop <- RadiatorView_attached_to_coolant_loop radiator_data ;;
       functioning <- RadiatorView_functioning radiator_data ;;
       attached_to_coolant_loop <- lift (protos.int32_field attached_to_coolant_loop) ;;
       ret (protos.Radiator.mk attached_to_coolant_loop functioning))
    (at_ k)
  = (Ok rads, at_ (k + 2 * length rads)).
Proof.
  pose proof Hcard as (_ & _ & HR). destruct Hint as [_ HiR].
  apply (zip_getitem_reads wa c sF _ _
           (fun z => RadiatorView.mk c (radiators_array names sF) z)).
  - intros t p k' Hp. pose proof (lookup_lt_Some _ _ _ Hp) as Ht. split.
    + rewrite (RadiatorList_int names _ c sF) by (now apply put_lookup).
      destruct (Z.geb_spec (Z.of_nat t) (_N_RADIATORS names)); [| reflexivity].
      rewrite <- HR in *. unfold len in *. lia.
    + unfold RadiatorView_attached_to_coolant_loop, RadiatorView_functioning.
      cbn [RadiatorView._array RadiatorView._n]. unfold _N_RADIATOR_FIELDS.
      rewrite radiators_array_eq by lia. norm.
      assert (Hrd : forall (j : nat) k0, (j < 2)%nat ->
                forall v, List.map (fun f => f p) Radiator_DESCRIPTOR_fields !! j = Some v ->
                array_get (mk_ndarray c (10 * N + 2 + length comps * 6 + length loops * 3)
                             (length rads * 2))
                  (Z.of_nat t * 2 + Z.of_nat j) (at_ k0)
                = (Ok (coerced v), at_ (k0 + 1))).
      { intros j k0 Hj v Hv.
        apply (engineering_read (mk_ndarray c _ _) _ (t * 2 + j)
                 (length comps * 6 + length loops * 3 + (t * 2 + j)) v k0 eq_refl).
        - cbn [size]. rewrite py_index_nonneg by lia. f_equal. lia.
        - cbn [off]. lia.
        - now rewrite (scalars_radiator t p j Hp Hj). }
      assert (Hi32 : protos.int32 (protos.Radiator.attached_to_coolant_loop p)).
      { apply (proj1 (List.Forall_forall _ _) HiR).
        apply list_elem_of_In. now apply list_elem_of_lookup_2 in Hp. }
      destruct Hi32 as [Hlo Hhi].
      rewrite (bind_ok _ _ _ _ _ (Hrd 0%nat _ ltac:(lia) _ eq_refl)).
      unfold coerced at 1. rewrite np_coerce_int by lia.
      rewrite int_of_float_of_Z by lia. norm.
      rewrite (bind_ok _ _ _ _ _ (Hrd 1%nat _ ltac:(lia) _ eq_refl)). norm.
      unfold protos.int32_field.
      destruct (Z.leb_spec (- (2 ^ 31)) (protos.Radiator.attached_to_coolant_loop p));
        [| lia].
      destruct (Z.ltb_spec (protos.Radiator.attached_to_coolant_loop p) (2 ^ 31));
        [| lia].
      cbn [andb]. norm.
      unfold ret, coerced. cbn [np_coerce].
      destruct p as [? p1]. cbn. f_equal; [| f_equal; lia].
      f_equal. now destruct p1.
  - intros k'. rewrite (RadiatorList_int names _ c sF) by (now apply put_lookup).
    destruct (Z.geb_spec (Z.of_nat (length rads)) (_N_RADIATORS names)); [reflexivity|].
    rewrite <- HR in *. unfold len in *. lia.
Qed.

(** [as_proto] on the container the cold path built. *)
Lemma as_proto_cold (k : nat) :
  exists k',
    PhysicsState_as_proto names c (at_ k) = (Ok (normalized S), at_ k').
Proof.
  unfold PhysicsState_as_proto.
  rewrite (bind_ok _ _ _ _ _ (deref_put wa c Hc sF k)).
  cbn [PhysicsState._proto_state PhysicsState._n].
  erewrite bind_ok;
    [| apply (map_each_reads wa c sF _ _ (fun ie => normalize_heading (snd ie)) 10);
       intros [i e] k0 Hin; apply In_zip_range in Hin as (t & -> & Ht);
       now apply row_reads ].
  unfold EngineeringState_as_proto. norm.
  rewrite (bind_ok _ _ _ _ _ (deref_put wa c Hc sF _)).
  cbn [PhysicsState._proto_state]. norm.
  erewrite bind_ok; [| apply components_loop ]. norm.
  erewrite bind_ok; [| apply coolant_loops_loop ]. norm.
  erewrite bind_ok; [| apply radiators_loop ].
  norm. unfold ret. eexists. f_equal.
  f_equal. unfold normalized.
  assert (Hmap : List.map (fun ie : Z * protos.Entity.t => normalize_heading (snd ie))
                   (zip (range (len es)) es)
                 = List.map normalize_heading es).
  { rewrite <- (List.map_map snd normalize_heading). f_equal.
    apply (snd_zip (range (len es)) es).
    unfold range, len. rewrite length_map, length_seq. lia. }
  rewrite Hmap, length_map, drop_all, app_nil_r.
  destruct S as [? ? ? ? ? ? ? ? e0]. destruct e0. reflexivity.
Qed.

End RoundTrip.


(** ** The round trip *)

Section RoundTripTheorem.

Variable names : strings.t.

(** The cold path leaves a constructed container behind. *)
Lemma cold_init_constructed (w : World) (S : protos.PhysicalState.t) :
  landed_on_resolves S ->
  declared_cardinalities names S ->
  int32_fields S ->
  len (protos.PhysicalState.entities S) < 2 ^ 53 ->
  exists c w',
    PhysicsState__init__ names None S w = (Ok c, w')
    /\ constructed names w' c = true.
Proof.
  intros Hres Hcard Hint Hsmall.
  destruct (cold_init_run names w S Hres Hcard Hint Hsmall)
    as (wa & arr & k & Hc & Hrun & ->).
  eexists _, _. split; [exact Hrun|].
  unfold constructed. rewrite put_lookup by exact Hc.
  cbn [PhysicsState._proto_state PhysicsState._n PhysicsState._entity_names
       PhysicsState._array_rep PhysicsState.engineering EngineeringState._array].
  unfold len at 3. rewrite !cold_buffer_length.
  destruct Hcard as (HC & HL & HR). rewrite HC, HL, HR, !Z.eqb_refl, !Nat.eqb_refl.
  rewrite bool_decide_eq_true_2 by reflexivity.
  pose proof (N_ENGINEERING_FIELDS_nonneg names).
  replace (Z.of_nat (Z.to_nat (expected_size names (len (protos.PhysicalState.entities S))))
           =? expected_size names (len (protos.PhysicalState.entities S)))
    with true; [reflexivity|].
  symmetry. apply Z.eqb_eq. rewrite expected_size_eq. unfold len. lia.
Qed.

(** C1 (amended). For every snapshot [S] in which each [landed_on] is empty
    or the name of an entity of [S], with the declared subsystem
    cardinalities, [int32] coolant-loop references and fewer than 2^53
    entities: building the container cold from [S] and reconstructing a
    snapshot with [as_proto] returns [S] with each heading [h] replaced by
    [np.mod(h, 2 * np.pi)] and every other field, the [landed_on] names
    included, as it was.  The heading that comes back lies in the closed
    interval from 0 to [2 * np.pi] when [h] is finite, and is NaN when
    [h] is NaN or infinite. *)
Theorem cold_round_trip (w : World) (S : protos.PhysicalState.t) :
  landed_on_resolves S ->
  declared_cardinalities names S ->
  int32_fields S ->
  len (protos.PhysicalState.entities S) < 2 ^ 53 ->
  (exists w',
      (c <- PhysicsState__init__ names None S ;; PhysicsState_as_proto names c) w
      = (Ok (normalized S), w'))
  /\ forall (i : nat) (e : protos.Entity.t),
      protos.PhysicalState.entities S !! i = Some e ->
      exists e' : protos.Entity.t,
        protos.PhysicalState.entities (normalized S) !! i = Some e'
        /\ protos.Entity.heading e' = np_mod (protos.Entity.heading e) two_pi
        /\ if is_finite (protos.Entity.heading e)
           then f64_leb f64_zero (protos.Entity.heading e') = true
                /\ f64_leb (protos.Entity.heading e') two_pi = true
           else protos.Entity.heading e' = f64_nan.
Proof.
  intros Hres Hcard Hint Hsmall. split.
  - destruct (cold_init_run names w S Hres Hcard Hint Hsmall)
      as (wa & arr & k & Hc & Hrun & ->).
    rewrite (bind_ok _ _ _ _ _ Hrun).
    destruct (as_proto_cold names w S Hres Hcard Hint Hsmall wa Hc k) as [k' Hk'].
    rewrite Hk'. eauto.
  - intros i e He. exists (normalize_heading e). split; [| split].
    + unfold normalized. cbn [protos.PhysicalState.with_entities
                              protos.PhysicalState.entities].
      now rewrite lookup_map, He.
    + reflexivity.
    + exact (np_mod_two_pi_range (protos.Entity.heading e)).
Qed.

End RoundTripTheorem.


(** ** The classes on the demo configuration *)

(** The craft scenario of the spec: entities Habitat and AYSE. *)
Example craft_docked :
  fst (PhysicsState_craft 0%nat docked_world) = Ok (Some AYSE).
Proof. reflexivity. Qed.

Example craft_undocked :
  fst (PhysicsState_craft 0%nat undocked_world) = Ok (Some HABITAT).
Proof. reflexivity. Qed.

Example craft_after_docking :
  fst ((v <- PhysicsState__getitem__ 0%nat (IStr HABITAT) ;;
        _EntityView_set_landed_on v (Some AYSE) ;;
        PhysicsState_craft 0%nat) undocked_world) = Ok (Some AYSE).
Proof. reflexivity. Qed.

(** A radiator attached to loop 2 reads the temperature of the loop at
    position 1. *)
Example radiator_on_second_loop :
  fst ((r <- RadiatorList__getitem__ demo_names 0%nat (IInt 0) ;;
        l <- RadiatorView_get_coolant_loop demo_names r ;;
        CoolantView_coolant_temp l) docked_world) = Ok (float_of_Z 31).
Proof. reflexivity. Qed.

(** *** Inputs on which the claims as stated fail *)

(** C1. A snapshot whose only entity has landed on "Mars": the constructor
    raises [NoEntityError], so there is no round trip.  And where the round
    trip succeeds the heading need not end in [0, 2 pi): a heading of
    -2^-200 comes back as [2 * np.pi] itself, a NaN heading as NaN. *)
Lemma round_trip_refuses_unknown_landed_on :
  fst (PhysicsState__init__ demo_names None landed_nowhere empty_world)
  = Raise NoEntityError
  /\ fst ((c <- PhysicsState__init__ demo_names None tiny_heading ;;
           p <- PhysicsState_as_proto demo_names c ;;
           ret (List.map protos.Entity.heading (protos.PhysicalState.entities p)))
            empty_world) = Ok [two_pi]
  /\ f64_ltb two_pi two_pi = false
  /\ fst ((c <- PhysicsState__init__ demo_names None nan_heading ;;
           p <- PhysicsState_as_proto demo_names c ;;
           ret (List.map protos.Entity.heading (protos.PhysicalState.entities p)))
            empty_world) = Ok [f64_nan].
Proof. repeat split; vm_compute; reflexivity. Qed.

(** C4. In a container of two entities and one component, the ints -1 and 2
    are out of bounds, yet the component lookup at -1 and the entity lookup
    at 2 each return a view. *)
Lemma out_of_range_lookups_return_views :
  _N_COMPONENTS demo_names = 1
  /\ fst (ComponentList__getitem__ demo_names 0%nat (IInt (-1)) docked_world)
     = Ok (ComponentView.mk 0%nat (components_array demo_names docked_container) (-1))
  /\ PhysicsState._n docked_container = 2
  /\ fst (PhysicsState__getitem__ 0%nat (IInt 2) docked_world)
     = Ok (_EntityView.mk 0%nat 2)
  /\ fst (PhysicsState__getitem__ 0%nat (IInt (-5)) docked_world)
     = Ok (_EntityView.mk 0%nat (-5)).
Proof. repeat split; vm_compute; reflexivity. Qed.


(** *** The theorems at concrete inputs *)

(** The round trip of the docked two-entity snapshot. *)
Lemma cold_round_trip_docked :
  (exists w',
      (c <- PhysicsState__init__ demo_names None docked ;;
       PhysicsState_as_proto demo_names c) empty_world
      = (Ok (normalized docked), w'))
  /\ forall (i : nat) (e : protos.Entity.t),
      protos.PhysicalState.entities docked !! i = Some e ->
      exists e' : protos.Entity.t,
        protos.PhysicalState.entities (normalized docked) !! i = Some e'
        /\ protos.Entity.heading e' = np_mod (protos.Entity.heading e) two_pi
        /\ if is_finite (protos.Entity.heading e)
           then f64_leb f64_zero (protos.Entity.heading e') = true
                /\ f64_leb (protos.Entity.heading e') two_pi = true
           else protos.Entity.heading e' = f64_nan.
Proof.
  apply (cold_round_trip demo_names empty_world docked).
  - repeat constructor; simpl; tauto.
  - repeat split; reflexivity.
  - split; repeat constructor; vm_compute; discriminate.
  - reflexivity.
Defined.

(** The int 7 stored in [x] through the view of row 1. *)
Lemma write_seven_through_view :
  exists w',
    (v <- PhysicsState__getitem__ 0%nat (IInt 1) ;; _EntityView_set_x v (SInt 7))
      docked_world = (Ok tt, w')
    /\ fst ((X <- PhysicsState_X 0%nat ;; array_get X 1) w') = Ok (float_of_Z 7)
    /\ fst ((v <- PhysicsState__getitem__ 0%nat (IInt 1) ;; _EntityView_x v) w')
       = Ok (float_of_Z 7).
Proof.
  apply (write_through_view_is_visible demo_names docked_world 0%nat docked_container
           1 (SInt 7) (float_of_Z 7)).
  - reflexivity.
  - reflexivity.
  - simpl. lia.
  - reflexivity.
Defined.

(** A container whose only entity is AYSE. *)
Lemma craft_of_ayse_alone :
  PhysicsState_craft 0%nat ayse_alone_world = (Raise NoEntityError, ayse_alone_world).
Proof.
  apply (craft_raises_without_habitat ayse_alone_world 0%nat ayse_alone_container);
    reflexivity.
Defined.

(** The four lookups at the int -1. *)
Lemma lookups_at_minus_one :
  ComponentList__getitem__ demo_names 0%nat (IInt (-1)) docked_world
    = (if -1 >=? _N_COMPONENTS demo_names then (Raise IndexError, docked_world)
       else (Ok (ComponentView.mk 0%nat (components_array demo_names docked_container) (-1)),
             docked_world))
  /\ CoolantLoopList__getitem__ demo_names 0%nat (IInt (-1)) docked_world
    = (if -1 >=? _N_COOLANT_LOOPS demo_names then (Raise IndexError, docked_world)
       else (Ok (CoolantView.mk (coolant_loops_array demo_names docked_container) (-1)),
             docked_world))
  /\ RadiatorList__getitem__ demo_names 0%nat (IInt (-1)) docked_world
    = (if -1 >=? _N_RADIATORS demo_names then (Raise IndexError, docked_world)
       else (Ok (RadiatorView.mk 0%nat (radiators_array demo_names docked_container) (-1)),
             docked_world))
  /\ PhysicsState__getitem__ 0%nat (IInt (-1)) docked_world
     = (Ok (_EntityView.mk 0%nat (-1)), docked_world).
Proof.
  apply (int_lookup_checks_upper_bound_only demo_names docked_world 0%nat
           docked_container (-1)).
  reflexivity.
Defined.




(** Row 0 of the undocked container lands on AYSE; Mars is not in the
    name table. *)
Lemma landed_on_ayse_then_mars :
  (exists w',
      _EntityView_set_landed_on (_EntityView.mk 0%nat 0) (Some AYSE) undocked_world
      = (Ok tt, w')
      /\ fst (_EntityView_landed_on (_EntityView.mk 0%nat 0) w') = Ok AYSE)
  /\ _EntityView_set_landed_on (_EntityView.mk 0%nat 0) (Some "Mars") undocked_world
     = (Raise NoEntityError, undocked_world).
Proof.
  assert (Hi : 0 <= 0 < PhysicsState._n undocked_container) by (simpl; lia).
  split.
  - destruct (landed_on_translates_names demo_names undocked_world 0%nat
                undocked_container 0 AYSE eq_refl eq_refl Hi eq_refl) as [H _].
    apply H. left. simpl. tauto.
  - reflexivity.
Defined.

(** A buffer of one cell where 36 are expected. *)
Lemma one_cell_buffer_is_rejected :
  exists w',
    PhysicsState__init__ demo_names (Some [f64_zero]) docked empty_world
    = (Raise IndexError, w')
    \/ PhysicsState__init__ demo_names (Some [f64_zero]) docked empty_world
       = (Raise AssertionError, w').
Proof.
  apply (wrong_length_buffer_is_rejected demo_names empty_world [f64_zero] docked).
  vm_compute. discriminate.
Defined.


(** * Further properties of the classes *)

(** ** Helpers *)

Lemma list_index_first (x : string) (l : list string) (i : nat) :
  list_index x l = Ok (Z.of_nat i) ->
  l !! i = Some x /\ forall j : nat, (j < i)%nat -> l !! j <> Some x.
Proof.
  revert i. induction l as [|y l IH]; intros i; simpl; [discriminate|].
  destruct (String.eqb_spec x y) as [->|Hne].
  - intros [= E]. assert (i = 0%nat) by lia. subst i.
    split; [reflexivity | intros j Hj; lia].
  - destruct (list_index x l) as [k|e] eqn:E; [| discriminate].
    intros [= Hk].
    assert (Hk0 : 0 <= k).
    { clear -E. revert k E. induction l as [|z l IH]; intros k; simpl; [discriminate|].
      destruct (String.eqb x z); [intros [= <-]; lia|].
      destruct (list_index x l) as [k'|]; [| discriminate].
      intros [= <-]. specialize (IH k' eq_refl). lia. }
    destruct i as [|i]; [lia|].
    assert (Hki : k = Z.of_nat i) by lia. subst k.
    destruct (IH i eq_refl) as [Hi Hfirst]. split; [exact Hi|].
    intros [|j] Hj; simpl.
    + intros [= ->]. contradiction.
    + apply Hfirst. lia.
Qed.

Lemma list_index_In (x : string) (l : list string) :
  In x l ->
  exists i : nat, list_index x l = Ok (Z.of_nat i) /\ l !! i = Some x
                  /\ forall j : nat, (j < i)%nat -> l !! j <> Some x.
Proof.
  intros H. destruct (list_index_present x l H) as (i & Hi & Hl).
  exists i. split; [exact Hi|]. now apply list_index_first.
Qed.

Lemma list_index_not_In (x : string) (l : list string) :
  ~ In x l -> list_index x l = Raise ValueError.
Proof.
  intros H. apply list_index_absent.
  destruct (py_in x l) eqn:E; [| reflexivity].
  apply py_in_In in E. contradiction.
Qed.

Lemma constructed_put (names : strings.t) (w : World) (c : ref)
    (s s' : PhysicsState.t) (k : nat) :
  constructed names w c = true -> objs w !! c = Some s ->
  PhysicsState._n s' = PhysicsState._n s ->
  PhysicsState._entity_names s' = PhysicsState._entity_names s ->
  length (PhysicsState._array_rep s') = length (PhysicsState._array_rep s) ->
  PhysicsState.engineering s' = PhysicsState.engineering s ->
  List.map protos.Entity.name
    (protos.PhysicalState.entities (PhysicsState._proto_state s'))
  = List.map protos.Entity.name
      (protos.PhysicalState.entities (PhysicsState._proto_state s)) ->
  protos.PhysicalState.engineering (PhysicsState._proto_state s')
  = protos.PhysicalState.engineering (PhysicsState._proto_state s) ->
  constructed names (put w c s' k) c = true.
Proof.
  intros Hcon Hs Hn Ht Hl He Hnm Hpe.
  assert (Hc : (c < length (objs w))%nat) by (now apply lookup_lt_Some in Hs).
  unfold constructed in *. rewrite (put_lookup w c Hc). rewrite Hs in Hcon.
  assert (Hlen : len (protos.PhysicalState.entities (PhysicsState._proto_state s'))
                 = len (protos.PhysicalState.entities (PhysicsState._proto_state s))).
  { unfold len. rewrite <- (length_map protos.Entity.name), Hnm. now rewrite length_map. }
  unfold len at 2. rewrite Hn, Ht, Hl, He, Hnm, Hpe, Hlen. exact Hcon.
Qed.

Lemma constructed_poke (names : strings.t) (w : World) (c : ref)
    (s : PhysicsState.t) (pos : nat) (x : float64) (k : nat) :
  constructed names w c = true -> objs w !! c = Some s ->
  constructed names (put w c (poke pos x s) k) c = true.
Proof.
  intros Hcon Hs. apply (constructed_put names w c s); try assumption; try reflexivity.
  unfold poke. cbn [PhysicsState._array_rep PhysicsState.with_array].
  apply length_insert.
Qed.

Lemma poke_lookup_ne (s : PhysicsState.t) (pos q : nat) (x : float64) :
  q <> pos ->
  PhysicsState._array_rep (poke pos x s) !! q = PhysicsState._array_rep s !! q.
Proof. intros H. apply list_lookup_insert_ne. congruence. Qed.

Lemma poke_length (s : PhysicsState.t) (pos : nat) (x : float64) :
  length (PhysicsState._array_rep (poke pos x s)) = length (PhysicsState._array_rep s).
Proof. apply length_insert. Qed.


(** ** Lookup by name *)

Section Lookup.

Variable names : strings.t.

Lemma int_below_count (l : list string) (i : nat) (x : string) :
  l !! i = Some x -> (Z.of_nat i >=? len l) = false.
Proof.
  intros H. apply lookup_lt_Some in H. unfold len.
  destruct (Z.geb_spec (Z.of_nat i) (Z.of_nat (length l))); [lia | reflexivity].
Qed.

(** X1. In the three engineering collections, lookup by a registered name
    succeeds without touching the store; the view it returns is the one
    lookup by its integer index returns, its index is the first position
    of the name in the registry, and its [name()] is the name looked up.
    Lookup by a name that is not registered raises [ValueError]. *)
Theorem subsystem_lookup_by_name (w : World) (c : ref) (s : PhysicsState.t)
    (name : string) :
  objs w !! c = Some s ->
  (In name (COMPONENT_NAMES names) ->
   exists v,
     ComponentList__getitem__ names c (IStr name) w = (Ok v, w)
     /\ ComponentList__getitem__ names c (IInt (ComponentView._n v)) w = (Ok v, w)
     /\ list_index name (COMPONENT_NAMES names) = Ok (ComponentView._n v)
     /\ ComponentView_name names v = Ok name)
  /\ (In name (COOLANT_LOOP_NAMES names) ->
      exists v,
        CoolantLoopList__getitem__ names c (IStr name) w = (Ok v, w)
        /\ CoolantLoopList__getitem__ names c (IInt (CoolantView._n v)) w = (Ok v, w)
        /\ list_index name (COOLANT_LOOP_NAMES names) = Ok (CoolantView._n v)
        /\ CoolantView_name names v = Ok name)
  /\ (In name (RADIATOR_NAMES names) ->
      exists v,
        RadiatorList__getitem__ names c (IStr name) w = (Ok v, w)
        /\ RadiatorList__getitem__ names c (IInt (RadiatorView._n v)) w = (Ok v, w)
        /\ list_index name (RADIATOR_NAMES names) = Ok (RadiatorView._n v)
        /\ RadiatorView_name names v = Ok name)
  /\ (~ In name (COMPONENT_NAMES names) ->
      ComponentList__getitem__ names c (IStr name) w = (Raise ValueError, w))
  /\ (~ In name (COOLANT_LOOP_NAMES names) ->
      CoolantLoopList__getitem__ names c (IStr name) w = (Raise ValueError, w))
  /\ (~ In name (RADIATOR_NAMES names) ->
      RadiatorList__getitem__ names c (IStr name) w = (Raise ValueError, w)).
Proof.
  intros Hs. pose proof (owner_array_live w c s Hs) as Ho.
  repeat split.
  - intros Hin. destruct (list_index_In _ _ Hin) as (i & Hi & Hl & _).
    eexists. unfold ComponentList__getitem__. rewrite Hi. norm.
    rewrite (bind_ok _ _ _ _ _ Ho). split; [reflexivity|].
    cbn [ComponentView._n]. unfold _N_COMPONENTS.
    rewrite (int_below_count _ _ _ Hl). norm. rewrite (bind_ok _ _ _ _ _ Ho).
    repeat split. unfold ComponentView_name. cbn [ComponentView._n].
    now apply py_getitem_nonneg.
  - intros Hin. destruct (list_index_In _ _ Hin) as (i & Hi & Hl & _).
    eexists. unfold CoolantLoopList__getitem__. rewrite Hi. norm.
    rewrite (bind_ok _ _ _ _ _ Ho). split; [reflexivity|].
    cbn [CoolantView._n]. unfold _N_COOLANT_LOOPS.
    rewrite (int_below_count _ _ _ Hl). norm. rewrite (bind_ok _ _ _ _ _ Ho).
    repeat split. unfold CoolantView_name. cbn [CoolantView._n].
    now apply py_getitem_nonneg.
  - intros Hin. destruct (list_index_In _ _ Hin) as (i & Hi & Hl & _).
    eexists. unfold RadiatorList__getitem__. rewrite Hi. norm.
    rewrite (bind_ok _ _ _ _ _ Ho). split; [reflexivity|].
    cbn [RadiatorView._n]. unfold _N_RADIATORS.
    rewrite (int_below_count _ _ _ Hl). norm. rewrite (bind_ok _ _ _ _ _ Ho).
    repeat split. unfold RadiatorView_name. cbn [RadiatorView._n].
    now apply py_getitem_nonneg.
  - intros Hn. unfold ComponentList__getitem__.
    now rewrite (list_index_not_In _ _ Hn).
  - intros Hn. unfold CoolantLoopList__getitem__.
    now rewrite (list_index_not_In _ _ Hn).
  - intros Hn. unfold RadiatorList__getitem__.
    now rewrite (list_index_not_In _ _ Hn).
Qed.

Lemma entity_name_at (w : World) (c : ref) (s : PhysicsState.t) (i : nat)
    (name : string) :
  constructed names w c = true -> objs w !! c = Some s ->
  PhysicsState._entity_names s !! i = Some name ->
  _EntityView_name (_EntityView.mk c (Z.of_nat i)) w = (Ok name, w).
Proof.
  intros Hcon Hs Hl.
  destruct (constructed_inv names w c Hcon) as (s' & Hs' & _ & Ht & _).
  assert (s' = s) by congruence. subst s'.
  rewrite Ht, lookup_map in Hl.
  destruct (protos.PhysicalState.entities (PhysicsState._proto_state s) !! i)
    as [e|] eqn:He; [| discriminate].
  injection Hl as <-.
  unfold _EntityView_name. cbn [_EntityView._creator _EntityView._index].
  rewrite (bind_ok _ _ _ _ _ (deref_live _ _ _ Hs)).
  now rewrite (py_getitem_nonneg _ _ _ He).
Qed.

(** X2. On a constructed container, [C[name]] for a name of the entity
    list returns, without touching the store, the view of the first row
    of that name, and that view's [name] is the name looked up.  A name
    that is not in the list raises [ValueError] (the error of
    [list.index], not [NoEntityError]), for reading and for assigning a
    plain entity alike. *)
Theorem entity_lookup_by_name (w : World) (c : ref) (s : PhysicsState.t)
    (name : string) :
  constructed names w c = true ->
  objs w !! c = Some s ->
  (In name (PhysicsState._entity_names s) ->
   exists i : nat,
     PhysicsState__getitem__ c (IStr name) w = (Ok (_EntityView.mk c (Z.of_nat i)), w)
     /\ PhysicsState._entity_names s !! i = Some name
     /\ (forall j : nat, (j < i)%nat -> PhysicsState._entity_names s !! j <> Some name)
     /\ _EntityView_name (_EntityView.mk c (Z.of_nat i)) w = (Ok name, w))
  /\ (~ In name (PhysicsState._entity_names s) ->
      PhysicsState__getitem__ c (IStr name) w = (Raise ValueError, w)
      /\ forall p : protos.Entity.t,
          PhysicsState__setitem__ c (IStr name) (EntityOf p) w = (Raise ValueError, w)).
Proof.
  intros Hcon Hs. split.
  - intros Hin. destruct (list_index_In _ _ Hin) as (i & Hi & Hl & Hfirst).
    exists i. repeat split; try assumption.
    + unfold PhysicsState__getitem__. norm.
      rewrite (bind_ok _ _ _ _ _ (deref_live _ _ _ Hs)). now rewrite Hi.
    + now apply (entity_name_at w c s).
  - intros Hn. split.
    + unfold PhysicsState__getitem__. norm.
      rewrite (bind_ok _ _ _ _ _ (deref_live _ _ _ Hs)).
      now rewrite (list_index_not_In _ _ Hn).
    + intros p. unfold PhysicsState__setitem__. norm.
      rewrite (bind_ok _ _ _ _ _ (deref_live _ _ _ Hs)).
      now rewrite (list_index_not_In _ _ Hn).
Qed.

End Lookup.


(** ** Writes through entity views *)

Section ViewWrites.

Variable names : strings.t.

Lemma float_fields_order (f : field) :
  In f float_fields -> 0 <= field_order f <= 9.
Proof.
  unfold float_fields. simpl.
  intros H; repeat destruct H as [<-|H]; try (cbv; split; discriminate).
  contradiction.
Qed.

Lemma float_fields_order_inj (f g : field) :
  In f float_fields -> In g float_fields ->
  field_order f = field_order g -> f = g.
Proof.
  unfold float_fields. simpl.
  intros Hf Hg; repeat destruct Hf as [<-|Hf]; try contradiction;
    repeat destruct Hg as [<-|Hg]; try contradiction;
    (reflexivity || (cbv; discriminate)).
Qed.

Lemma float_fset_live (w : World) (c : ref) (s : PhysicsState.t) (fo i : Z)
    (val : scalar) (x : float64) :
  objs w !! c = Some s -> sized names s -> 0 <= fo <= 9 ->
  0 <= i < PhysicsState._n s -> np_coerce val = Ok x ->
  entity_view_float_fset fo (_EntityView.mk c i) val w
  = (Ok tt, put w c (poke (Z.to_nat (PhysicsState._n s * fo + i)) x s) (ops w + 1)).
Proof.
  intros Hs Hsz Hfo Hi Hx.
  assert (Hc : (c < length (objs w))%nat) by (now apply lookup_lt_Some in Hs).
  rewrite <- (put_id w c s Hs) at 1.
  now apply (float_fset_put names w c Hc).
Qed.

Lemma float_fget_live (w : World) (c : ref) (s : PhysicsState.t) (fo i : Z)
    (x : float64) :
  objs w !! c = Some s -> sized names s -> 0 <= fo <= 9 ->
  0 <= i < PhysicsState._n s ->
  PhysicsState._array_rep s !! Z.to_nat (PhysicsState._n s * fo + i) = Some x ->
  entity_view_float_fget fo (_EntityView.mk c i) w = (Ok x, put w c s (ops w + 1)).
Proof.
  intros Hs Hsz Hfo Hi Hx.
  assert (Hc : (c < length (objs w))%nat) by (now apply lookup_lt_Some in Hs).
  rewrite <- (put_id w c s Hs) at 1.
  now apply (float_fget_put names w c Hc).
Qed.

Lemma entity_cell_inj (n fo go i j : Z) :
  0 <= fo -> 0 <= go -> 0 <= i < n -> 0 <= j < n ->
  Z.to_nat (n * fo + i) = Z.to_nat (n * go + j) -> fo = go /\ i = j.
Proof.
  intros Hfo Hgo Hi Hj E.
  assert (E' : n * fo + i = n * go + j) by nia.
  assert (fo = go).
  { destruct (Z.lt_trichotomy fo go) as [H|[H|H]]; [| assumption |].
    - assert (n * (fo + 1) <= n * go) by (apply Z.mul_le_mono_nonneg_l; lia). lia.
    - assert (n * (go + 1) <= n * fo) by (apply Z.mul_le_mono_nonneg_l; lia). lia. }
  subst. split; [reflexivity | lia].
Qed.

(** X3. On a constructed container, a value stored through the view of
    row [i] in one of the float fields is read back from that field of
    that row, and from no other: every other float field of every row
    reads what it read before.  The store changes in the one cell
    [_n * field_n + i] of the buffer, and the container stays
    constructed. *)
Theorem view_write_is_local (w : World) (c : ref) (s : PhysicsState.t)
    (f : field) (i : Z) (val : scalar) (x : float64) :
  constructed names w c = true ->
  objs w !! c = Some s ->
  In f float_fields ->
  0 <= i < PhysicsState._n s ->
  np_coerce val = Ok x ->
  exists w',
    entity_view_float_fset (field_order f) (_EntityView.mk c i) val w = (Ok tt, w')
    /\ objs w'
       = <[c := poke (Z.to_nat (PhysicsState._n s * field_order f + i)) x s]> (objs w)
    /\ constructed names w' c = true
    /\ fst (entity_view_float_fget (field_order f) (_EntityView.mk c i) w') = Ok x
    /\ forall (g : field) (j : Z),
        In g float_fields -> 0 <= j < PhysicsState._n s -> (g, j) <> (f, i) ->
        fst (entity_view_float_fget (field_order g) (_EntityView.mk c j) w')
        = fst (entity_view_float_fget (field_order g) (_EntityView.mk c j) w).
Proof.
  intros Hcon Hs Hf Hi Hx.
  pose proof (constructed_sized names w c s Hcon Hs) as Hsz.
  pose proof (float_fields_order f Hf) as Hfo.
  assert (Hc : (c < length (objs w))%nat) by (now apply lookup_lt_Some in Hs).
  set (pos := Z.to_nat (PhysicsState._n s * field_order f + i)).
  destruct (entity_cell names s _ i Hsz Hfo Hi) as [_ Hlt]. fold pos in Hlt.
  exists (put w c (poke pos x s) (ops w + 1)).
  split; [now apply float_fset_live|].
  split; [reflexivity|].
  split; [now apply constructed_poke|].
  split.
  - erewrite (float_fget_put names w c Hc); [reflexivity | now apply sized_poke | exact Hfo | exact Hi |].
    now apply poke_lookup.
  - intros g j Hg Hj Hne.
    pose proof (float_fields_order g Hg) as Hgo.
    destruct (entity_cell names s _ j Hsz Hgo Hj) as [_ Hlt'].
    destruct (lookup_lt_is_Some_2 _ _ Hlt') as [y Hy].
    erewrite (float_fget_put names w c Hc);
      [| now apply sized_poke | exact Hgo | exact Hj |].
    + erewrite float_fget_live; [reflexivity | eassumption | assumption | exact Hgo | exact Hj | exact Hy].
    + change (PhysicsState._n (poke pos x s)) with (PhysicsState._n s).
      rewrite poke_lookup_ne; [exact Hy|].
      intros E. unfold pos in E. apply entity_cell_inj in E as [E1 E2]; try lia.
      apply Hne. f_equal; [| congruence].
      symmetry. now apply float_fields_order_inj.
Qed.

(** X4. On a constructed container and a valid row, [pos = coord] with a
    [coord] of two or more numbers stores the first two in [x] and [y],
    and [pos] then reads them back, in that order.  With a [coord] of one
    number, [x] is stored and [IndexError] is raised before [y] is
    touched; with an empty [coord], [IndexError] is raised and the store
    is unchanged. *)
Theorem pos_assignment (w : World) (c : ref) (s : PhysicsState.t) (i : Z)
    (a b : scalar) (rest : list scalar) (xa xb : float64) :
  constructed names w c = true ->
  objs w !! c = Some s ->
  0 <= i < PhysicsState._n s ->
  np_coerce a = Ok xa ->
  np_coerce b = Ok xb ->
  (exists w',
      _EntityView_set_pos (_EntityView.mk c i) (a :: b :: rest) w = (Ok tt, w')
      /\ fst (Entity_pos (ViewOf (_EntityView.mk c i)) w') = Ok [xa; xb])
  /\ (exists w',
         _EntityView_set_pos (_EntityView.mk c i) [a] w = (Raise IndexError, w')
         /\ fst (_EntityView_x (_EntityView.mk c i) w') = Ok xa
         /\ fst (_EntityView_y (_EntityView.mk c i) w')
            = fst (_EntityView_y (_EntityView.mk c i) w))
  /\ _EntityView_set_pos (_EntityView.mk c i) [] w = (Raise IndexError, w).
Proof.
  intros Hcon Hs Hi Ha Hb.
  pose proof (constructed_sized names w c s Hcon Hs) as Hsz.
  assert (Hc : (c < length (objs w))%nat) by (now apply lookup_lt_Some in Hs).
  assert (Hn : 0 <= PhysicsState._n s) by (destruct Hsz; assumption).
  set (px := Z.to_nat (PhysicsState._n s * 0 + i)).
  set (py := Z.to_nat (PhysicsState._n s * 1 + i)).
  destruct (entity_cell names s 0 i Hsz ltac:(lia) Hi) as [_ Hltx]. fold px in Hltx.
  destruct (entity_cell names s 1 i Hsz ltac:(lia) Hi) as [_ Hlty]. fold py in Hlty.
  assert (Hpxy : px <> py) by (subst px py; nia).
  assert (Hsx : sized names (poke px xa s)) by (now apply sized_poke).
  assert (Hx : _EntityView_set_x (_EntityView.mk c i) a w
               = (Ok tt, put w c (poke px xa s) (ops w + 1))).
  { unfold _EntityView_set_x. change (field_order f_x) with 0.
    now apply float_fset_live. }
  split; [| split].
  - exists (put w c (poke py xb (poke px xa s)) (ops w + 1 + 1)). split.
    + unfold _EntityView_set_pos.
      assert (H0 : py_getitem (a :: b :: rest) 0 = Ok a)
        by exact (py_getitem_nonneg (a :: b :: rest) 0 a eq_refl).
      assert (H1 : py_getitem (a :: b :: rest) 1 = Ok b)
        by exact (py_getitem_nonneg (a :: b :: rest) 1 b eq_refl).
      rewrite H0, H1. norm.
      rewrite (bind_ok _ _ _ _ _ Hx). norm.
      unfold _EntityView_set_y. change (field_order f_y) with 1.
      now apply (float_fset_put names w c Hc (poke px xa s)).
    + unfold Entity_pos, Entity_x, Entity_y, Entity_float, _EntityView_x, _EntityView_y.
      change (field_order f_x) with 0. change (field_order f_y) with 1.
      erewrite bind_ok;
        [| apply (float_fget_put names w c Hc _ _ 0 i xa);
           [now apply sized_poke | lia | exact Hi |] ].
      * erewrite bind_ok;
          [| apply (float_fget_put names w c Hc _ _ 1 i xb);
             [now apply sized_poke | lia | exact Hi |] ]; [reflexivity|].
        apply poke_lookup. now rewrite poke_length.
      * change (PhysicsState._n (poke px xa s)) with (PhysicsState._n s). fold px.
        rewrite poke_lookup_ne by exact Hpxy.
        now apply poke_lookup.
  - exists (put w c (poke px xa s) (ops w + 1)). split; [| split].
    + unfold _EntityView_set_pos. change (py_getitem [a] 0) with (Ok a).
      change (py_getitem [a] 1) with (@Raise scalar IndexError). norm.
      now rewrite (bind_ok _ _ _ _ _ Hx).
    + unfold _EntityView_x. change (field_order f_x) with 0.
      erewrite (float_fget_put names w c Hc); [reflexivity | assumption | lia | exact Hi |].
      now apply poke_lookup.
    + destruct (lookup_lt_is_Some_2 _ _ Hlty) as [y Hy].
      unfold _EntityView_y. change (field_order f_y) with 1.
      erewrite (float_fget_put names w c Hc); [| assumption | lia | exact Hi |].
      * erewrite float_fget_live; [reflexivity | eassumption | assumption | lia | exact Hi | exact Hy].
      * change (PhysicsState._n (poke px xa s)) with (PhysicsState._n s). fold py.
        rewrite poke_lookup_ne by congruence. exact Hy.
  - reflexivity.
Qed.

End ViewWrites.


(** ** Accessors that only read *)

Lemma ro_ret {A} (a : A) : read_only (ret a).
Proof. intros w. now split. Qed.

Lemma ro_raise {A} (e : exn) : read_only (@raise A e).
Proof. intros w. now split. Qed.

Lemma ro_lift {A} (r : result A) : read_only (lift r).
Proof. intros w. now split. Qed.

Lemma ro_bind {A B} (c : M A) (k : A -> M B) :
  read_only c -> (forall a, read_only (k a)) -> read_only (bind c k).
Proof.
  intros Hc Hk w. unfold bind. specialize (Hc w).
  destruct (c w) as [[a|e] w1]; simpl in Hc.
  - destruct (Hk a w1) as [H1 H2]. destruct Hc as [<- <-]. now split.
  - exact Hc.
Qed.

Lemma ro_assert (b : bool) : read_only (assert b).
Proof. destruct b; [apply ro_ret | apply ro_raise]. Qed.

Lemma ro_deref (r : ref) : read_only (deref r).
Proof. intros w. unfold deref. destruct (objs w !! r); now split. Qed.

Lemma ro_tick (k : nat) : read_only (tick k).
Proof. intros w. now split. Qed.

Lemma ro_array_rep (r : ref) : read_only (array_rep r).
Proof. apply ro_bind; [apply ro_deref | intros; apply ro_ret]. Qed.

Lemma ro_array_get (a : ndarray) (k : Z) : read_only (array_get a k).
Proof.
  unfold array_get. apply ro_bind; [apply ro_lift | intros i].
  apply ro_bind; [apply ro_deref | intros s].
  apply ro_bind; [apply ro_tick | intros _].
  destruct (_ !! _); [apply ro_ret | apply ro_raise].
Qed.

Lemma ro_until_IndexError {A} (c : M A) : read_only c -> read_only (until_IndexError c).
Proof.
  intros H w. unfold until_IndexError. specialize (H w).
  destruct (c w) as [[a|[]] w1]; exact H.
Qed.

Lemma ro_map_each {A B} (l : list A) (body : A -> M B) :
  (forall a, read_only (body a)) -> read_only (map_each l body).
Proof.
  intros H. induction l as [|a l IH]; simpl; [apply ro_ret|].
  apply ro_bind; [apply H | intros b].
  apply ro_bind; [exact IH | intros; apply ro_ret].
Qed.

Lemma ro_fold_each {A S} (l : list A) (s : S) (body : S -> A -> M S) :
  (forall s a, read_only (body s a)) -> read_only (fold_each l s body).
Proof.
  intros H. revert s. induction l as [|a l IH]; intros s; simpl; [apply ro_ret|].
  apply ro_bind; [apply H | intros s']. apply IH.
Qed.

Lemma ro_zip_getitem {V P} (getitem : Z -> M V) (k : Z) (l : list P)
    (body : V -> P -> M P) :
  (forall k, read_only (getitem k)) -> (forall v p, read_only (body v p)) ->
  read_only (zip_getitem getitem k l body).
Proof.
  intros Hg Hb. revert k. induction l as [|p l IH]; intros k; simpl.
  - apply ro_bind; [apply ro_until_IndexError, Hg | intros; apply ro_ret].
  - apply ro_bind; [apply ro_until_IndexError, Hg | intros [v|]]; [| apply ro_ret].
    apply ro_bind; [apply Hb | intros p'].
    apply ro_bind; [apply IH | intros; apply ro_ret].
Qed.

Ltac ro :=
  repeat first
    [ apply ro_ret | apply ro_raise | apply ro_lift | apply ro_deref
    | apply ro_array_rep | apply ro_array_get | apply ro_assert | apply ro_tick
    | apply ro_bind; [| intros ?]
    | apply ro_map_each; intros ?
    | apply ro_fold_each; intros ? ?
    | apply ro_zip_getitem; [intros ? | intros ? ?]
    | match goal with
      | |- read_only (match ?x with _ => _ end) => destruct x
      | |- read_only (let '(_, _) := ?x in _) => destruct x
      | |- read_only (if ?b then _ else _) => destruct b
      end ].

Section ReadOnly.

Variable names : strings.t.

Lemma ro_y_component (c : ref) (f : field) : read_only (_y_component c f).
Proof. unfold _y_component. ro. Qed.

Lemma ro_float_fget (fo : Z) (v : _EntityView.t) :
  read_only (entity_view_float_fget fo v).
Proof. unfold entity_view_float_fget. ro. Qed.

Lemma ro_bool_fget (fo : Z) (v : _EntityView.t) :
  read_only (entity_view_bool_fget fo v).
Proof. unfold entity_view_bool_fget. ro. Qed.

Lemma ro_landed_on_fget (fo : Z) (v : _EntityView.t) :
  read_only (entity_view_landed_on_fget fo v).
Proof. unfold entity_view_landed_on_fget. ro. Qed.

Lemma ro_getitem (c : ref) (idx : index) : read_only (PhysicsState__getitem__ c idx).
Proof. unfold PhysicsState__getitem__. ro. Qed.

Lemma ro_owner_array (c : ref) : read_only (owner_array c).
Proof. unfold owner_array. ro. Qed.

Lemma ro_engineering_as_proto (c : ref) :
  read_only (EngineeringState_as_proto names c).
Proof.
  unfold EngineeringState_as_proto, ComponentList__getitem__,
    CoolantLoopList__getitem__, RadiatorList__getitem__,
    ComponentView_connected, ComponentView_temperature, ComponentView_resistance,
    ComponentView_voltage, ComponentView_current,
    CoolantView_coolant_temp, CoolantView_primary_pump_on,
    CoolantView_secondary_pump_on, RadiatorView_attached_to_coolant_loop,
    RadiatorView_functioning, owner_array.
  ro.
Qed.

(** X5. Converting to a snapshot, resolving the craft, listing the
    landings, iterating and reading any field through a view never
    change a container: whatever they return or raise, every container
    of the store is as it was. *)
Theorem readers_leave_the_store (c : ref) :
  read_only (PhysicsState_as_proto names c)
  /\ read_only (EngineeringState_as_proto names c)
  /\ read_only (PhysicsState_craft c)
  /\ read_only (PhysicsState_LandedOn c)
  /\ read_only (PhysicsState__iter__ c)
  /\ read_only (y0 c)
  /\ (forall v, read_only (Entity_pos (ViewOf v)))
  /\ (forall v, read_only (Entity_v (ViewOf v)))
  /\ (forall v, read_only (_EntityView_landed_on v))
  /\ (forall v, read_only (_EntityView_broken v))
  /\ (forall v, read_only (_EntityView_name v))
  /\ (forall r, read_only (RadiatorView_get_coolant_loop names r))
  /\ (forall v, read_only (ComponentView_get_coolant_loop names v)).
Proof.
  repeat match goal with |- _ /\ _ => split end.
  all: try (intros v).
  - unfold PhysicsState_as_proto.
    apply ro_bind; [apply ro_deref | intros s].
    apply ro_bind; [| intros es].
    + apply ro_map_each. intros [i e].
      apply ro_bind; [apply ro_getitem | intros ?].
      repeat (apply ro_bind; [first [apply ro_float_fget | apply ro_landed_on_fget
                                    | apply ro_bool_fget] | intros ?]).
      apply ro_ret.
    + apply ro_bind; [apply ro_engineering_as_proto | intros; apply ro_ret].
  - apply ro_engineering_as_proto.
  - unfold PhysicsState_craft, _name_to_index. ro; apply ro_y_component.
  - unfold PhysicsState_LandedOn. apply ro_bind; [apply ro_y_component | intros col]. ro.
  - unfold PhysicsState__iter__. ro.
  - unfold y0. ro.
  - unfold Entity_pos, Entity_x, Entity_y, Entity_float.
    repeat (apply ro_bind; [apply ro_float_fget | intros ?]). apply ro_ret.
  - unfold Entity_v, Entity_vx, Entity_vy, Entity_float.
    repeat (apply ro_bind; [apply ro_float_fget | intros ?]). apply ro_ret.
  - apply ro_landed_on_fget.
  - apply ro_bool_fget.
  - unfold _EntityView_name. ro.
  - unfold RadiatorView_get_coolant_loop, RadiatorView_attached_to_coolant_loop,
      CoolantLoopList__getitem__, owner_array. ro.
  - unfold ComponentView_get_coolant_loop, ComponentView_attached_to_coolant_loop,
      CoolantLoopList__getitem__, owner_array. ro.
Qed.

End ReadOnly.


(** ** Writes through engineering views *)

Section Engineering.

Variable names : strings.t.

(** The three slices of a constructed container, where they are not
    empty. *)
Lemma engineering_slices (w : World) (c : ref) (s : PhysicsState.t) :
  constructed names w c = true -> objs w !! c = Some s ->
  (1 <= _N_COMPONENTS names ->
   components_array names s
   = mk_ndarray c (Z.to_nat (PhysicsState._n s * 10 + 2))
       (Z.to_nat (_N_COMPONENTS names * 6)))
  /\ (1 <= _N_COOLANT_LOOPS names ->
      coolant_loops_array names s
      = mk_ndarray c
          (Z.to_nat (PhysicsState._n s * 10 + 2 + _N_COMPONENTS names * 6))
          (Z.to_nat (_N_COOLANT_LOOPS names * 3)))
  /\ (1 <= _N_RADIATORS names ->
      radiators_array names s
      = mk_ndarray c
          (Z.to_nat (PhysicsState._n s * 10 + 2 + _N_COMPONENTS names * 6
                     + _N_COOLANT_LOOPS names * 3))
          (Z.to_nat (_N_RADIATORS names * 2))).
Proof.
  intros Hcon Hs.
  destruct (constructed_inv names w c Hcon) as (s' & Hs' & Hn & _ & Hlen & He & _).
  assert (s' = s) by congruence. subst s'.
  assert (Hn0 : 0 <= PhysicsState._n s) by (rewrite Hn; unfold len; lia).
  assert (HC : 0 <= _N_COMPONENTS names) by (unfold _N_COMPONENTS, len; lia).
  assert (HL : 0 <= _N_COOLANT_LOOPS names) by (unfold _N_COOLANT_LOOPS, len; lia).
  assert (HR : 0 <= _N_RADIATORS names) by (unfold _N_RADIATORS, len; lia).
  assert (HE : N_ENGINEERING_FIELDS names
               = _N_COMPONENTS names * 6 + _N_COOLANT_LOOPS names * 3
                 + _N_RADIATORS names * 2) by reflexivity.
  unfold components_array, coolant_loops_array, radiators_array. rewrite He.
  repeat split; intros H1;
    rewrite (engineering_array_tail names c _ (PhysicsState._n s)) by (assumption || lia).
  - unfold _COMPONENT_START_INDEX, _COOLANT_START_INDEX.
    change _N_COMPONENT_FIELDS with 6.
    rewrite array_slice_range by (cbn [size]; lia).
    cbn [base off]. f_equal; lia.
  - unfold _RADIATOR_START_INDEX, _COOLANT_START_INDEX.
    change _N_COMPONENT_FIELDS with 6. change _N_COOLANT_FIELDS with 3.
    rewrite array_slice_range by (cbn [size]; lia).
    cbn [base off]. f_equal; lia.
  - unfold _RADIATOR_START_INDEX, _COOLANT_START_INDEX.
    change _N_COMPONENT_FIELDS with 6. change _N_COOLANT_FIELDS with 3.
    rewrite array_slice_from by (cbn [size]; lia).
    cbn [base off size]. f_equal; lia.
Qed.

Lemma array_set_live (w : World) (c : ref) (s : PhysicsState.t) (a : ndarray)
    (idx : Z) (i : nat) (val : scalar) (x : float64) :
  objs w !! c = Some s -> base a = c -> np_coerce val = Ok x ->
  py_index (size a) idx = Ok i ->
  (off a + i < length (PhysicsState._array_rep s))%nat ->
  array_set a idx val w = (Ok tt, put w c (poke (off a + i) x s) (ops w + 1)).
Proof.
  intros Hs Hb Hx Hi Hlt.
  assert (Hc : (c < length (objs w))%nat) by (now apply lookup_lt_Some in Hs).
  rewrite <- (put_id w c s Hs) at 1.
  exact (array_set_put w c Hc a idx i val x s (ops w) Hb Hx Hi Hlt).
Qed.

Lemma array_get_live (w : World) (c : ref) (s : PhysicsState.t) (a : ndarray)
    (idx : Z) (i : nat) (x : float64) :
  objs w !! c = Some s -> base a = c ->
  py_index (size a) idx = Ok i ->
  PhysicsState._array_rep s !! (off a + i)%nat = Some x ->
  array_get a idx w = (Ok x, put w c s (ops w + 1)).
Proof.
  intros Hs Hb Hi Hx.
  assert (Hc : (c < length (objs w))%nat) by (now apply lookup_lt_Some in Hs).
  rewrite <- (put_id w c s Hs) at 1.
  exact (array_get_put w c Hc a idx i x s (ops w) Hb Hi Hx).
Qed.

Lemma buffer_length (w : World) (c : ref) (s : PhysicsState.t) :
  constructed names w c = true -> objs w !! c = Some s ->
  0 <= PhysicsState._n s
  /\ Z.of_nat (length (PhysicsState._array_rep s))
     = PhysicsState._n s * 10 + 2 + _N_COMPONENTS names * 6
       + _N_COOLANT_LOOPS names * 3 + _N_RADIATORS names * 2
  /\ 0 <= _N_COMPONENTS names /\ 0 <= _N_COOLANT_LOOPS names
  /\ 0 <= _N_RADIATORS names.
Proof.
  intros Hcon Hs. destruct (constructed_sized names w c s Hcon Hs) as [Hn Hlen].
  split; [exact Hn|]. split; [| unfold _N_COMPONENTS, _N_COOLANT_LOOPS, _N_RADIATORS, len; lia].
  rewrite expected_size_eq in Hlen. unfold len in Hlen. rewrite Hlen.
  unfold N_ENGINEERING_FIELDS. change _N_COMPONENT_FIELDS with 6.
  change _N_COOLANT_FIELDS with 3. change _N_RADIATOR_FIELDS with 2. lia.
Qed.

(** X6. On a constructed container, a temperature stored through
    [components[k]], for a valid [k], is read back through [components[k]]
    and changes nothing else: one cell of the buffer is written, the
    temperature of every other component and every float field of every
    entity read as before, and the container stays constructed. *)
Theorem component_write_is_local (w : World) (c : ref) (s : PhysicsState.t)
    (k : Z) (val : scalar) (x : float64) :
  constructed names w c = true ->
  objs w !! c = Some s ->
  0 <= k < _N_COMPONENTS names ->
  np_coerce val = Ok x ->
  exists w',
    (v <- ComponentList__getitem__ names c (IInt k) ;;
     ComponentView_set_temperature v val) w = (Ok tt, w')
    /\ objs w'
       = <[c := poke (Z.to_nat (PhysicsState._n s * 10 + 2 + k * 6 + 1)) x s]> (objs w)
    /\ constructed names w' c = true
    /\ fst ((v <- ComponentList__getitem__ names c (IInt k) ;;
             ComponentView_temperature v) w') = Ok x
    /\ (forall k' : Z, 0 <= k' < _N_COMPONENTS names -> k' <> k ->
        fst ((v <- ComponentList__getitem__ names c (IInt k') ;;
              ComponentView_temperature v) w')
        = fst ((v <- ComponentList__getitem__ names c (IInt k') ;;
                ComponentView_temperature v) w))
    /\ (forall (g : field) (j : Z),
        In g float_fields -> 0 <= j < PhysicsState._n s ->
        fst (entity_view_float_fget (field_order g) (_EntityView.mk c j) w')
        = fst (entity_view_float_fget (field_order g) (_EntityView.mk c j) w)).
Proof.
  intros Hcon Hs Hk Hx.
  destruct (buffer_length w c s Hcon Hs) as (Hn & HL & HC & HLp & HR).
  destruct (engineering_slices w c s Hcon Hs) as (Harr & _). specialize (Harr ltac:(lia)).
  pose proof (constructed_sized names w c s Hcon Hs) as Hsz.
  assert (Hc : (c < length (objs w))%nat) by (now apply lookup_lt_Some in Hs).
  set (pos := Z.to_nat (PhysicsState._n s * 10 + 2 + k * 6 + 1)).
  set (s' := poke pos x s).
  set (w' := put w c s' (ops w + 1)).
  assert (Hs' : objs w' !! c = Some s') by (now apply put_lookup).
  assert (Hcon' : constructed names w' c = true) by (now apply constructed_poke).
  assert (Hview : forall k', 0 <= k' < _N_COMPONENTS names ->
            forall w0 s0, objs w0 !! c = Some s0 ->
            PhysicsState.engineering s0 = PhysicsState.engineering s ->
            ComponentList__getitem__ names c (IInt k') w0
            = (Ok (ComponentView.mk c (components_array names s) k'), w0)).
  { intros k' Hk' w0 s0 Hs0 He. rewrite (ComponentList_int names w0 c s0 k' Hs0).
    destruct (Z.geb_spec k' (_N_COMPONENTS names)); [lia|].
    unfold components_array. now rewrite He. }
  assert (Hidx : forall k', 0 <= k' < _N_COMPONENTS names ->
            py_index (size (components_array names s)) (k' * _N_COMPONENT_FIELDS + 1)
            = Ok (Z.to_nat (k' * 6 + 1))).
  { intros k' Hk'. rewrite Harr. cbn [size]. change _N_COMPONENT_FIELDS with 6.
    apply py_index_nonneg. lia. }
  assert (Hoff : forall k', 0 <= k' ->
            (off (components_array names s) + Z.to_nat (k' * 6 + 1))%nat
            = Z.to_nat (PhysicsState._n s * 10 + 2 + k' * 6 + 1)).
  { intros k' Hk'. rewrite Harr. cbn [off]. lia. }
  assert (Hbase : base (components_array names s) = c) by (now rewrite Harr).
  assert (Hlt : (pos < length (PhysicsState._array_rep s))%nat) by (subst pos; lia).
  exists w'. split; [| split; [reflexivity | split; [exact Hcon' | split; [| split]]]].
  - rewrite (bind_ok _ _ _ _ _ (Hview k Hk w s Hs eq_refl)).
    unfold ComponentView_set_temperature. cbn [ComponentView._array ComponentView._n].
    rewrite (array_set_live w c s _ _ _ val x Hs Hbase Hx (Hidx k Hk))
      by (rewrite Hoff by lia; exact Hlt).
    now rewrite Hoff by lia.
  - rewrite (bind_ok _ _ _ _ _ (Hview k Hk w' s' Hs' eq_refl)).
    unfold ComponentView_temperature. cbn [ComponentView._array ComponentView._n].
    erewrite (array_get_live w' c s' _ _ _ x Hs' Hbase (Hidx k Hk)); [reflexivity|].
    rewrite Hoff by lia. now apply poke_lookup.
  - intros k' Hk' Hne.
    assert (Hlt' : (Z.to_nat (PhysicsState._n s * 10 + 2 + k' * 6 + 1)
                    < length (PhysicsState._array_rep s))%nat) by lia.
    destruct (lookup_lt_is_Some_2 _ _ Hlt') as [y Hy].
    rewrite (bind_ok _ _ _ _ _ (Hview k' Hk' w' s' Hs' eq_refl)).
    rewrite (bind_ok _ _ _ _ _ (Hview k' Hk' w s Hs eq_refl)).
    unfold ComponentView_temperature. cbn [ComponentView._array ComponentView._n].
    erewrite (array_get_live w' c s' _ _ _ y Hs' Hbase (Hidx k' Hk')).
    + erewrite (array_get_live w c s _ _ _ y Hs Hbase (Hidx k' Hk')); [reflexivity|].
      now rewrite Hoff by lia.
    + rewrite Hoff by lia. subst s'. rewrite poke_lookup_ne by (subst pos; lia). exact Hy.
  - intros g j Hg Hj.
    pose proof (float_fields_order g Hg) as Hgo.
    destruct (entity_cell names s _ j Hsz Hgo Hj) as [_ Hlt'].
    destruct (lookup_lt_is_Some_2 _ _ Hlt') as [y Hy].
    erewrite (float_fget_live names w' c s'); [| exact Hs' | exact (sized_poke names pos x s Hsz) | exact Hgo | exact Hj |].
    + now rewrite (float_fget_live names w c s _ j y Hs Hsz Hgo Hj Hy).
    + change (PhysicsState._n s') with (PhysicsState._n s). subst s'.
      rewrite poke_lookup_ne; [exact Hy|]. subst pos. nia.
Qed.

(** X7. On a constructed container, after [radiators[r]] is attached to
    coolant loop [k] (1-based, [1 <= k <=] number of loops) by assigning
    [attached_to_coolant_loop], the reference reads back as [k] and
    [get_coolant_loop()] of that radiator is the view
    [coolant_loops[k - 1]]. *)
Theorem attaching_a_radiator (w : World) (c : ref) (s : PhysicsState.t) (r k : Z) :
  constructed names w c = true ->
  objs w !! c = Some s ->
  0 <= r < _N_RADIATORS names ->
  1 <= k <= _N_COOLANT_LOOPS names ->
  _N_COOLANT_LOOPS names < 2 ^ 53 ->
  exists w',
    (v <- RadiatorList__getitem__ names c (IInt r) ;;
     RadiatorView_set_attached_to_coolant_loop v (SInt k)) w = (Ok tt, w')
    /\ constructed names w' c = true
    /\ fst ((v <- RadiatorList__getitem__ names c (IInt r) ;;
             RadiatorView_attached_to_coolant_loop v) w') = Ok k
    /\ fst ((v <- RadiatorList__getitem__ names c (IInt r) ;;
             RadiatorView_get_coolant_loop names v) w')
       = fst (CoolantLoopList__getitem__ names c (IInt (k - 1)) w')
    /\ fst (CoolantLoopList__getitem__ names c (IInt (k - 1)) w')
       = Ok (CoolantView.mk (coolant_loops_array names s) (k - 1)).
Proof.
  intros Hcon Hs Hr Hk Hsmall.
  destruct (buffer_length w c s Hcon Hs) as (Hn & HL & HC & HLp & HR).
  destruct (engineering_slices w c s Hcon Hs) as (_ & _ & Harr).
  specialize (Harr ltac:(lia)).
  assert (Hc : (c < length (objs w))%nat) by (now apply lookup_lt_Some in Hs).
  set (pos := Z.to_nat (PhysicsState._n s * 10 + 2 + _N_COMPONENTS names * 6
                        + _N_COOLANT_LOOPS names * 3 + r * 2)).
  set (s' := poke pos (float_of_Z k) s).
  set (w' := put w c s' (ops w + 1)).
  assert (Hs' : objs w' !! c = Some s') by (now apply put_lookup).
  assert (Hview : forall w0 s0, objs w0 !! c = Some s0 ->
            PhysicsState.engineering s0 = PhysicsState.engineering s ->
            RadiatorList__getitem__ names c (IInt r) w0
            = (Ok (RadiatorView.mk c (radiators_array names s) r), w0)).
  { intros w0 s0 Hs0 He. rewrite (RadiatorList_int names w0 c s0 r Hs0).
    destruct (Z.geb_spec r (_N_RADIATORS names)); [lia|].
    unfold radiators_array. now rewrite He. }
  assert (Hidx : py_index (size (radiators_array names s)) (r * _N_RADIATOR_FIELDS + 0)
                 = Ok (Z.to_nat (r * 2))).
  { rewrite Harr. cbn [size]. change _N_RADIATOR_FIELDS with 2.
    rewrite Z.add_0_r. apply py_index_nonneg. lia. }
  assert (Hoff : (off (radiators_array names s) + Z.to_nat (r * 2))%nat = pos)
    by (rewrite Harr; cbn [off]; subst pos; lia).
  assert (Hbase : base (radiators_array names s) = c) by (now rewrite Harr).
  assert (Hlt : (pos < length (PhysicsState._array_rep s))%nat) by (subst pos; lia).
  assert (Hread : RadiatorView_attached_to_coolant_loop
                    (RadiatorView.mk c (radiators_array names s) r) w'
                  = (Ok k, put w' c s' (ops w' + 1))).
  { unfold RadiatorView_attached_to_coolant_loop.
    cbn [RadiatorView._array RadiatorView._n].
    erewrite bind_ok;
      [| apply (array_get_live w' c s' _ _ _ (float_of_Z k) Hs' Hbase Hidx);
         rewrite Hoff; now apply poke_lookup ].
    now rewrite int_of_float_of_Z by lia. }
  exists w'. split; [| split; [now apply constructed_poke | split; [| split]]].
  - rewrite (bind_ok _ _ _ _ _ (Hview w s Hs eq_refl)).
    unfold RadiatorView_set_attached_to_coolant_loop.
    cbn [RadiatorView._array RadiatorView._n].
    rewrite (array_set_live w c s _ _ _ (SInt k) (float_of_Z k) Hs Hbase
               (np_coerce_int k ltac:(lia)) Hidx) by (rewrite Hoff; exact Hlt).
    now rewrite Hoff.
  - rewrite (bind_ok _ _ _ _ _ (Hview w' s' Hs' eq_refl)). now rewrite Hread.
  - rewrite (bind_ok _ _ _ _ _ (Hview w' s' Hs' eq_refl)).
    destruct (RadiatorView_get_coolant_loop_resolves names w' _
                (RadiatorView.mk c (radiators_array names s) r) s' k Hs' Hread
                ltac:(lia)) as [-> _].
    rewrite (CoolantLoopList_int names w' c s' (k - 1) Hs').
    destruct (Z.geb_spec (k - 1) (_N_COOLANT_LOOPS names)); [lia | reflexivity].
  - rewrite (CoolantLoopList_int names w' c s' (k - 1) Hs').
    destruct (Z.geb_spec (k - 1) (_N_COOLANT_LOOPS names)); [lia | reflexivity].
Qed.

End Engineering.


(** ** The two trailing scalars *)

Section Scalars.

Variable names : strings.t.

Lemma scalar_cells (w : World) (c : ref) (s : PhysicsState.t) :
  constructed names w c = true -> objs w !! c = Some s ->
  py_index (length (PhysicsState._array_rep s)) (SRB_TIME_INDEX names)
  = Ok (Z.to_nat (PhysicsState._n s * 10))
  /\ py_index (length (PhysicsState._array_rep s)) (TIME_ACC_INDEX names)
     = Ok (Z.to_nat (PhysicsState._n s * 10 + 1))
  /\ (Z.to_nat (PhysicsState._n s * 10 + 1) < length (PhysicsState._array_rep s))%nat.
Proof.
  intros Hcon Hs. destruct (buffer_length names w c s Hcon Hs) as (Hn & HL & HC & HLp & HR).
  assert (HE : N_ENGINEERING_FIELDS names
               = _N_COMPONENTS names * 6 + _N_COOLANT_LOOPS names * 3
                 + _N_RADIATORS names * 2) by reflexivity.
  unfold TIME_ACC_INDEX, SRB_TIME_INDEX, ENGINEERING_START_INDEX. rewrite HE.
  rewrite !py_index_neg by lia. repeat split; try (f_equal; lia).
Qed.

Lemma with_proto_sized (s : PhysicsState.t) (p : protos.PhysicalState.t) :
  sized names s -> sized names (PhysicsState.with_proto s p).
Proof. intros H. exact H. Qed.

(** X8. On a constructed container, assigning [srb_time] (or [time_acc])
    stores the value both in the retained message and in the buffer cell
    at [SRB_TIME_INDEX] ([TIME_ACC_INDEX]): the property and [y0()] then
    agree on it.  The other scalar and every float field of every entity
    read as before, and the container stays constructed. *)
Theorem scalar_setters_write_both_copies (w : World) (c : ref)
    (s : PhysicsState.t) (v : float64) :
  constructed names w c = true ->
  objs w !! c = Some s ->
  (exists w',
      PhysicsState_set_srb_time names c v w = (Ok tt, w')
      /\ constructed names w' c = true
      /\ fst (PhysicsState_srb_time c w') = Ok v
      /\ fst ((a <- y0 c ;; array_get a (SRB_TIME_INDEX names)) w') = Ok v
      /\ fst (PhysicsState_time_acc c w') = fst (PhysicsState_time_acc c w)
      /\ fst ((a <- y0 c ;; array_get a (TIME_ACC_INDEX names)) w')
         = fst ((a <- y0 c ;; array_get a (TIME_ACC_INDEX names)) w)
      /\ forall (g : field) (j : Z),
          In g float_fields -> 0 <= j < PhysicsState._n s ->
          fst (entity_view_float_fget (field_order g) (_EntityView.mk c j) w')
          = fst (entity_view_float_fget (field_order g) (_EntityView.mk c j) w))
  /\ (exists w',
         PhysicsState_set_time_acc names c v w = (Ok tt, w')
         /\ constructed names w' c = true
         /\ fst (PhysicsState_time_acc c w') = Ok v
         /\ fst ((a <- y0 c ;; array_get a (TIME_ACC_INDEX names)) w') = Ok v
         /\ fst (PhysicsState_srb_time c w') = fst (PhysicsState_srb_time c w)
         /\ fst ((a <- y0 c ;; array_get a (SRB_TIME_INDEX names)) w')
            = fst ((a <- y0 c ;; array_get a (SRB_TIME_INDEX names)) w)
         /\ forall (g : field) (j : Z),
             In g float_fields -> 0 <= j < PhysicsState._n s ->
             fst (entity_view_float_fget (field_order g) (_EntityView.mk c j) w')
             = fst (entity_view_float_fget (field_order g) (_EntityView.mk c j) w)).
Proof.
  intros Hcon Hs.
  destruct (scalar_cells w c s Hcon Hs) as (Hsrb & Hacc & Hlt).
  pose proof (constructed_sized names w c s Hcon Hs) as Hsz.
  assert (Hc : (c < length (objs w))%nat) by (now apply lookup_lt_Some in Hs).
  assert (Hn : 0 <= PhysicsState._n s) by (destruct Hsz; assumption).
  set (psrb := Z.to_nat (PhysicsState._n s * 10)) in *.
  set (pacc := Z.to_nat (PhysicsState._n s * 10 + 1)) in *.
  assert (Hne : psrb <> pacc) by (subst psrb pacc; lia).
  assert (Hltsrb : (psrb < length (PhysicsState._array_rep s))%nat) by (subst psrb pacc; lia).
  destruct (lookup_lt_is_Some_2 _ _ Hltsrb) as [osrb Hosrb].
  destruct (lookup_lt_is_Some_2 _ _ Hlt) as [oacc Hoacc].
  assert (Hy0 : forall w0 s0 idx p y, objs w0 !! c = Some s0 ->
            length (PhysicsState._array_rep s0) = length (PhysicsState._array_rep s) ->
            py_index (length (PhysicsState._array_rep s)) idx = Ok p ->
            PhysicsState._array_rep s0 !! p = Some y ->
            fst ((a <- y0 c ;; array_get a idx) w0) = Ok y).
  { intros w0 s0 idx p y Hs0 Hl Hp Hy. unfold y0, array_rep.
    norm. rewrite (bind_ok _ _ _ _ _ (deref_live _ _ _ Hs0)). norm.
    erewrite (array_get_live w0 c s0 (mk_ndarray c 0 _) idx p y Hs0 eq_refl);
      [reflexivity | cbn [size]; now rewrite Hl | exact Hy]. }
  assert (Hfield : forall w0 s0 g j y, objs w0 !! c = Some s0 -> sized names s0 ->
            PhysicsState._n s0 = PhysicsState._n s ->
            In g float_fields -> 0 <= j < PhysicsState._n s ->
            PhysicsState._array_rep s0 !! Z.to_nat (PhysicsState._n s * field_order g + j)
            = Some y ->
            fst (entity_view_float_fget (field_order g) (_EntityView.mk c j) w0) = Ok y).
  { intros w0 s0 g j y Hs0 Hsz0 Hn0 Hg Hj Hy.
    rewrite (float_fget_live names w0 c s0 _ j y Hs0 Hsz0 (float_fields_order g Hg));
      [reflexivity | now rewrite Hn0 | now rewrite Hn0]. }
  split.
  - set (s1 := PhysicsState.with_proto s
                 (protos.PhysicalState.with_srb_time (PhysicsState._proto_state s) v)).
    set (s2 := poke psrb v s1).
    set (w' := put w c s2 (ops w + 1)).
    assert (Hs' : objs w' !! c = Some s2) by (now apply put_lookup).
    exists w'. split; [| split; [| split; [| split; [| split; [| split]]]]].
    + unfold PhysicsState_set_srb_time.
      rewrite <- (put_id w c s Hs) at 1.
      rewrite (bind_ok _ _ _ _ _ (update_put w c Hc _ s _)). cbv beta. fold s1.
      rewrite (bind_ok _ _ _ _ _ (array_rep_put w c Hc s1 _)).
      exact (array_set_put w c Hc (mk_ndarray c 0 _) _ psrb (SFloat v) v s1 _
               eq_refl eq_refl Hsrb Hltsrb).
    + apply (constructed_put names w c s); try assumption; try reflexivity.
      exact (poke_length s1 psrb v).
    + unfold PhysicsState_srb_time.
      now rewrite (bind_ok _ _ _ _ _ (deref_live _ _ _ Hs')).
    + apply (Hy0 w' s2 _ psrb v Hs' (poke_length s1 psrb v) Hsrb).
      now apply poke_lookup.
    + unfold PhysicsState_time_acc.
      rewrite (bind_ok _ _ _ _ _ (deref_live _ _ _ Hs')).
      now rewrite (bind_ok _ _ _ _ _ (deref_live _ _ _ Hs)).
    + rewrite (Hy0 w' s2 _ pacc oacc Hs' (poke_length s1 psrb v) Hacc)
        by (subst s2; rewrite poke_lookup_ne by congruence; exact Hoacc).
      now rewrite (Hy0 w s _ pacc oacc Hs eq_refl Hacc Hoacc).
    + intros g j Hg Hj.
      pose proof (float_fields_order g Hg) as Hgo.
      destruct (entity_cell names s _ j Hsz Hgo Hj) as [_ Hlt'].
      destruct (lookup_lt_is_Some_2 _ _ Hlt') as [y Hy].
      rewrite (Hfield w' s2 g j y Hs' (sized_poke names psrb v s1 Hsz) eq_refl Hg Hj)
        by (subst s2; rewrite poke_lookup_ne by (subst psrb; nia); exact Hy).
      now rewrite (Hfield w s g j y Hs Hsz eq_refl Hg Hj Hy).
  - set (s1 := PhysicsState.with_proto s
                 (protos.PhysicalState.with_time_acc (PhysicsState._proto_state s) v)).
    set (s2 := poke pacc v s1).
    set (w' := put w c s2 (ops w + 1)).
    assert (Hs' : objs w' !! c = Some s2) by (now apply put_lookup).
    exists w'. split; [| split; [| split; [| split; [| split; [| split]]]]].
    + unfold PhysicsState_set_time_acc.
      rewrite <- (put_id w c s Hs) at 1.
      rewrite (bind_ok _ _ _ _ _ (update_put w c Hc _ s _)). cbv beta. fold s1.
      rewrite (bind_ok _ _ _ _ _ (array_rep_put w c Hc s1 _)).
      exact (array_set_put w c Hc (mk_ndarray c 0 _) _ pacc (SFloat v) v s1 _
               eq_refl eq_refl Hacc Hlt).
    + apply (constructed_put names w c s); try assumption; try reflexivity.
      exact (poke_length s1 pacc v).
    + unfold PhysicsState_time_acc.
      now rewrite (bind_ok _ _ _ _ _ (deref_live _ _ _ Hs')).
    + apply (Hy0 w' s2 _ pacc v Hs' (poke_length s1 pacc v) Hacc).
      now apply poke_lookup.
    + unfold PhysicsState_srb_time.
      rewrite (bind_ok _ _ _ _ _ (deref_live _ _ _ Hs')).
      now rewrite (bind_ok _ _ _ _ _ (deref_live _ _ _ Hs)).
    + rewrite (Hy0 w' s2 _ psrb osrb Hs' (poke_length s1 pacc v) Hsrb)
        by (subst s2; rewrite poke_lookup_ne by congruence; exact Hosrb).
      now rewrite (Hy0 w s _ psrb osrb Hs eq_refl Hsrb Hosrb).
    + intros g j Hg Hj.
      pose proof (float_fields_order g Hg) as Hgo.
      destruct (entity_cell names s _ j Hsz Hgo Hj) as [_ Hlt'].
      destruct (lookup_lt_is_Some_2 _ _ Hlt') as [y Hy].
      rewrite (Hfield w' s2 g j y Hs' (sized_poke names pacc v s1 Hsz) eq_refl Hg Hj)
        by (subst s2; rewrite poke_lookup_ne by (subst pacc; nia); exact Hy).
      now rewrite (Hfield w s g j y Hs Hsz eq_refl Hg Hj Hy).
Qed.

End Scalars.


(** ** Construction from a buffer *)

Section Hot.

Variable names : strings.t.

Lemma insert_new {A} (l : list A) (a b : A) :
  (<[length l := b]> (l ++ [a]) = l ++ [b])%list.
Proof.
  rewrite insert_app_r_alt by lia. now rewrite Nat.sub_diag.
Qed.

(** X9. Given a buffer of the expected length and a snapshot with the
    declared cardinalities, the constructor succeeds: it adds one
    container to the store and returns it.  That container is constructed;
    its buffer is the given one with the heading column (the cells
    [4 n .. 5 n)) taken modulo 2 pi and every other cell as given; its
    [srb_time] and [time_acc] are the two scalars of the buffer, not those
    of the snapshot, and its list of atmospheres is not computed yet. *)
Theorem hot_construction (w : World) (y : list float64) (P : protos.PhysicalState.t) :
  declared_cardinalities names P ->
  len y = expected_size names (len (protos.PhysicalState.entities P)) ->
  exists (w' : World) (s : PhysicsState.t) (srb acc : float64),
    PhysicsState__init__ names (Some y) P w = (Ok (length (objs w)), w')
    /\ objs w' = (objs w ++ [s])%list
    /\ constructed names w' (length (objs w)) = true
    /\ (forall q : nat,
          PhysicsState._array_rep s !! q
          = if (4 * length (protos.PhysicalState.entities P) <=? q)%nat
               && (q <? 5 * length (protos.PhysicalState.entities P))%nat
            then (fun h => np_mod h two_pi) <$> y !! q
            else y !! q)
    /\ PhysicsState._entities_with_atmospheres s = None
    /\ py_getitem y (SRB_TIME_INDEX names) = Ok srb
    /\ py_getitem y (TIME_ACC_INDEX names) = Ok acc
    /\ PhysicsState._proto_state s
       = protos.PhysicalState.with_time_acc
           (protos.PhysicalState.with_srb_time P srb) acc
    /\ scalars_in_sync names s.
Proof.
  intros Hcard Hlen.
  set (es := protos.PhysicalState.entities P) in *.
  set (N := length es).
  pose proof (N_ENGINEERING_FIELDS_nonneg names) as HE0.
  assert (HL : Z.of_nat (length y) = Z.of_nat N * 10 + 2 + N_ENGINEERING_FIELDS names)
    by (unfold len in Hlen; rewrite Hlen, expected_size_eq; unfold len; reflexivity).
  assert (Hisrb : py_index (length y) (SRB_TIME_INDEX names) = Ok (10 * N)%nat).
  { unfold SRB_TIME_INDEX, ENGINEERING_START_INDEX.
    rewrite py_index_neg by lia. f_equal. lia. }
  assert (Hiacc : py_index (length y) (TIME_ACC_INDEX names) = Ok (10 * N + 1)%nat).
  { unfold TIME_ACC_INDEX, SRB_TIME_INDEX, ENGINEERING_START_INDEX.
    rewrite py_index_neg by lia. f_equal. lia. }
  destruct (lookup_lt_is_Some_2 y (10 * N)%nat ltac:(lia)) as [srb Hsrb].
  destruct (lookup_lt_is_Some_2 y (10 * N + 1)%nat ltac:(lia)) as [acc Hacc].
  assert (Esrb : py_getitem y (SRB_TIME_INDEX names) = Ok srb)
    by (unfold py_getitem; now rewrite Hisrb, Hsrb).
  assert (Eacc : py_getitem y (TIME_ACC_INDEX names) = Ok acc)
    by (unfold py_getitem; now rewrite Hiacc, Hacc).
  set (P' := protos.PhysicalState.with_time_acc
               (protos.PhysicalState.with_srb_time P srb) acc).
  set (c := length (objs w)).
  set (eng_view := array_slice (mk_ndarray c 0 (length y))
                     (Some (ENGINEERING_START_INDEX names)) None).
  set (y' := mod_cells two_pi (4 * N) (seq 0 N) y).
  set (sF := PhysicsState.mk P' (len es) (List.map protos.Entity.name es) y'
               (EngineeringState.mk eng_view) None).
  assert (Hrun : exists k,
            PhysicsState__init__ names (Some y) P w
            = (Ok c, mk_World (objs w ++ [sF])%list k (junk w))).
  { unfold PhysicsState__init__.
    match goal with
    | |- context [alloc ?mk] => destruct (alloc_put mk w) as [Ha Hc]
    end.
    fold c in Ha, Hc. fold es in Ha, Hc |- *.
    set (wa := mk_World _ _ _) in *.
    norm. rewrite (bind_ok _ _ _ _ _ Ha). rewrite Esrb. norm.
    rewrite (bind_ok _ _ _ _ _ (update_put wa c Hc _ _ _)). rewrite Eacc. norm.
    rewrite (bind_ok _ _ _ _ _ (update_put wa c Hc _ _ _)). norm.
    rewrite (bind_ok _ _ _ _ _ (array_rep_put wa c Hc _ _)). norm.
    unfold EngineeringState__init__. norm.
    destruct Hcard as (HC & HLp & HR). rewrite HC, HLp, HR, !Z.eqb_refl. norm.
    rewrite (bind_ok _ _ _ _ _ (update_put wa c Hc _ _ _)). norm.
    rewrite (bind_ok _ _ _ _ _ (array_rep_put wa c Hc _ _)).
    cbn [PhysicsState._array_rep PhysicsState.with_engineering
         PhysicsState.with_proto size PhysicsState._proto_state].
    fold (len y). rewrite Hlen, Z.eqb_refl. norm.
    set (s1 := PhysicsState.mk P' (len es) (List.map protos.Entity.name es) []
                 (EngineeringState.mk eng_view) None).
    change (put wa c _ ?k) with (put wa c (PhysicsState.with_array s1 y) k).
    erewrite bind_ok;
      [| apply (y_component_put names wa c Hc (PhysicsState.with_array s1 y) _ f_heading);
         [split; [cbn; unfold len; lia | exact Hlen] | cbv; split; discriminate] ].
    change (field_order f_heading) with 4.
    cbn [PhysicsState._n PhysicsState.with_array s1].
    replace (Z.to_nat (4 * len es)) with (4 * N)%nat by (unfold len; lia).
    replace (Z.to_nat (len es)) with N by (unfold len; lia).
    norm. erewrite bind_ok; [| apply (heading_loop wa c Hc s1); lia ].
    norm. erewrite bind_ok; [| apply (update_put wa c Hc) ].
    norm. unfold ret. eexists. f_equal.
    unfold put, wa. cbn [objs junk]. f_equal.
    apply insert_new. }
  destruct Hrun as [k Hrun].
  exists (mk_World (objs w ++ [sF])%list k (junk w)), sF, srb, acc.
  split; [exact Hrun|]. split; [reflexivity|].
  split; [| split; [| split; [reflexivity | split; [exact Esrb | split; [exact Eacc | split; [reflexivity|]]]]]].
  - unfold constructed. cbn [objs]. fold c.
    rewrite lookup_app_r by (subst c; lia). subst c. rewrite Nat.sub_diag.
    cbn [lookup list_lookup sF PhysicsState._proto_state PhysicsState._n
         PhysicsState._entity_names PhysicsState._array_rep PhysicsState.engineering
         EngineeringState._array].
    change (protos.PhysicalState.entities P') with es.
    change (protos.PhysicalState.engineering P') with (protos.PhysicalState.engineering P).
    subst y'. unfold len at 3. rewrite !mod_cells_length. fold (len y).
    rewrite Hlen. destruct Hcard as (HC & HLp & HR).
    rewrite HC, HLp, HR, !Z.eqb_refl, !Nat.eqb_refl.
    now rewrite bool_decide_eq_true_2 by reflexivity.
  - intros q. cbn [sF PhysicsState._array_rep]. subst y'. fold N.
    destruct (Nat.leb_spec (4 * N) q), (Nat.ltb_spec q (5 * N)); cbn [andb].
    + replace q with (4 * N + (q - 4 * N))%nat by lia.
      apply mod_cells_seq_in. lia.
    + apply mod_cells_out. intros j Hj%in_seq. lia.
    + apply mod_cells_out. intros j Hj%in_seq. lia.
    + apply mod_cells_out. intros j Hj%in_seq. lia.
  - unfold scalars_in_sync, py_getitem. cbn [sF PhysicsState._array_rep PhysicsState._proto_state].
    subst y'. rewrite !mod_cells_length, Hisrb, Hiacc.
    rewrite !mod_cells_out by (intros j Hj%in_seq; lia).
    now rewrite Hsrb, Hacc.
Qed.

End Hot.


(** ** Cold construction: refusal, and the layout of the buffer *)

Lemma enumerate_from_app {A} (l1 l2 : list A) (j : Z) :
  enumerate_from j (l1 ++ l2)
  = (enumerate_from j l1 ++ enumerate_from (j + len l1) l2)%list.
Proof.
  revert j. induction l1 as [|a l1 IH]; intros j.
  - simpl. unfold len. simpl. now rewrite Z.add_0_r.
  - simpl. rewrite IH. do 3 f_equal. unfold len. simpl length. lia.
Qed.

Lemma first_unresolved (tbl : list string) (l : list protos.Entity.t) :
  ~ Forall (fun e => protos.Entity.landed_on e = ""
                     \/ In (protos.Entity.landed_on e) tbl) l ->
  exists l1 e l2,
    l = (l1 ++ e :: l2)%list
    /\ Forall (fun e => protos.Entity.landed_on e = ""
                        \/ In (protos.Entity.landed_on e) tbl) l1
    /\ protos.Entity.landed_on e <> ""
    /\ ~ In (protos.Entity.landed_on e) tbl.
Proof.
  induction l as [|e l IH]; intros H.
  - exfalso. apply H. constructor.
  - destruct (string_dec (protos.Entity.landed_on e) "") as [E|Hne].
    + destruct IH as (l1 & e' & l2 & -> & H1 & H2).
      * intros Hl. apply H. constructor; [now left | exact Hl].
      * exists (e :: l1), e', l2. split; [reflexivity|].
        split; [constructor; [now left | exact H1] | exact H2].
    + destruct (in_dec string_dec (protos.Entity.landed_on e) tbl) as [Hin|Hnin].
      * destruct IH as (l1 & e' & l2 & -> & H1 & H2).
        -- intros Hl. apply H. constructor; [now right | exact Hl].
        -- exists (e :: l1), e', l2. split; [reflexivity|].
           split; [constructor; [now right | exact H1] | exact H2].
      * exists [], e, l. repeat split; [constructor | assumption..].
Qed.

Section ColdRefusal.

Variable names : strings.t.
Variables (w0 : World) (c : ref).
Hypothesis Hc : (c < length (objs w0))%nat.
Variable s0 : PhysicsState.t.
Variable es : list protos.Entity.t.
Hypothesis Hn : PhysicsState._n s0 = len es.
Hypothesis Htbl : PhysicsState._entity_names s0 = List.map protos.Entity.name es.
Hypothesis Hsmall : len es < 2 ^ 53.

Local Abbreviation at_ arr k := (put w0 c (PhysicsState.with_array s0 arr) k).
Local Abbreviation tbl := (List.map protos.Entity.name es).
Local Abbreviation L := (Z.to_nat (expected_size names (len es))).

Local Abbreviation column field_name field_n :=
  (fun '(entity_index, entity) =>
     proto_value <-
       (if field_eqb field_name _LANDED_ON
        then i <- _name_to_index c (Some (protos.Entity.landed_on entity)) ;;
             ret (SInt i)
        else as_scalar (getattr entity field_name)) ;;
     array_set (mk_ndarray c 0 L) (len es * field_n + entity_index) proto_value).

(** The rows before the first unknown name are written, then the lookup
    of that name raises. *)
Lemma landed_on_column_raises (l1 l2 : list protos.Entity.t) (e : protos.Entity.t)
    (arr : list float64) (k : nat) :
  es = (l1 ++ e :: l2)%list ->
  Forall (fun e => protos.Entity.landed_on e = ""
                   \/ In (protos.Entity.landed_on e) tbl) l1 ->
  protos.Entity.landed_on e <> "" ->
  ~ In (protos.Entity.landed_on e) tbl ->
  length arr = L ->
  exists w',
    for_each (enumerate es) (column f_landed_on 8) (at_ arr k)
    = (Raise NoEntityError, w').
Proof.
  intros Hes Hl1 Hne Hnin Harr.
  unfold enumerate.
  replace (enumerate_from 0 es) with (enumerate_from 0 (l1 ++ e :: l2))
    by (now rewrite <- Hes).
  rewrite enumerate_from_app, for_each_app.
  pose proof (L_eq names es) as HL.
  erewrite bind_ok.
  2:{ apply (for_each_writes w0 c Hc s0 (enumerate_from 0 l1) _
               (fun ie => [(Z.to_nat (len es * 8 + fst ie),
                            cell tbl f_landed_on (snd ie))]) L); [| exact Harr].
      intros [i e1] arr' k' Hin Harr'.
      apply In_enumerate_from in Hin as (t & -> & Ht).
      assert (Hin1 : In e1 l1)
        by (apply list_elem_of_In; now apply list_elem_of_lookup_2 in Ht).
      pose proof (lookup_lt_Some _ _ _ Ht) as Hlt.
      assert (Hlen : (length l1 < length es)%nat)
        by (rewrite Hes, length_app; simpl; lia).
      destruct (stored_landed_on tbl e1) as (idx & _ & Hidx & _).
      { now apply (proj1 (List.Forall_forall _ _) Hl1). }
      { rewrite length_map. exact Hsmall. }
      destruct (proto_value_run w0 c Hc s0 es Htbl f_landed_on e1 _ arr' k' Hidx)
        as (v & Hv & Hco).
      rewrite (bind_ok _ _ _ _ _ Hv).
      cbn [fst snd length]. rewrite (cell_of_stored es f_landed_on e1 _ Hidx).
      apply (write_cell w0 c Hc s0 (mk_ndarray c 0 L) _
               (Z.to_nat (len es * 8 + (0 + Z.of_nat t))) v _ arr' k' eq_refl Hco).
      - cbn [size]. apply py_index_nonneg. unfold len in *. lia.
      - cbn [off]. rewrite Harr'. unfold len in *. lia. }
  simpl for_each. eexists.
  eapply bind_raise. eapply bind_raise. eapply bind_raise.
  eapply name_to_index_absent; [apply put_lookup; exact Hc | exact Hne |].
  cbn [PhysicsState._entity_names PhysicsState.with_array]. rewrite Htbl.
  destruct (py_in _ _) eqn:E; [| reflexivity].
  apply py_in_In in E. contradiction.
Qed.

Lemma fields_loop_raises (arr : list float64) (k : nat) :
  ~ Forall (fun e => protos.Entity.landed_on e = ""
                     \/ In (protos.Entity.landed_on e) tbl) es ->
  length arr = L ->
  exists w',
    for_each _ENTITY_FIELD_ORDER
      (fun '(field_name, field_n) =>
         for_each (enumerate es) (column field_name field_n))
      (at_ arr k)
    = (Raise NoEntityError, w').
Proof.
  intros Hres Harr.
  destruct (first_unresolved tbl es Hres) as (l1 & e & l2 & Hes & Hl1 & Hne & Hnin).
  change _ENTITY_FIELD_ORDER
    with ([(f_x, 0); (f_y, 1); (f_vx, 2); (f_vy, 3); (f_heading, 4); (f_spin, 5);
           (f_fuel, 6); (f_throttle, 7)]
          ++ [(f_landed_on, 8); (f_broken, 9)])%list.
  rewrite for_each_app.
  erewrite bind_ok.
  2:{ apply (for_each_writes w0 c Hc s0 _ _
               (fun p => consec (length es * Z.to_nat (snd p))
                           (List.map (cell tbl (fst p)) es)) L); [| exact Harr].
      intros [f fo] arr' k' Hin Harr'. cbn [fst snd].
      rewrite consec_length, length_map.
      assert (Hfo : 0 <= fo <= 9)
        by (simpl in Hin; repeat destruct Hin as [[= <- <-]|Hin]; try lia; destruct Hin).
      apply (column_loop names w0 c Hc s0 es Hn Htbl); [exact Hfo | | exact Harr'].
      intros e' He'.
      simpl in Hin; repeat destruct Hin as [[= <- <-]|Hin]; try destruct Hin;
        eexists; reflexivity. }
  simpl for_each.
  match goal with
  | |- context [put w0 c (PhysicsState.with_array s0 ?a) ?k'] =>
      destruct (landed_on_column_raises l1 l2 e a k' Hes Hl1 Hne Hnin
                  ltac:(rewrite apply_writes_length; exact Harr)) as [w' Hw']
  end.
  exists w'. apply bind_raise. exact Hw'.
Qed.

End ColdRefusal.

Section ColdLayout.

Variable names : strings.t.

(** X10. Built cold from a snapshot in which some entity's [landed_on] is
    neither empty nor the name of an entity of the snapshot, the
    constructor raises [NoEntityError]: no container is returned, whatever
    the engineering lists are. *)
Theorem cold_construction_refuses_unknown_landed_on
    (w : World) (S : protos.PhysicalState.t) :
  ~ landed_on_resolves S ->
  len (protos.PhysicalState.entities S) < 2 ^ 53 ->
  exists w', PhysicsState__init__ names None S w = (Raise NoEntityError, w').
Proof.
  intros Hres Hsmall.
  set (es := protos.PhysicalState.entities S) in *.
  set (L := Z.to_nat (expected_size names (len es))).
  unfold PhysicsState__init__. norm.
  rewrite (bind_ok _ _ _ _ (List.map (junk w) (seq 0 L))) by reflexivity.
  cbv beta. norm.
  match goal with
  | |- context [alloc ?mk] => destruct (alloc_put mk w) as [Ha Hc]
  end.
  set (c := length (objs w)) in *.
  set (wa := mk_World _ _ _) in *.
  rewrite (bind_ok _ _ _ _ _ Ha). clear Ha. norm.
  set (s0 := PhysicsState.mk S (len es) (List.map protos.Entity.name es) []
               (EngineeringState.mk (mk_ndarray c 0 0)) None).
  set (arr0 := List.map (junk w) (seq 0 L)).
  assert (Harr0 : length arr0 = L) by (subst arr0; now rewrite length_map, length_seq).
  change (put wa c _ (ops w)) with (put wa c (PhysicsState.with_array s0 arr0) (ops w)).
  rewrite (bind_ok _ _ _ _ _ (array_rep_at wa c Hc s0 arr0 _)).
  rewrite Harr0.
  destruct (fields_loop_raises names wa c Hc s0 es eq_refl eq_refl Hsmall arr0 (ops w)
              Hres Harr0)
    as [w' Hw'].
  exists w'. norm. apply bind_raise. exact Hw'.
Qed.

(** X11. Built cold from a snapshot whose [landed_on] names resolve, with
    the declared cardinalities, the constructor returns a fresh,
    constructed container that retains the snapshot and whose buffer is
    laid out column by column: with [N] entities, cell [N * k + i] holds
    field [k] of entity [i] in the order x, y, vx, vy, heading (taken
    modulo 2 pi), spin, fuel, throttle, landed_on (the index of the entity
    landed on, -1 for none) and broken (1.0 or 0.0); the next two cells
    hold [srb_time] and [time_acc]; the engineering scalars follow. *)
Theorem cold_construction_layout (w : World) (S : protos.PhysicalState.t) :
  landed_on_resolves S ->
  declared_cardinalities names S ->
  int32_fields S ->
  len (protos.PhysicalState.entities S) < 2 ^ 53 ->
  let es := protos.PhysicalState.entities S in
  let N := length es in
  exists (w' : World) (s : PhysicsState.t),
    PhysicsState__init__ names None S w = (Ok (length (objs w)), w')
    /\ objs w' !! length (objs w) = Some s
    /\ constructed names w' (length (objs w)) = true
    /\ PhysicsState._proto_state s = S
    /\ PhysicsState._entities_with_atmospheres s = None
    /\ scalars_in_sync names s
    /\ (forall (i : nat) (e : protos.Entity.t),
          es !! i = Some e ->
          let at_column k := PhysicsState._array_rep s !! (N * k + i)%nat in
          at_column 0%nat = Some (protos.Entity.x e)
          /\ at_column 1%nat = Some (protos.Entity.y e)
          /\ at_column 2%nat = Some (protos.Entity.vx e)
          /\ at_column 3%nat = Some (protos.Entity.vy e)
          /\ at_column 4%nat = Some (np_mod (protos.Entity.heading e) two_pi)
          /\ at_column 5%nat = Some (protos.Entity.spin e)
          /\ at_column 6%nat = Some (protos.Entity.fuel e)
          /\ at_column 7%nat = Some (protos.Entity.throttle e)
          /\ (exists idx : Z,
                 at_column 8%nat = Some (float_of_Z idx)
                 /\ (if idx =? PhysicsState.NO_INDEX then Ok ""
                     else py_getitem (List.map protos.Entity.name es) idx)
                    = Ok (protos.Entity.landed_on e))
          /\ at_column 9%nat
             = Some (if protos.Entity.broken e then f64_one else f64_zero))
    /\ (forall (j : nat) (v : scalar) (x : float64),
          engineering_scalars (protos.PhysicalState.engineering S) !! j = Some v ->
          np_coerce v = Ok x ->
          PhysicsState._array_rep s !! (10 * N + 2 + j)%nat = Some x).
Proof.
  intros Hres Hcard Hint Hsmall es N.
  destruct (cold_init_run names w S Hres Hcard Hint Hsmall)
    as (wa & arr & k & Hc & Hrun & ->).
  destruct (cold_init_constructed names w S Hres Hcard Hint Hsmall)
    as (c' & w'' & Hrun' & Hcon).
  rewrite Hrun in Hrun'. injection Hrun' as <- <-.
  pose proof (cold_buffer_length names w S) as Hlen.
  pose proof (L_eq names es) as HL. fold es in Hlen. fold N in HL.
  pose proof (N_ENGINEERING_FIELDS_nonneg names) as HE0.
  eexists _, _. split; [exact Hrun|].
  split; [now apply put_lookup|]. split; [exact Hcon|].
  split; [reflexivity|]. split; [reflexivity|].
  cbn [PhysicsState._array_rep PhysicsState._proto_state].
  split; [| split].
  - unfold scalars_in_sync, py_getitem.
    cbn [PhysicsState._array_rep PhysicsState._proto_state].
    rewrite Hlen. fold es. rewrite HL.
    unfold TIME_ACC_INDEX, SRB_TIME_INDEX, ENGINEERING_START_INDEX.
    rewrite !py_index_neg by lia.
    replace (Z.to_nat (Z.of_nat (10 * N + 2 + Z.to_nat (N_ENGINEERING_FIELDS names))
                       + (- N_ENGINEERING_FIELDS names - 2)))
      with (10 * N)%nat by lia.
    replace (Z.to_nat (Z.of_nat (10 * N + 2 + Z.to_nat (N_ENGINEERING_FIELDS names))
                       + (- N_ENGINEERING_FIELDS names - 2 + 1)))
      with (10 * N + 1)%nat by lia.
    unfold cold_buffer. cbv zeta. fold es. fold N.
    rewrite !mod_cells_out by (intros j Hj%in_seq; lia).
    rewrite !apply_writes_consec_out by lia.
    split.
    + rewrite apply_writes_out by (simpl; lia).
      simpl apply_writes. rewrite list_lookup_insert_eq; [reflexivity|].
      rewrite apply_writes_length, length_map, length_seq. lia.
    + simpl apply_writes. rewrite list_lookup_insert_eq; [reflexivity|].
      rewrite length_insert, apply_writes_length, length_map, length_seq. lia.
  - intros i e He.
    assert (Hcell : forall f fo, In (f, fo) _ENTITY_FIELD_ORDER ->
              cold_buffer names (junk w) S !! (N * Z.to_nat fo + i)%nat
              = Some (if field_eqb f f_heading
                      then np_mod (cell (List.map protos.Entity.name es) f e) two_pi
                      else cell (List.map protos.Entity.name es) f e))
      by (intros f fo Hin; exact (cold_buffer_cell names w S f fo i e Hin He)).
    assert (Hlo : protos.Entity.landed_on e = ""
                  \/ In (protos.Entity.landed_on e) (List.map protos.Entity.name es)).
    { apply (proj1 (List.Forall_forall _ _) Hres).
      apply list_elem_of_In. now apply list_elem_of_lookup_2 in He. }
    destruct (stored_landed_on (List.map protos.Entity.name es) e Hlo)
      as (idx & _ & Hidx & Hback); [rewrite length_map; exact Hsmall|].
    repeat split.
    + exact (Hcell f_x 0 ltac:(simpl; tauto)).
    + exact (Hcell f_y 1 ltac:(simpl; tauto)).
    + exact (Hcell f_vx 2 ltac:(simpl; tauto)).
    + exact (Hcell f_vy 3 ltac:(simpl; tauto)).
    + exact (Hcell f_heading 4 ltac:(simpl; tauto)).
    + exact (Hcell f_spin 5 ltac:(simpl; tauto)).
    + exact (Hcell f_fuel 6 ltac:(simpl; tauto)).
    + exact (Hcell f_throttle 7 ltac:(simpl; tauto)).
    + exists idx. split; [| exact Hback].
      pose proof (Hcell f_landed_on 8 ltac:(simpl; tauto)) as H8.
      cbn [field_eqb] in H8. unfold cell in H8. rewrite Hidx in H8. exact H8.
    + exact (Hcell f_broken 9 ltac:(simpl; tauto)).
  - intros j v x Hv Hx.
    pose proof (cold_buffer_engineering names w S Hcard j v Hv) as Hj.
    unfold coerced in Hj. rewrite Hx in Hj. exact Hj.
Qed.

End ColdLayout.


(** ** Atmospheres, names and iteration *)

Lemma enumerate_from_lookup {A} (l : list A) (j : Z) (t : nat) (a : A) :
  l !! t = Some a -> In (j + Z.of_nat t, a) (enumerate_from j l).
Proof.
  revert j t. induction l as [|b l IH]; intros j [|t] H; try discriminate.
  - injection H as ->. left. f_equal. lia.
  - right. replace (j + Z.of_nat (S t)) with (j + 1 + Z.of_nat t) by lia.
    apply IH. exact H.
Qed.

Lemma filtered_indexes_bound {A} (P : Z * A -> bool) (l : list A) (j i : Z) :
  In i (List.map fst (List.filter P (enumerate_from j l))) -> j <= i.
Proof.
  intros H. apply in_map_iff in H as ([i' a] & <- & H).
  apply filter_In in H as [H _].
  apply In_enumerate_from in H as (t & -> & _). simpl. lia.
Qed.

Lemma filtered_indexes_increasing {A} (P : Z * A -> bool) (l : list A) (j : Z)
    (a b : nat) (x y : Z) :
  List.map fst (List.filter P (enumerate_from j l)) !! a = Some x ->
  List.map fst (List.filter P (enumerate_from j l)) !! b = Some y ->
  (a < b)%nat -> x < y.
Proof.
  revert j a b. induction l as [|e l IH]; intros j a b; simpl; [discriminate|].
  destruct (P (j, e)); simpl.
  - destruct a as [|a], b as [|b]; simpl; try lia.
    + intros [= <-] Hy _.
      assert (j + 1 <= y); [| lia].
      apply (filtered_indexes_bound P l).
      apply list_elem_of_In. now apply list_elem_of_lookup_2 in Hy.
    + intros Hx Hy Hab. apply (IH (j + 1) a b Hx Hy). lia.
  - apply IH.
Qed.

Lemma map_each_pure {A B} (l : list A) (body : A -> M B) (g : A -> B) (w : World) :
  (forall a, In a l -> body a w = (Ok (g a), w)) ->
  map_each l body w = (Ok (List.map g l), w).
Proof.
  induction l as [|a l IH]; intros H; [reflexivity|].
  simpl. rewrite (bind_ok _ _ _ _ _ (H a (or_introl eq_refl))).
  rewrite (bind_ok _ _ _ _ _ (IH (fun a' Ha' => H a' (or_intror Ha')))).
  reflexivity.
Qed.

Section Names.

Variable names : strings.t.

(** X12. The first call of [Atmospheres] on a container lists, in
    increasing order, exactly the positions of the entities whose
    [atmosphere_scaling] and [atmosphere_thickness] both differ from 0,
    and records the list in the container, changing nothing else.  Later
    calls return the recorded list: a change of an entity's atmosphere
    through a view is not seen. *)
Theorem Atmospheres_is_computed_once (w : World) (c : ref) (s : PhysicsState.t) :
  objs w !! c = Some s ->
  PhysicsState._entities_with_atmospheres s = None ->
  let es := protos.PhysicalState.entities (PhysicsState._proto_state s) in
  exists (w' : World) (l : list Z),
    PhysicsState_Atmospheres c w = (Ok l, w')
    /\ objs w' = <[c := PhysicsState.with_atmospheres s (Some l)]> (objs w)
    /\ (forall i : Z,
          In i l <->
          exists (t : nat) (e : protos.Entity.t),
            i = Z.of_nat t /\ es !! t = Some e
            /\ f64_nonzero (protos.Entity.atmosphere_scaling e) = true
            /\ f64_nonzero (protos.Entity.atmosphere_thickness e) = true)
    /\ (forall (a b : nat) (x y : Z),
          l !! a = Some x -> l !! b = Some y -> (a < b)%nat -> x < y)
    /\ PhysicsState_Atmospheres c w' = (Ok l, w')
    /\ (forall (i : Z) (v : float64) (r : result unit) (w'' : World),
          _EntityView_set_atmosphere_thickness (_EntityView.mk c i) v w' = (r, w'') ->
          PhysicsState_Atmospheres c w'' = (Ok l, w'')).
Proof.
  intros Hs Hnone es.
  assert (Hc : (c < length (objs w))%nat) by (now apply lookup_lt_Some in Hs).
  set (l := with_atmosphere es).
  set (s' := PhysicsState.with_atmospheres s (Some l)).
  set (w' := put w c s' (ops w)).
  assert (Hs' : objs w' !! c = Some s') by (now apply put_lookup).
  assert (Hcached : forall w0 s0, objs w0 !! c = Some s0 ->
            PhysicsState._entities_with_atmospheres s0 = Some l ->
            PhysicsState_Atmospheres c w0 = (Ok l, w0)).
  { intros w0 s0 Hs0 H0. unfold PhysicsState_Atmospheres.
    rewrite (bind_ok _ _ _ _ _ (deref_live _ _ _ Hs0)). now rewrite H0. }
  exists w', l. split; [| split; [reflexivity | split; [| split; [| split]]]].
  - unfold PhysicsState_Atmospheres.
    rewrite (bind_ok _ _ _ _ _ (deref_live _ _ _ Hs)). rewrite Hnone.
    fold es. fold l. rewrite <- (put_id w c s Hs) at 1.
    now rewrite (bind_ok _ _ _ _ _ (update_put w c Hc _ s _)).
  - intros i. unfold l, with_atmosphere, enumerate. rewrite in_map_iff. split.
    + intros ([i' e] & <- & H). apply filter_In in H as [H HP].
      apply In_enumerate_from in H as (t & -> & Ht).
      apply andb_prop in HP as [H1 H2]. exists t, e. now repeat split.
    + intros (t & e & -> & Ht & H1 & H2). exists (Z.of_nat t, e). split; [reflexivity|].
      apply filter_In. split.
      * exact (enumerate_from_lookup es 0 t e Ht).
      * cbn [snd]. now rewrite H1, H2.
  - intros a b x y. apply filtered_indexes_increasing.
  - now apply (Hcached w' s').
  - intros i v r w'' Hset.
    unfold _EntityView_set_atmosphere_thickness, entity_view_unchanging_fset in Hset.
    cbn [_EntityView._creator _EntityView._index] in Hset.
    rewrite (bind_ok _ _ _ _ _ (deref_live _ _ _ Hs')) in Hset.
    destruct (py_index _ i) as [t|e].
    + rewrite bind_lift_ok in Hset. unfold w' in Hset.
      rewrite (update_put w c Hc) in Hset. injection Hset as _ <-.
      eapply Hcached; [apply put_lookup; exact Hc | reflexivity].
    + rewrite bind_lift_raise in Hset. injection Hset as _ <-.
      now apply (Hcached w' s').
Qed.

(** X13. On a constructed container, assigning [name] through the view
    of a valid row [i] replaces, in the retained message, the entity of
    row [i] by the same entity under the new name, and changes nothing
    else: every other row of the message and every other part of the
    container is as before.  The view of row [i] then reads the new
    name and the views of the other rows read their old names, but the
    name table, and so every lookup by name and every [landed_on]
    translation, is as before, and the buffer is untouched. *)
Theorem renaming_leaves_the_name_table (w : World) (c : ref) (s : PhysicsState.t)
    (i : Z) (new : string) :
  constructed names w c = true ->
  objs w !! c = Some s ->
  0 <= i < PhysicsState._n s ->
  exists (w' : World) (s' : PhysicsState.t) (e : protos.Entity.t)
         (es' : list protos.Entity.t),
    _EntityView_set_name (_EntityView.mk c i) new w = (Ok tt, w')
    /\ objs w' = <[c := s']> (objs w)
    /\ s' = PhysicsState.with_proto s
              (protos.PhysicalState.with_entities (PhysicsState._proto_state s) es')
    /\ protos.PhysicalState.entities (PhysicsState._proto_state s) !! Z.to_nat i
       = Some e
    /\ es' !! Z.to_nat i = Some (Entity_with_name e new)
    /\ (forall j : nat,
          j <> Z.to_nat i ->
          es' !! j = protos.PhysicalState.entities (PhysicsState._proto_state s) !! j)
    /\ fst (_EntityView_name (_EntityView.mk c i) w') = Ok new
    /\ (forall j : Z,
          0 <= j < PhysicsState._n s -> j <> i ->
          fst (_EntityView_name (_EntityView.mk c j) w')
          = fst (_EntityView_name (_EntityView.mk c j) w))
    /\ PhysicsState._entity_names s' = PhysicsState._entity_names s
    /\ PhysicsState._array_rep s' = PhysicsState._array_rep s
    /\ (forall name : string,
          fst (PhysicsState__getitem__ c (IStr name) w')
          = fst (PhysicsState__getitem__ c (IStr name) w))
    /\ (forall name : option string,
          fst (_name_to_index c name w') = fst (_name_to_index c name w)).
Proof.
  intros Hcon Hs Hi.
  assert (Hc : (c < length (objs w))%nat) by (now apply lookup_lt_Some in Hs).
  destruct (constructed_inv names w c Hcon) as (s0 & Hs0 & Hn & _).
  assert (s0 = s) by congruence. subst s0.
  set (es := protos.PhysicalState.entities (PhysicsState._proto_state s)) in *.
  assert (Hidx : py_index (length es) i = Ok (Z.to_nat i))
    by (apply py_index_nonneg; unfold len in Hn; lia).
  destruct (lookup_lt_is_Some_2 es (Z.to_nat i) ltac:(unfold len in Hn; lia)) as [e He].
  set (es' := alter (fun e => Entity_with_name e new) (Z.to_nat i) es).
  set (s' := PhysicsState.with_proto s
               (protos.PhysicalState.with_entities (PhysicsState._proto_state s) es')).
  set (w' := put w c s' (ops w)).
  assert (Hs' : objs w' !! c = Some s') by (now apply put_lookup).
  assert (Hrow : es' !! Z.to_nat i = Some (Entity_with_name e new))
    by (unfold es'; now rewrite list_lookup_alter_eq, He).
  assert (Hrest : forall j : nat, j <> Z.to_nat i -> es' !! j = es !! j)
    by (intros j Hj; unfold es'; now rewrite list_lookup_alter_ne).
  exists w', s', e, es'.
  split; [| split; [reflexivity | split; [reflexivity | split; [exact He |
    split; [exact Hrow | split; [exact Hrest | split; [| split; [|
    split; [reflexivity | split; [reflexivity | split]]]]]]]]]].
  - unfold _EntityView_set_name, entity_view_unchanging_fset.
    cbn [_EntityView._creator _EntityView._index].
    rewrite (bind_ok _ _ _ _ _ (deref_live _ _ _ Hs)). fold es. rewrite Hidx. norm.
    rewrite <- (put_id w c s Hs) at 1.
    now rewrite (update_put w c Hc).
  - unfold _EntityView_name. cbn [_EntityView._creator _EntityView._index].
    rewrite (bind_ok _ _ _ _ _ (deref_live _ _ _ Hs')).
    cbn [s' PhysicsState._proto_state PhysicsState.with_proto
         protos.PhysicalState.entities protos.PhysicalState.with_entities].
    unfold py_getitem, es'. rewrite length_alter, Hidx. fold es'.
    rewrite Hrow. reflexivity.
  - intros j Hj Hne.
    unfold _EntityView_name. cbn [_EntityView._creator _EntityView._index].
    rewrite (bind_ok _ _ _ _ _ (deref_live _ _ _ Hs')).
    rewrite (bind_ok _ _ _ _ _ (deref_live _ _ _ Hs)).
    cbn [s' PhysicsState._proto_state PhysicsState.with_proto
         protos.PhysicalState.entities protos.PhysicalState.with_entities].
    fold es. unfold py_getitem, es'. rewrite length_alter. fold es'.
    rewrite py_index_nonneg by (unfold len in Hn; lia).
    rewrite Hrest by lia. now destruct (es !! Z.to_nat j).
  - intros name. unfold PhysicsState__getitem__. norm.
    rewrite (bind_ok _ _ _ _ _ (deref_live _ _ _ Hs')).
    rewrite (bind_ok _ _ _ _ _ (deref_live _ _ _ Hs)).
    change (PhysicsState._entity_names s') with (PhysicsState._entity_names s).
    destruct (list_index name (PhysicsState._entity_names s)); reflexivity.
  - intros name.
    rewrite (name_to_index_run w' c s' name Hs'), (name_to_index_run w c s name Hs).
    reflexivity.
Qed.

(** X14. On a constructed container, iteration yields the views of the
    rows 0, 1, ... in order, as many as [len] returns and as the snapshot
    has entities, and their names are the name table, in order. *)
Theorem iteration_yields_the_rows (w : World) (c : ref) (s : PhysicsState.t) :
  constructed names w c = true ->
  objs w !! c = Some s ->
  PhysicsState__iter__ c w
  = (Ok (List.map (fun i => _EntityView.mk c i) (range (PhysicsState._n s))), w)
  /\ PhysicsState__len__ c w
     = (Ok (len (protos.PhysicalState.entities (PhysicsState._proto_state s))), w)
  /\ len (range (PhysicsState._n s))
     = len (protos.PhysicalState.entities (PhysicsState._proto_state s))
  /\ (vs <- PhysicsState__iter__ c ;; map_each vs _EntityView_name) w
     = (Ok (PhysicsState._entity_names s), w).
Proof.
  intros Hcon Hs.
  destruct (constructed_inv names w c Hcon) as (s0 & Hs0 & Hn & Ht & _).
  assert (s0 = s) by congruence. subst s0.
  assert (Hiter : PhysicsState__iter__ c w
                  = (Ok (List.map (fun i => _EntityView.mk c i)
                           (range (PhysicsState._n s))), w)).
  { unfold PhysicsState__iter__.
    rewrite (bind_ok _ _ _ _ _ (deref_live _ _ _ Hs)).
    now apply map_each_pure. }
  split; [exact Hiter|]. split; [| split].
  - unfold PhysicsState__len__.
    rewrite (bind_ok _ _ _ _ _ (deref_live _ _ _ Hs)). now rewrite Hn.
  - unfold range, len. rewrite length_map, length_seq, Hn. unfold len. lia.
  - rewrite (bind_ok _ _ _ _ _ Hiter).
    rewrite (map_each_pure _ _
               (fun v => nth (Z.to_nat (_EntityView._index v))
                           (PhysicsState._entity_names s) "")).
    + f_equal. f_equal. rewrite List.map_map. cbn [_EntityView._index].
      unfold range. rewrite List.map_map.
      rewrite Hn. unfold len. rewrite Nat2Z.id.
      rewrite <- (length_map protos.Entity.name), <- Ht.
      generalize (PhysicsState._entity_names s). intros l.
      apply list_eq. intros k. rewrite lookup_map.
      destruct (l !! k) as [x|] eqn:Hk.
      * pose proof (lookup_lt_Some _ _ _ Hk).
        rewrite lookup_seq_lt by assumption. simpl. rewrite Nat2Z.id.
        f_equal. apply nth_lookup_Some with (d := "") in Hk. exact Hk.
      * apply lookup_ge_None in Hk. rewrite lookup_seq_ge by assumption. reflexivity.
    + intros v Hv. apply in_map_iff in Hv as (i & <- & Hi).
      unfold range in Hi. apply in_map_iff in Hi as (t & <- & Hin).
      apply in_seq in Hin. cbn [_EntityView._index]. rewrite Nat2Z.id.
      assert (Hlt : (t < length (PhysicsState._entity_names s))%nat)
        by (rewrite Ht, length_map; unfold len in Hn; lia).
      destruct (lookup_lt_is_Some_2 _ _ Hlt) as [x Hx].
      rewrite (nth_lookup_Some _ _ "" _ Hx).
      now apply (entity_name_at names w c s).
Qed.

End Names.


(** ** The map of landings *)

Section Landings.

Variable names : strings.t.
Variables (w0 : World) (c : ref).
Hypothesis Hc : (c < length (objs w0))%nat.
Variable s : PhysicsState.t.
Variable zs : nat -> Z.
Variable n : nat.
Variable o : nat.
Hypothesis Hcells :
  forall t : nat, (t < n)%nat ->
    exists x, PhysicsState._array_rep s !! (o + t)%nat = Some x
              /\ int_of_float x = Ok (zs t).

Local Abbreviation entry t :=
  (if zs t =? PhysicsState.NO_INDEX then [] else [(Z.of_nat t, zs t)]).

Lemma landings_loop (cnt j0 : nat) (acc : list (Z * Z)) (k : nat) :
  (j0 + cnt <= n)%nat ->
  fold_each (List.map Z.of_nat (seq j0 cnt)) acc
    (fun (landed_map : list (Z * Z)) landed =>
       landee <- array_get (mk_ndarray c o n) landed ;;
       i <- lift (int_of_float landee) ;;
       if negb (i =? PhysicsState.NO_INDEX)
       then j <- lift (int_of_float landee) ;;
            ret (landed_map ++ [(landed, j)])%list
       else ret landed_map)
    (put w0 c s k)
  = (Ok (acc ++ concat (List.map (fun t => entry t) (seq j0 cnt)))%list,
     put w0 c s (k + cnt)).
Proof.
  revert j0 acc k. induction cnt as [|cnt IH]; intros j0 acc k Hj.
  - simpl. unfold ret. now rewrite app_nil_r, Nat.add_0_r.
  - simpl seq. simpl List.map. simpl fold_each.
    destruct (Hcells j0 ltac:(lia)) as (x & Hx & Hz).
    norm.
    rewrite (bind_ok _ _ _ _ _
               (array_get_put w0 c Hc (mk_ndarray c o n) (Z.of_nat j0) j0 x s k eq_refl
                  ltac:(cbn [size]; rewrite py_index_nonneg by lia; now rewrite Nat2Z.id)
                  Hx)).
    rewrite Hz. norm.
    destruct (zs j0 =? PhysicsState.NO_INDEX) eqn:E; cbn [negb]; norm.
    + rewrite IH by lia. simpl concat. do 2 f_equal. lia.
    + rewrite IH by lia. simpl concat. rewrite <- app_assoc. do 2 f_equal. lia.
Qed.

End Landings.

Section LandingsCold.

Variable names : strings.t.

Lemma resolved_index (tbl : list string) (lo : string) :
  lo = "" \/ In lo tbl ->
  Z.of_nat (length tbl) < 2 ^ 53 ->
  exists idx,
    name_index tbl (Some lo) = Ok idx
    /\ - (2 ^ 53) < idx < 2 ^ 53
    /\ (idx = PhysicsState.NO_INDEX <-> lo = "")
    /\ (lo <> "" -> list_index lo tbl = Ok idx).
Proof.
  intros Hlo Hlen. destruct (String.eqb_spec lo "") as [->|Hne].
  - exists PhysicsState.NO_INDEX. repeat split; try reflexivity; try lia.
    intros H. contradiction.
  - destruct Hlo as [|Hin]; [contradiction|].
    destruct (list_index_present _ _ Hin) as (t & Ht & Hl).
    pose proof (lookup_lt_Some _ _ _ Hl).
    exists (Z.of_nat t). unfold name_index.
    destruct (String.eqb_spec lo ""); [contradiction|]. rewrite Ht.
    repeat split; try lia; try assumption.
    + unfold PhysicsState.NO_INDEX. lia.
    + intros ->. contradiction.
Qed.

(** X15. On a container built cold from a snapshot, [LandedOn] maps the
    position of every entity that is landed (its [landed_on] is not
    empty) to the position of the entity it is landed on, the first of
    that name, and has no other entry. *)
Theorem LandedOn_after_cold_construction (w : World) (S : protos.PhysicalState.t) :
  landed_on_resolves S ->
  declared_cardinalities names S ->
  int32_fields S ->
  len (protos.PhysicalState.entities S) < 2 ^ 53 ->
  let es := protos.PhysicalState.entities S in
  exists (w' : World) (m : list (Z * Z)),
    (c <- PhysicsState__init__ names None S ;; PhysicsState_LandedOn c) w = (Ok m, w')
    /\ forall i j : Z,
        In (i, j) m <->
        exists (t : nat) (e : protos.Entity.t),
          i = Z.of_nat t /\ es !! t = Some e
          /\ protos.Entity.landed_on e <> ""
          /\ list_index (protos.Entity.landed_on e) (List.map protos.Entity.name es)
             = Ok j.
Proof.
  intros Hres Hcard Hint Hsmall es.
  destruct (cold_init_run names w S Hres Hcard Hint Hsmall)
    as (wa & arr & k & Hc & Hrun & ->).
  set (c := length (objs w)) in *.
  set (tbl := List.map protos.Entity.name es).
  set (N := length es).
  pose proof (cold_buffer_length names w S) as Hlen. fold es in Hlen.
  pose proof (L_eq names es) as HL. fold N in HL.
  set (zs := fun t : nat =>
               match es !! t with
               | Some e => match name_index tbl (Some (protos.Entity.landed_on e)) with
                           | Ok j => j
                           | Raise _ => PhysicsState.NO_INDEX
                           end
               | None => PhysicsState.NO_INDEX
               end).
  assert (Hidx : forall t e, es !! t = Some e ->
            exists idx, name_index tbl (Some (protos.Entity.landed_on e)) = Ok idx
                        /\ zs t = idx /\ - (2 ^ 53) < idx < 2 ^ 53
                        /\ (idx = PhysicsState.NO_INDEX <-> protos.Entity.landed_on e = "")
                        /\ (protos.Entity.landed_on e <> "" ->
                            list_index (protos.Entity.landed_on e) tbl = Ok idx)).
  { intros t e He.
    destruct (resolved_index tbl (protos.Entity.landed_on e)) as (idx & H1 & H2 & H3 & H4).
    - apply (proj1 (List.Forall_forall _ _) Hres).
      apply list_elem_of_In. now apply list_elem_of_lookup_2 in He.
    - subst tbl. rewrite length_map. exact Hsmall.
    - exists idx. repeat split; try assumption; try apply H3; try lia.
      unfold zs. now rewrite He, H1. }
  rewrite (bind_ok _ _ _ _ _ Hrun).
  match goal with
  | |- context [put wa c ?s0 k] => set (sF := s0)
  end.
  assert (Hsz : sized names sF).
  { split; cbn [sF PhysicsState._n PhysicsState._array_rep]; [unfold len; lia|].
    unfold len at 1. rewrite Hlen. pose proof (N_ENGINEERING_FIELDS_nonneg names) as HE0.
    rewrite Z2Nat.id; [reflexivity|]. rewrite expected_size_eq.
    assert (0 <= len es) by (unfold len; lia). lia. }
  unfold PhysicsState_LandedOn.
  rewrite (bind_ok _ _ _ _ _
             (y_component_put names wa c Hc sF k f_landed_on Hsz
                ltac:(cbv; split; discriminate))).
  change (field_order f_landed_on) with 8.
  cbn [size sF PhysicsState._n]. fold es.
  replace (Z.to_nat (8 * len es)) with (8 * N)%nat by (unfold len; lia).
  replace (Z.to_nat (len es)) with N by (unfold len; lia).
  unfold range. rewrite Nat2Z.id.
  rewrite (landings_loop wa c Hc sF zs N (8 * N)%nat).
  - eexists _, _. split; [reflexivity|].
    intros i j. cbn [app]. rewrite in_concat. split.
    + intros (l & Hl & Hin). apply in_map_iff in Hl as (t & <- & Ht).
      apply in_seq in Ht.
      destruct (lookup_lt_is_Some_2 es t ltac:(lia)) as [e He].
      destruct (Hidx t e He) as (idx & H1 & H2 & H3 & H4 & H5).
      destruct (Z.eqb_spec (zs t) PhysicsState.NO_INDEX) as [E|E]; [destruct Hin|].
      destruct Hin as [[= <- <-]|[]].
      exists t, e. repeat split; try assumption.
      * intros E'. apply E. rewrite H2. now apply H4.
      * rewrite H2. apply H5. intros E'. apply E. rewrite H2. now apply H4.
    + intros (t & e & -> & He & Hne & Hj).
      destruct (Hidx t e He) as (idx & H1 & H2 & H3 & H4 & H5).
      pose proof (lookup_lt_Some _ _ _ He).
      assert (Ej : idx = j) by (specialize (H5 Hne); congruence).
      exists [(Z.of_nat t, j)]. split.
      * apply in_map_iff. exists t. split; [| apply in_seq; lia].
        rewrite H2, Ej.
        destruct (Z.eqb_spec j PhysicsState.NO_INDEX) as [E|_]; [| reflexivity].
        exfalso. apply Hne. apply H4. congruence.
      * now left.
  - intros t Ht.
    destruct (lookup_lt_is_Some_2 es t ltac:(lia)) as [e He].
    destruct (Hidx t e He) as (idx & H1 & H2 & H3 & _).
    exists (float_of_Z idx). split.
    + cbn [sF PhysicsState._array_rep].
      pose proof (cold_buffer_cell names w S f_landed_on 8 t e ltac:(simpl; tauto) He) as H8.
      cbn [field_eqb] in H8. unfold cell, stored_cell in H8.
      cbn [field_eqb _LANDED_ON] in H8. fold es tbl in H8. rewrite H1 in H8.
      rewrite (np_coerce_int idx H3) in H8.
      replace (8 * N + t)%nat with (N * Z.to_nat 8 + t)%nat by lia. exact H8.
    + rewrite H2. now apply int_of_float_of_Z.
  - lia.
Qed.

End LandingsCold.


(** ** Whole-row assignment from a plain entity *)

Section RowAssignment.

Variable names : strings.t.
Variables (w0 : World) (c : ref).
Hypothesis Hc : (c < length (objs w0))%nat.

Lemma float_fset_row (s : PhysicsState.t) (k : nat) (n fo i : Z) (x : float64) :
  sized names s -> PhysicsState._n s = n -> 0 <= fo <= 9 -> 0 <= i < n ->
  entity_view_float_fset fo (_EntityView.mk c i) (SFloat x) (put w0 c s k)
  = (Ok tt, put w0 c (poke (Z.to_nat (n * fo + i)) x s) (k + 1)).
Proof.
  intros Hsz <- Hfo Hi. now apply (float_fset_put names w0 c Hc).
Qed.

Lemma bool_fset_row (s : PhysicsState.t) (k : nat) (n fo i : Z) (b : bool) :
  sized names s -> PhysicsState._n s = n -> 0 <= fo <= 9 -> 0 <= i < n ->
  entity_view_bool_fset fo (_EntityView.mk c i) (SBool b) (put w0 c s k)
  = (Ok tt, put w0 c (poke (Z.to_nat (n * fo + i)) (if b then f64_one else f64_zero) s)
              (k + 1)).
Proof.
  intros Hsz <- Hfo Hi.
  change (entity_view_bool_fset fo (_EntityView.mk c i) (SBool b))
    with (entity_view_float_fset fo (_EntityView.mk c i) (SBool b)).
  now apply (float_fset_put names w0 c Hc).
Qed.

Lemma landed_on_fset_row (s : PhysicsState.t) (k : nat) (n i idx : Z) (lo : string) :
  sized names s -> PhysicsState._n s = n -> 0 <= i < n ->
  name_index (PhysicsState._entity_names s) (Some lo) = Ok idx ->
  - (2 ^ 53) < idx < 2 ^ 53 ->
  _EntityView_set_landed_on (_EntityView.mk c i) (Some lo) (put w0 c s k)
  = (Ok tt, put w0 c (poke (Z.to_nat (n * 8 + i)) (float_of_Z idx) s) (k + 1)).
Proof.
  intros Hsz <- Hi Hidx Hb.
  destruct (entity_cell names s 8 i Hsz ltac:(lia) Hi) as [Hpos Hlt].
  unfold _EntityView_set_landed_on, entity_view_landed_on_fset.
  cbn [_EntityView._creator _EntityView._index]. norm.
  assert (Hrun : _name_to_index c (Some lo) (put w0 c s k) = (Ok idx, put w0 c s k))
    by (rewrite (name_to_index_run _ c s (Some lo) (put_lookup w0 c Hc s k));
        now rewrite Hidx).
  rewrite (bind_ok _ _ _ _ _ Hrun). norm.
  rewrite (bind_ok _ _ _ _ _ (deref_put w0 c Hc s _)).
  rewrite (bind_ok _ _ _ _ _ (array_rep_put w0 c Hc s _)).
  change (field_order f_landed_on) with 8.
  exact (array_set_put w0 c Hc (mk_ndarray c 0 _) _ _ (SInt idx) (float_of_Z idx) s k
           eq_refl (np_coerce_int idx Hb) Hpos Hlt).
Qed.

Lemma landed_on_fset_raises (s : PhysicsState.t) (k : nat) (i : Z) (lo : string) :
  lo <> "" -> ~ In lo (PhysicsState._entity_names s) ->
  _EntityView_set_landed_on (_EntityView.mk c i) (Some lo) (put w0 c s k)
  = (Raise NoEntityError, put w0 c s k).
Proof.
  intros Hne Hnin.
  unfold _EntityView_set_landed_on, entity_view_landed_on_fset.
  cbn [_EntityView._creator _EntityView._index]. norm.
  apply bind_raise.
  apply (name_to_index_absent _ c s); [now apply put_lookup | exact Hne |].
  destruct (py_in _ _) eqn:E; [| reflexivity].
  apply py_in_In in E. contradiction.
Qed.

Lemma float_fget_row (s : PhysicsState.t) (k : nat) (n fo i : Z) (x : float64) :
  sized names s -> PhysicsState._n s = n -> 0 <= fo <= 9 -> 0 <= i < n ->
  PhysicsState._array_rep s !! Z.to_nat (n * fo + i) = Some x ->
  entity_view_float_fget fo (_EntityView.mk c i) (put w0 c s k)
  = (Ok x, put w0 c s (k + 1)).
Proof.
  intros Hsz <- Hfo Hi Hx. now apply (float_fget_put names w0 c Hc).
Qed.

Lemma bool_fget_row (s : PhysicsState.t) (k : nat) (n fo i : Z) (x : float64) :
  sized names s -> PhysicsState._n s = n -> 0 <= fo <= 9 -> 0 <= i < n ->
  PhysicsState._array_rep s !! Z.to_nat (n * fo + i) = Some x ->
  entity_view_bool_fget fo (_EntityView.mk c i) (put w0 c s k)
  = (Ok (bool_of_float x), put w0 c s (k + 1)).
Proof.
  intros Hsz <- Hfo Hi Hx.
  destruct (entity_cell names s fo i Hsz Hfo Hi) as [Hpos Hlt].
  unfold entity_view_bool_fget. cbn [_EntityView._creator _EntityView._index].
  rewrite (bind_ok _ _ _ _ _ (deref_put w0 c Hc s k)).
  rewrite (bind_ok _ _ _ _ _ (array_rep_put w0 c Hc s k)).
  now rewrite (bind_ok _ _ _ _ _
                 (array_get_put w0 c Hc (mk_ndarray c 0 _) _ _ x s k eq_refl Hpos Hx)).
Qed.

(** What [landed_on] reads from a cell holding [x]. *)
Lemma landed_on_fget_row (s : PhysicsState.t) (k : nat) (n i : Z) (x : float64) :
  sized names s -> PhysicsState._n s = n -> 0 <= i < n ->
  PhysicsState._array_rep s !! Z.to_nat (n * 8 + i) = Some x ->
  fst (_EntityView_landed_on (_EntityView.mk c i) (put w0 c s k))
  = match int_of_float x with
    | Ok idx => if idx =? PhysicsState.NO_INDEX then Ok ""
                else py_getitem (PhysicsState._entity_names s) idx
    | Raise e => Raise e
    end.
Proof.
  intros Hsz <- Hi Hx.
  destruct (entity_cell names s 8 i Hsz ltac:(lia) Hi) as [Hpos Hlt].
  unfold _EntityView_landed_on, entity_view_landed_on_fget.
  cbn [_EntityView._creator _EntityView._index].
  rewrite (bind_ok _ _ _ _ _ (deref_put w0 c Hc s k)).
  rewrite (bind_ok _ _ _ _ _ (array_rep_put w0 c Hc s k)).
  change (field_order f_landed_on) with 8.
  rewrite (bind_ok _ _ _ _ _
             (array_get_put w0 c Hc (mk_ndarray c 0 _) _ _ x s k eq_refl Hpos Hx)).
  destruct (int_of_float x) as [idx|e]; [| reflexivity].
  norm. destruct (idx =? PhysicsState.NO_INDEX); [reflexivity|].
  unfold lift. reflexivity.
Qed.

End RowAssignment.


Section RowAssignmentRun.

Variable names : strings.t.
Variables (w0 : World) (c : ref).
Hypothesis Hc : (c < length (objs w0))%nat.
Variables (s : PhysicsState.t) (n i : Z) (p : protos.Entity.t).
Hypothesis Hsz : sized names s.
Hypothesis Hn : PhysicsState._n s = n.
Hypothesis Hi : 0 <= i < n.

(** The container after the eight float fields of [p] are stored in row
    [i], and after [landed_on] (as the index [idx]) and [broken] are. *)
Local Abbreviation floats_written :=
  (poke (Z.to_nat (n * 7 + i)) (protos.Entity.throttle p)
     (poke (Z.to_nat (n * 6 + i)) (protos.Entity.fuel p)
        (poke (Z.to_nat (n * 5 + i)) (protos.Entity.spin p)
           (poke (Z.to_nat (n * 4 + i)) (protos.Entity.heading p)
              (poke (Z.to_nat (n * 3 + i)) (protos.Entity.vy p)
                 (poke (Z.to_nat (n * 2 + i)) (protos.Entity.vx p)
                    (poke (Z.to_nat (n * 1 + i)) (protos.Entity.y p)
                       (poke (Z.to_nat (n * 0 + i)) (protos.Entity.x p) s)))))))).

Local Abbreviation row_written idx :=
  (poke (Z.to_nat (n * 9 + i))
     (if protos.Entity.broken p then f64_one else f64_zero)
     (poke (Z.to_nat (n * 8 + i)) (float_of_Z idx) floats_written)).

Lemma setitem_floats (k : nat) (rest : M unit) :
  (_EntityView_set_x (_EntityView.mk c i) (SFloat (protos.Entity.x p)) ;;
   _EntityView_set_y (_EntityView.mk c i) (SFloat (protos.Entity.y p)) ;;
   _EntityView_set_vx (_EntityView.mk c i) (SFloat (protos.Entity.vx p)) ;;
   _EntityView_set_vy (_EntityView.mk c i) (SFloat (protos.Entity.vy p)) ;;
   _EntityView_set_heading (_EntityView.mk c i) (SFloat (protos.Entity.heading p)) ;;
   _EntityView_set_spin (_EntityView.mk c i) (SFloat (protos.Entity.spin p)) ;;
   _EntityView_set_fuel (_EntityView.mk c i) (SFloat (protos.Entity.fuel p)) ;;
   _EntityView_set_throttle (_EntityView.mk c i) (SFloat (protos.Entity.throttle p)) ;;
   rest) (put w0 c s k)
  = rest (put w0 c floats_written (k + 8)).
Proof.
  unfold _EntityView_set_x, _EntityView_set_y, _EntityView_set_vx, _EntityView_set_vy,
    _EntityView_set_heading, _EntityView_set_spin, _EntityView_set_fuel,
    _EntityView_set_throttle.
  change (field_order f_x) with 0. change (field_order f_y) with 1.
  change (field_order f_vx) with 2. change (field_order f_vy) with 3.
  change (field_order f_heading) with 4. change (field_order f_spin) with 5.
  change (field_order f_fuel) with 6. change (field_order f_throttle) with 7.
  do 8 (erewrite bind_ok;
        [| apply (float_fset_row names w0 c Hc);
           [repeat apply sized_poke; exact Hsz | exact Hn | lia | exact Hi] ]).
  do 2 f_equal. lia.
Qed.

Lemma setitem_run (k : nat) (idx : Z) :
  name_index (PhysicsState._entity_names s) (Some (protos.Entity.landed_on p)) = Ok idx ->
  - (2 ^ 53) < idx < 2 ^ 53 ->
  PhysicsState__setitem__ c (IInt i) (EntityOf p) (put w0 c s k)
  = (Ok tt, put w0 c (row_written idx) (k + 10)).
Proof.
  intros Hidx Hb.
  unfold PhysicsState__setitem__, PhysicsState__getitem__, Entity_x, Entity_y,
    Entity_vx, Entity_vy, Entity_heading, Entity_spin, Entity_fuel, Entity_throttle,
    Entity_float, Entity_landed_on, Entity_broken.
  cbv beta iota. norm.
  rewrite setitem_floats.
  erewrite bind_ok;
    [| apply (landed_on_fset_row names w0 c Hc _ _ n i idx);
       [repeat apply sized_poke; exact Hsz | exact Hn | exact Hi | exact Hidx | exact Hb] ].
  unfold _EntityView_set_broken. change (field_order f_broken) with 9.
  rewrite (bool_fset_row names w0 c Hc _ _ n 9 i)
    by (first [repeat apply sized_poke; exact Hsz | exact Hn | lia | exact Hi]).
  do 2 f_equal. lia.
Qed.

Lemma setitem_raises (k : nat) :
  protos.Entity.landed_on p <> "" ->
  ~ In (protos.Entity.landed_on p) (PhysicsState._entity_names s) ->
  PhysicsState__setitem__ c (IInt i) (EntityOf p) (put w0 c s k)
  = (Raise NoEntityError, put w0 c floats_written (k + 8)).
Proof.
  intros Hne Hnin.
  unfold PhysicsState__setitem__, PhysicsState__getitem__, Entity_x, Entity_y,
    Entity_vx, Entity_vy, Entity_heading, Entity_spin, Entity_fuel, Entity_throttle,
    Entity_float, Entity_landed_on, Entity_broken.
  cbv beta iota. norm.
  rewrite setitem_floats.
  apply bind_raise.
  now apply (landed_on_fset_raises w0 c Hc).
Qed.

End RowAssignmentRun.


Section RowAssignmentTheorems.

Variable names : strings.t.

Ltac peel :=
  repeat (rewrite poke_lookup_ne by lia);
  first [ apply poke_lookup; rewrite ?poke_length; lia | eassumption ].

(** X16. On a constructed container, assigning a plain entity to a valid
    row stores its ten mutable fields in that row, as given: the views
    read them back ([heading] is not taken modulo 2 pi, [landed_on] comes
    back as the name), while [name] and [mass] of the row stay those of
    the retained snapshot, the other rows read as before and the
    container stays constructed. *)
Theorem setitem_copies_the_mutable_fields (w : World) (c : ref)
    (s : PhysicsState.t) (i : Z) (p : protos.Entity.t) :
  constructed names w c = true ->
  objs w !! c = Some s ->
  0 <= i < PhysicsState._n s ->
  PhysicsState._n s < 2 ^ 53 ->
  protos.Entity.landed_on p = ""
  \/ In (protos.Entity.landed_on p) (PhysicsState._entity_names s) ->
  exists w',
    PhysicsState__setitem__ c (IInt i) (EntityOf p) w = (Ok tt, w')
    /\ constructed names w' c = true
    /\ fst (_EntityView_x (_EntityView.mk c i) w') = Ok (protos.Entity.x p)
    /\ fst (_EntityView_y (_EntityView.mk c i) w') = Ok (protos.Entity.y p)
    /\ fst (_EntityView_vx (_EntityView.mk c i) w') = Ok (protos.Entity.vx p)
    /\ fst (_EntityView_vy (_EntityView.mk c i) w') = Ok (protos.Entity.vy p)
    /\ fst (_EntityView_heading (_EntityView.mk c i) w') = Ok (protos.Entity.heading p)
    /\ fst (_EntityView_spin (_EntityView.mk c i) w') = Ok (protos.Entity.spin p)
    /\ fst (_EntityView_fuel (_EntityView.mk c i) w') = Ok (protos.Entity.fuel p)
    /\ fst (_EntityView_throttle (_EntityView.mk c i) w') = Ok (protos.Entity.throttle p)
    /\ fst (_EntityView_landed_on (_EntityView.mk c i) w')
       = Ok (protos.Entity.landed_on p)
    /\ fst (_EntityView_broken (_EntityView.mk c i) w') = Ok (protos.Entity.broken p)
    /\ fst (_EntityView_name (_EntityView.mk c i) w')
       = fst (_EntityView_name (_EntityView.mk c i) w)
    /\ fst (_EntityView_mass (_EntityView.mk c i) w')
       = fst (_EntityView_mass (_EntityView.mk c i) w)
    /\ forall (g : field) (j : Z),
        In g float_fields -> 0 <= j < PhysicsState._n s -> j <> i ->
        fst (entity_view_float_fget (field_order g) (_EntityView.mk c j) w')
        = fst (entity_view_float_fget (field_order g) (_EntityView.mk c j) w).
Proof.
  intros Hcon Hs Hi Hsmall Hlo.
  pose proof (constructed_sized names w c s Hcon Hs) as Hsz.
  assert (Hc : (c < length (objs w))%nat) by (now apply lookup_lt_Some in Hs).
  destruct (constructed_inv names w c Hcon) as (s0 & Hs0 & Hn & Ht & _).
  assert (s0 = s) by congruence. subst s0.
  destruct (buffer_length names w c s Hcon Hs) as (Hn0 & HL & HC & HLp & HR).
  set (n := PhysicsState._n s) in *.
  destruct (resolved_index (PhysicsState._entity_names s) (protos.Entity.landed_on p) Hlo)
    as (idx & Hidx & Hb & Hnone & Hfound).
  { rewrite Ht, length_map. unfold len in Hn. lia. }
  pose proof (setitem_run names w c Hc s n i p Hsz eq_refl Hi (ops w) idx Hidx Hb) as Hrun.
  rewrite (put_id w c s Hs) in Hrun.
  match type of Hrun with
  | _ = (_, put w c ?t ?k) => set (sF := t) in *; set (w' := put w c sF k) in *
  end.
  assert (Hs' : objs w' !! c = Some sF) by (now apply put_lookup).
  assert (HszF : sized names sF) by (subst sF; repeat apply sized_poke; exact Hsz).
  assert (Hw' : w' = put w c sF (ops w')) by reflexivity.
  assert (Hfloat : forall fo x, 0 <= fo <= 9 ->
            PhysicsState._array_rep sF !! Z.to_nat (n * fo + i) = Some x ->
            fst (entity_view_float_fget fo (_EntityView.mk c i) w') = Ok x).
  { intros fo x Hfo Hx. rewrite Hw'.
    now rewrite (float_fget_row names w c Hc sF _ n fo i x HszF eq_refl Hfo Hi Hx). }
  exists w'. split; [exact Hrun|]. split.
  { apply (constructed_put names w c s); try assumption; try reflexivity.
    subst sF. now rewrite !poke_length. }
  unfold _EntityView_x, _EntityView_y, _EntityView_vx, _EntityView_vy,
    _EntityView_heading, _EntityView_spin, _EntityView_fuel, _EntityView_throttle,
    _EntityView_broken.
  change (field_order f_x) with 0. change (field_order f_y) with 1.
  change (field_order f_vx) with 2. change (field_order f_vy) with 3.
  change (field_order f_heading) with 4. change (field_order f_spin) with 5.
  change (field_order f_fuel) with 6. change (field_order f_throttle) with 7.
  change (field_order f_broken) with 9.
  repeat match goal with |- _ /\ _ => split end.
  1-8: apply Hfloat; [lia | subst sF; peel].
  - rewrite Hw'.
    rewrite (landed_on_fget_row names w c Hc sF _ n i (float_of_Z idx) HszF eq_refl Hi)
      by (subst sF; peel).
    rewrite (int_of_float_of_Z idx Hb).
    change (PhysicsState._entity_names sF) with (PhysicsState._entity_names s).
    destruct (Z.eqb_spec idx PhysicsState.NO_INDEX) as [E|E].
    + apply Hnone in E. now rewrite E.
    + assert (Hne : protos.Entity.landed_on p <> "") by (intros E'; apply E, Hnone, E').
      specialize (Hfound Hne).
      destruct Hlo as [|Hin]; [contradiction|].
      destruct (list_index_present _ _ Hin) as (t & Ht' & Hl).
      assert (idx = Z.of_nat t) by congruence. subst idx.
      now apply py_getitem_nonneg.
  - rewrite Hw'.
    rewrite (bool_fget_row names w c Hc sF _ n 9 i
               (if protos.Entity.broken p then f64_one else f64_zero)
               HszF eq_refl ltac:(lia) Hi) by (subst sF; peel).
    now destruct (protos.Entity.broken p).
  - unfold _EntityView_name. cbn [_EntityView._creator].
    rewrite (bind_ok _ _ _ _ _ (deref_live _ _ _ Hs')).
    rewrite (bind_ok _ _ _ _ _ (deref_live _ _ _ Hs)).
    change (PhysicsState._proto_state sF) with (PhysicsState._proto_state s).
    destruct (py_getitem _ _); reflexivity.
  - unfold _EntityView_mass. cbn [_EntityView._creator].
    rewrite (bind_ok _ _ _ _ _ (deref_live _ _ _ Hs')).
    rewrite (bind_ok _ _ _ _ _ (deref_live _ _ _ Hs)).
    change (PhysicsState._proto_state sF) with (PhysicsState._proto_state s).
    destruct (py_getitem _ _); reflexivity.
  - intros g j Hg Hj Hji.
    pose proof (float_fields_order g Hg) as Hgo.
    destruct (entity_cell names s _ j Hsz Hgo Hj) as [_ Hlt'].
    destruct (lookup_lt_is_Some_2 _ _ Hlt') as [y Hy]. fold n in Hy.
    rewrite Hw'.
    rewrite (float_fget_row names w c Hc sF _ n _ j y HszF eq_refl Hgo Hj).
    + now rewrite (float_fget_live names w c s _ j y Hs Hsz Hgo Hj Hy).
    + subst sF.
      repeat (rewrite poke_lookup_ne;
              [| intros E; apply entity_cell_inj in E; lia]).
      exact Hy.
Qed.

(** X17. On a constructed container, assigning to a valid row a plain
    entity whose [landed_on] is neither empty nor a name of the table
    raises [NoEntityError] after the eight float fields have been stored:
    the row then reads the new [x] .. [throttle] and the old [landed_on]
    and [broken]; nothing is rolled back. *)
Theorem failed_setitem_is_not_rolled_back (w : World) (c : ref)
    (s : PhysicsState.t) (i : Z) (p : protos.Entity.t) :
  constructed names w c = true ->
  objs w !! c = Some s ->
  0 <= i < PhysicsState._n s ->
  protos.Entity.landed_on p <> "" ->
  ~ In (protos.Entity.landed_on p) (PhysicsState._entity_names s) ->
  exists w',
    PhysicsState__setitem__ c (IInt i) (EntityOf p) w = (Raise NoEntityError, w')
    /\ constructed names w' c = true
    /\ fst (_EntityView_x (_EntityView.mk c i) w') = Ok (protos.Entity.x p)
    /\ fst (_EntityView_y (_EntityView.mk c i) w') = Ok (protos.Entity.y p)
    /\ fst (_EntityView_vx (_EntityView.mk c i) w') = Ok (protos.Entity.vx p)
    /\ fst (_EntityView_vy (_EntityView.mk c i) w') = Ok (protos.Entity.vy p)
    /\ fst (_EntityView_heading (_EntityView.mk c i) w') = Ok (protos.Entity.heading p)
    /\ fst (_EntityView_spin (_EntityView.mk c i) w') = Ok (protos.Entity.spin p)
    /\ fst (_EntityView_fuel (_EntityView.mk c i) w') = Ok (protos.Entity.fuel p)
    /\ fst (_EntityView_throttle (_EntityView.mk c i) w') = Ok (protos.Entity.throttle p)
    /\ fst (_EntityView_landed_on (_EntityView.mk c i) w')
       = fst (_EntityView_landed_on (_EntityView.mk c i) w)
    /\ fst (_EntityView_broken (_EntityView.mk c i) w')
       = fst (_EntityView_broken (_EntityView.mk c i) w).
Proof.
  intros Hcon Hs Hi Hne Hnin.
  pose proof (constructed_sized names w c s Hcon Hs) as Hsz.
  assert (Hc : (c < length (objs w))%nat) by (now apply lookup_lt_Some in Hs).
  destruct (buffer_length names w c s Hcon Hs) as (Hn0 & HL & HC & HLp & HR).
  set (n := PhysicsState._n s) in *.
  pose proof (setitem_raises names w c Hc s n i p Hsz eq_refl Hi (ops w) Hne Hnin) as Hrun.
  rewrite (put_id w c s Hs) in Hrun.
  match type of Hrun with
  | _ = (_, put w c ?t ?k) => set (sF := t) in *; set (w' := put w c sF k) in *
  end.
  assert (Hs' : objs w' !! c = Some sF) by (now apply put_lookup).
  assert (HszF : sized names sF) by (subst sF; repeat apply sized_poke; exact Hsz).
  assert (Hw' : w' = put w c sF (ops w')) by reflexivity.
  assert (Hfloat : forall fo x, 0 <= fo <= 9 ->
            PhysicsState._array_rep sF !! Z.to_nat (n * fo + i) = Some x ->
            fst (entity_view_float_fget fo (_EntityView.mk c i) w') = Ok x).
  { intros fo x Hfo Hx. rewrite Hw'.
    now rewrite (float_fget_row names w c Hc sF _ n fo i x HszF eq_refl Hfo Hi Hx). }
  assert (H8 : (Z.to_nat (n * 8 + i) < length (PhysicsState._array_rep s))%nat) by lia.
  assert (H9 : (Z.to_nat (n * 9 + i) < length (PhysicsState._array_rep s))%nat) by lia.
  destruct (lookup_lt_is_Some_2 _ _ H8) as [x8 Hx8].
  destruct (lookup_lt_is_Some_2 _ _ H9) as [x9 Hx9].
  exists w'. split; [exact Hrun|]. split.
  { apply (constructed_put names w c s); try assumption; try reflexivity.
    subst sF. now rewrite !poke_length. }
  unfold _EntityView_x, _EntityView_y, _EntityView_vx, _EntityView_vy,
    _EntityView_heading, _EntityView_spin, _EntityView_fuel, _EntityView_throttle,
    _EntityView_broken.
  change (field_order f_x) with 0. change (field_order f_y) with 1.
  change (field_order f_vx) with 2. change (field_order f_vy) with 3.
  change (field_order f_heading) with 4. change (field_order f_spin) with 5.
  change (field_order f_fuel) with 6. change (field_order f_throttle) with 7.
  change (field_order f_broken) with 9.
  repeat match goal with |- _ /\ _ => split end.
  1-8: apply Hfloat; [lia | subst sF; peel].
  - rewrite Hw'.
    rewrite (landed_on_fget_row names w c Hc sF _ n i x8 HszF eq_refl Hi)
      by (subst sF; peel).
    symmetry. rewrite <- (put_id w c s Hs) at 1.
    exact (landed_on_fget_row names w c Hc s _ n i x8 Hsz eq_refl Hi Hx8).
  - rewrite Hw'.
    rewrite (bool_fget_row names w c Hc sF _ n 9 i x9 HszF eq_refl ltac:(lia) Hi)
      by (subst sF; peel).
    symmetry. rewrite <- (put_id w c s Hs) at 1.
    now rewrite (bool_fget_row names w c Hc s _ n 9 i x9 Hsz eq_refl ltac:(lia) Hi Hx9).
Qed.

End RowAssignmentTheorems.


(** ** Reference and target *)

Section Reference.

Variable names : strings.t.

(** X18. After [reference] (or [target]) is assigned a name,
    the property reads that name back, and [reference_entity()]
    ([target_entity()]) is what [C[name]] is: the view of the first row
    of that name, or [ValueError] when no entity has it, as with the
    empty name. *)
Theorem reference_entity_follows_the_reference (w : World) (c : ref)
    (s : PhysicsState.t) (name : string) :
  objs w !! c = Some s ->
  (exists w',
      PhysicsState_set_reference c name w = (Ok tt, w')
      /\ fst (PhysicsState_reference c w') = Ok name
      /\ fst (PhysicsState_reference_entity c w')
         = fst (PhysicsState__getitem__ c (IStr name) w)
      /\ (In name (PhysicsState._entity_names s) ->
          exists i : nat,
            fst (PhysicsState_reference_entity c w') = Ok (_EntityView.mk c (Z.of_nat i))
            /\ PhysicsState._entity_names s !! i = Some name
            /\ forall j : nat, (j < i)%nat ->
                 PhysicsState._entity_names s !! j <> Some name)
      /\ (~ In name (PhysicsState._entity_names s) ->
          fst (PhysicsState_reference_entity c w') = Raise ValueError))
  /\ (exists w',
         PhysicsState_set_target c name w = (Ok tt, w')
         /\ fst (PhysicsState_target c w') = Ok name
         /\ fst (PhysicsState_target_entity c w')
            = fst (PhysicsState__getitem__ c (IStr name) w)
         /\ (In name (PhysicsState._entity_names s) ->
             exists i : nat,
               fst (PhysicsState_target_entity c w') = Ok (_EntityView.mk c (Z.of_nat i))
               /\ PhysicsState._entity_names s !! i = Some name
               /\ forall j : nat, (j < i)%nat ->
                    PhysicsState._entity_names s !! j <> Some name)
         /\ (~ In name (PhysicsState._entity_names s) ->
             fst (PhysicsState_target_entity c w') = Raise ValueError)).
Proof.
  intros Hs.
  assert (Hc : (c < length (objs w))%nat) by (now apply lookup_lt_Some in Hs).
  assert (Hget : forall w0 s0, objs w0 !! c = Some s0 ->
            PhysicsState._entity_names s0 = PhysicsState._entity_names s ->
            fst (PhysicsState__getitem__ c (IStr name) w0)
            = match list_index name (PhysicsState._entity_names s) with
              | Ok i => Ok (_EntityView.mk c i)
              | Raise e => Raise e
              end).
  { intros w0 s0 Hs0 He. unfold PhysicsState__getitem__. norm.
    rewrite (bind_ok _ _ _ _ _ (deref_live _ _ _ Hs0)). rewrite He.
    destruct (list_index name _); reflexivity. }
  split.
  - set (s' := PhysicsState.with_proto s
                 (PhysicalState_with_reference (PhysicsState._proto_state s) name)).
    set (w' := put w c s' (ops w)).
    assert (Hs' : objs w' !! c = Some s') by (now apply put_lookup).
    assert (Hent : fst (PhysicsState_reference_entity c w')
                   = fst (PhysicsState__getitem__ c (IStr name) w')).
    { unfold PhysicsState_reference_entity.
      now rewrite (bind_ok _ _ _ _ _ (deref_live _ _ _ Hs')). }
    exists w'. split; [| split; [| split; [| split]]].
    + unfold PhysicsState_set_reference. rewrite <- (put_id w c s Hs) at 1.
      now rewrite (update_put w c Hc).
    + unfold PhysicsState_reference.
      now rewrite (bind_ok _ _ _ _ _ (deref_live _ _ _ Hs')).
    + rewrite Hent, (Hget w' s' Hs' eq_refl). symmetry. now apply (Hget w s).
    + intros Hin. destruct (list_index_In _ _ Hin) as (i & Hi & Hl & Hfirst).
      exists i. rewrite Hent, (Hget w' s' Hs' eq_refl), Hi. now repeat split.
    + intros Hnin. rewrite Hent, (Hget w' s' Hs' eq_refl).
      now rewrite (list_index_not_In _ _ Hnin).
  - set (s' := PhysicsState.with_proto s
                 (PhysicalState_with_target (PhysicsState._proto_state s) name)).
    set (w' := put w c s' (ops w)).
    assert (Hs' : objs w' !! c = Some s') by (now apply put_lookup).
    assert (Hent : fst (PhysicsState_target_entity c w')
                   = fst (PhysicsState__getitem__ c (IStr name) w')).
    { unfold PhysicsState_target_entity.
      now rewrite (bind_ok _ _ _ _ _ (deref_live _ _ _ Hs')). }
    exists w'. split; [| split; [| split; [| split]]].
    + unfold PhysicsState_set_target. rewrite <- (put_id w c s Hs) at 1.
      now rewrite (update_put w c Hc).
    + unfold PhysicsState_target.
      now rewrite (bind_ok _ _ _ _ _ (deref_live _ _ _ Hs')).
    + rewrite Hent, (Hget w' s' Hs' eq_refl). symmetry. now apply (Hget w s).
    + intros Hin. destruct (list_index_In _ _ Hin) as (i & Hi & Hl & Hfirst).
      exists i. rewrite Hent, (Hget w' s' Hs' eq_refl), Hi. now repeat split.
    + intros Hnin. rewrite Hent, (Hget w' s' Hs' eq_refl).
      now rewrite (list_index_not_In _ _ Hnin).
Qed.

End Reference.


(** ** The further properties on the demo configuration *)

(** [reference] of the demo snapshot is "Earth", which is no entity. *)
Example reference_entity_of_docked :
  fst (PhysicsState_reference_entity 0%nat docked_world) = Raise ValueError.
Proof. reflexivity. Qed.

(** Coolant loop LP2 looked up by name. *)
Lemma lookup_of_LP2 :
  exists v,
    CoolantLoopList__getitem__ demo_names 0%nat (IStr "LP2") docked_world = (Ok v, docked_world)
    /\ CoolantView._n v = 1
    /\ CoolantView_name demo_names v = Ok "LP2".
Proof.
  destruct (subsystem_lookup_by_name demo_names docked_world 0%nat docked_container "LP2"
              eq_refl) as (_ & H & _).
  destruct H as (v & H1 & _ & H3 & H4); [simpl; tauto|].
  exists v. repeat split; try assumption.
  injection H3 as <-. reflexivity.
Defined.

(** AYSE looked up by name in the docked container. *)
Lemma lookup_of_AYSE :
  exists i : nat,
    PhysicsState__getitem__ 0%nat (IStr AYSE) docked_world
    = (Ok (_EntityView.mk 0%nat (Z.of_nat i)), docked_world)
    /\ _EntityView_name (_EntityView.mk 0%nat (Z.of_nat i)) docked_world
       = (Ok AYSE, docked_world).
Proof.
  destruct (entity_lookup_by_name demo_names docked_world 0%nat docked_container AYSE
              eq_refl eq_refl) as [H _].
  destruct H as (i & H1 & _ & _ & H4); [simpl; tauto|].
  exists i. split; assumption.
Defined.

(** The int 3 stored in [vy] of row 1. *)
Lemma vy_of_row_one :
  exists w',
    _EntityView_set_vy (_EntityView.mk 0%nat 1) (SInt 3) docked_world = (Ok tt, w')
    /\ fst (_EntityView_vy (_EntityView.mk 0%nat 1) w') = Ok (float_of_Z 3)
    /\ fst (_EntityView_vy (_EntityView.mk 0%nat 0) w')
       = fst (_EntityView_vy (_EntityView.mk 0%nat 0) docked_world).
Proof.
  destruct (view_write_is_local demo_names docked_world 0%nat docked_container f_vy 1
              (SInt 3) (float_of_Z 3) eq_refl eq_refl)
    as (w' & H1 & _ & _ & H2 & H3).
  - simpl. tauto.
  - simpl. lia.
  - reflexivity.
  - exists w'. split; [exact H1 | split; [exact H2|]].
    apply (H3 f_vy 0); [simpl; tauto | simpl; lia | discriminate].
Defined.

(** [pos = (1, 1.0)] on row 1. *)
Lemma pos_of_row_one :
  exists w',
    _EntityView_set_pos (_EntityView.mk 0%nat 1) [SInt 1; SFloat f64_one] docked_world
    = (Ok tt, w')
    /\ fst (Entity_pos (ViewOf (_EntityView.mk 0%nat 1)) w') = Ok [float_of_Z 1; f64_one].
Proof.
  destruct (pos_assignment demo_names docked_world 0%nat docked_container 1
              (SInt 1) (SFloat f64_one) [] (float_of_Z 1) f64_one eq_refl eq_refl)
    as (H & _); [simpl; lia | reflexivity | reflexivity |].
  exact H.
Defined.

(** The temperature of the one component set to 99. *)
Lemma temperature_of_RCON1 :
  exists w',
    (v <- ComponentList__getitem__ demo_names 0%nat (IInt 0) ;;
     ComponentView_set_temperature v (SInt 99)) docked_world = (Ok tt, w')
    /\ fst ((v <- ComponentList__getitem__ demo_names 0%nat (IInt 0) ;;
             ComponentView_temperature v) w') = Ok (float_of_Z 99).
Proof.
  destruct (component_write_is_local demo_names docked_world 0%nat docked_container 0
              (SInt 99) (float_of_Z 99) eq_refl eq_refl)
    as (w' & H1 & _ & _ & H2 & _).
  - split; cbv; congruence.
  - reflexivity.
  - exists w'. split; assumption.
Defined.

(** The radiator moved from loop 2 to loop 1. *)
Lemma RAD1_on_loop_one :
  exists w',
    (v <- RadiatorList__getitem__ demo_names 0%nat (IInt 0) ;;
     RadiatorView_set_attached_to_coolant_loop v (SInt 1)) docked_world = (Ok tt, w')
    /\ fst ((v <- RadiatorList__getitem__ demo_names 0%nat (IInt 0) ;;
             RadiatorView_get_coolant_loop demo_names v) w')
       = Ok (CoolantView.mk (coolant_loops_array demo_names docked_container) 0).
Proof.
  destruct (attaching_a_radiator demo_names docked_world 0%nat docked_container 0 1
              eq_refl eq_refl)
    as (w' & H1 & _ & _ & H2 & H3).
  - split; cbv; congruence.
  - split; cbv; congruence.
  - reflexivity.
  - exists w'. split; [exact H1|]. rewrite H2. exact H3.
Defined.

(** [srb_time = 5.0] on the docked container. *)
Lemma srb_time_of_docked :
  exists w',
    PhysicsState_set_srb_time demo_names 0%nat (float_of_Z 5) docked_world = (Ok tt, w')
    /\ fst (PhysicsState_srb_time 0%nat w') = Ok (float_of_Z 5)
    /\ fst ((a <- y0 0%nat ;; array_get a (SRB_TIME_INDEX demo_names)) w')
       = Ok (float_of_Z 5).
Proof.
  destruct (scalar_setters_write_both_copies demo_names docked_world 0%nat
              docked_container (float_of_Z 5) eq_refl eq_refl)
    as ((w' & H1 & _ & H2 & H3 & _) & _).
  exists w'. repeat split; assumption.
Defined.

(** A second container built from the buffer of the docked one. *)
Lemma second_container_from_buffer :
  exists (w' : World) (s : PhysicsState.t),
    PhysicsState__init__ demo_names (Some docked_buffer) docked docked_world = (Ok 1%nat, w')
    /\ objs w' = (objs docked_world ++ [s])%list
    /\ constructed demo_names w' 1%nat = true.
Proof.
  destruct (hot_construction demo_names docked_world docked_buffer docked)
    as (w' & s & srb & acc & H1 & H2 & H3 & _).
  - repeat split; reflexivity.
  - reflexivity.
  - exists w', s. repeat split; assumption.
Defined.

(** The snapshot whose entity has landed on Mars. *)
Lemma landed_nowhere_is_refused :
  exists w',
    PhysicsState__init__ demo_names None landed_nowhere empty_world
    = (Raise NoEntityError, w').
Proof.
  apply (cold_construction_refuses_unknown_landed_on demo_names empty_world landed_nowhere).
  - intros H. inversion H as [|e l [E|E] _]; subst.
    + discriminate E.
    + simpl in E. destruct E as [E|[]]. discriminate E.
  - reflexivity.
Defined.

(** The buffer of the docked snapshot. *)
Lemma layout_of_docked :
  exists (w' : World) (s : PhysicsState.t),
    PhysicsState__init__ demo_names None docked empty_world = (Ok 0%nat, w')
    /\ objs w' !! 0%nat = Some s
    /\ scalars_in_sync demo_names s
    /\ PhysicsState._array_rep s !! 8%nat = Some (np_mod (float_of_Z (-7)) two_pi)
    /\ PhysicsState._array_rep s !! 9%nat = Some (np_mod (float_of_Z 7) two_pi).
Proof.
  destruct (cold_construction_layout demo_names empty_world docked)
    as (w' & s & H1 & H2 & _ & _ & _ & H3 & H4 & _).
  - repeat constructor; simpl; tauto.
  - repeat split; reflexivity.
  - split; repeat constructor; vm_compute; discriminate.
  - reflexivity.
  - exists w', s. split; [exact H1 | split; [exact H2 | split; [exact H3|]]].
    split.
    + destruct (H4 0%nat _ eq_refl) as (_ & _ & _ & _ & H & _). exact H.
    + destruct (H4 1%nat _ eq_refl) as (_ & _ & _ & _ & H & _). exact H.
Defined.

(** The demo entities have an atmosphere (thickness 11, scaling 12). *)
Lemma atmospheres_of_docked :
  exists (w' : World) (l : list Z),
    PhysicsState_Atmospheres 0%nat docked_world = (Ok l, w')
    /\ PhysicsState_Atmospheres 0%nat w' = (Ok l, w')
    /\ In 1 l.
Proof.
  destruct (Atmospheres_is_computed_once docked_world 0%nat docked_container eq_refl eq_refl)
    as (w' & l & H1 & _ & H2 & _ & H3 & _).
  exists w', l. split; [exact H1 | split; [exact H3|]].
  apply H2. exists 1%nat. eexists. repeat split; reflexivity.
Defined.

(** Row 1 of the docked pair renamed to "Ship": row 0 is still read as
    "Habitat", and "Ship" is still not a name the container looks up. *)
Lemma AYSE_renamed :
  exists w',
    _EntityView_set_name (_EntityView.mk 0%nat 1) "Ship" docked_world = (Ok tt, w')
    /\ fst (_EntityView_name (_EntityView.mk 0%nat 1) w') = Ok "Ship"
    /\ fst (_EntityView_name (_EntityView.mk 0%nat 0) w')
       = fst (_EntityView_name (_EntityView.mk 0%nat 0) docked_world)
    /\ fst (PhysicsState__getitem__ 0%nat (IStr "Ship") w')
       = fst (PhysicsState__getitem__ 0%nat (IStr "Ship") docked_world).
Proof.
  destruct (renaming_leaves_the_name_table demo_names docked_world 0%nat docked_container
              1 "Ship" eq_refl eq_refl)
    as (w' & s' & e & es' & H1 & _ & _ & _ & _ & _ & H2 & H3 & _ & _ & H4 & _);
    [simpl; lia|].
  exists w'. split; [exact H1 | split; [exact H2 | split; [| apply H4]]].
  apply H3; simpl; lia.
Defined.

(** The rows of the docked container. *)
Lemma rows_of_docked :
  PhysicsState__iter__ 0%nat docked_world
  = (Ok (List.map (fun i => _EntityView.mk 0%nat i)
           (range (PhysicsState._n docked_container))), docked_world)
  /\ (vs <- PhysicsState__iter__ 0%nat ;; map_each vs _EntityView_name) docked_world
     = (Ok (PhysicsState._entity_names docked_container), docked_world).
Proof.
  destruct (iteration_yields_the_rows demo_names docked_world 0%nat docked_container
              eq_refl eq_refl) as (H1 & _ & _ & H2).
  split; assumption.
Defined.

(** Habitat (row 0) is landed on AYSE (row 1). *)
Lemma landings_of_docked :
  exists (w' : World) (m : list (Z * Z)),
    (c <- PhysicsState__init__ demo_names None docked ;; PhysicsState_LandedOn c) empty_world
    = (Ok m, w')
    /\ In (0, 1) m.
Proof.
  destruct (LandedOn_after_cold_construction demo_names empty_world docked)
    as (w' & m & H1 & H2).
  - repeat constructor; simpl; tauto.
  - repeat split; reflexivity.
  - split; repeat constructor; vm_compute; discriminate.
  - reflexivity.
  - exists w', m. split; [exact H1|].
    apply H2. exists 0%nat. eexists.
    split; [reflexivity | split; [reflexivity | split; [discriminate | reflexivity]]].
Defined.

(** The visitor assigned to row 1. *)
Lemma visitor_in_row_one :
  exists w',
    PhysicsState__setitem__ 0%nat (IInt 1) (EntityOf visitor) docked_world = (Ok tt, w')
    /\ fst (_EntityView_heading (_EntityView.mk 0%nat 1) w') = Ok (float_of_Z 100)
    /\ fst (_EntityView_landed_on (_EntityView.mk 0%nat 1) w') = Ok HABITAT
    /\ fst (_EntityView_name (_EntityView.mk 0%nat 1) w')
       = fst (_EntityView_name (_EntityView.mk 0%nat 1) docked_world).
Proof.
  destruct (setitem_copies_the_mutable_fields demo_names docked_world 0%nat
              docked_container 1 visitor eq_refl eq_refl)
    as (w' & H1 & _ & _ & _ & _ & _ & H2 & _ & _ & _ & H3 & _ & H4 & _).
  - simpl. lia.
  - reflexivity.
  - right. simpl. tauto.
  - exists w'. repeat split; assumption.
Defined.

(** The stray assigned to row 1. *)
Lemma stray_in_row_one :
  exists w',
    PhysicsState__setitem__ 0%nat (IInt 1) (EntityOf stray) docked_world
    = (Raise NoEntityError, w')
    /\ fst (_EntityView_x (_EntityView.mk 0%nat 1) w') = Ok (protos.Entity.x stray)
    /\ fst (_EntityView_landed_on (_EntityView.mk 0%nat 1) w')
       = fst (_EntityView_landed_on (_EntityView.mk 0%nat 1) docked_world).
Proof.
  destruct (failed_setitem_is_not_rolled_back demo_names docked_world 0%nat
              docked_container 1 stray eq_refl eq_refl)
    as (w' & H1 & _ & H2 & _ & _ & _ & _ & _ & _ & _ & H3 & _).
  - simpl. lia.
  - discriminate.
  - simpl. intros [E|[E|[]]]; discriminate E.
  - exists w'. repeat split; assumption.
Defined.

(** The reference set to AYSE. *)
Lemma reference_set_to_AYSE :
  exists w',
    PhysicsState_set_reference 0%nat AYSE docked_world = (Ok tt, w')
    /\ fst (PhysicsState_reference 0%nat w') = Ok AYSE
    /\ fst (PhysicsState_reference_entity 0%nat w')
       = fst (PhysicsState__getitem__ 0%nat (IStr AYSE) docked_world).
Proof.
  destruct (reference_entity_follows_the_reference docked_world 0%nat docked_container
              AYSE eq_refl) as ((w' & H1 & H2 & H3 & _) & _).
  exists w'. repeat split; assumption.
Defined.
